(** * Agentic ETL pipeline: a shallow embedding of the code-generation loop

    The development follows the Python sources of the repository:

    - [etl/helpers.py]: [clean_code_fences], [sanitize_column_name],
      [get_file_list], [load_metadata], [save_metadata], [update_metadata];
    - [etl/transform_agent.py]: [generate_transformation_code] (the binding
      repair), [execute_transformation], [transform], [iterative_transform];
    - [etl/load_agent.py]: [load_to_duckdb], [ai_determine_destination],
      [load];
    - [orchestrator/run_pipeline.py]: [ETLPipeline.run];
    - [etl/visualize_agent.py]: [generate_visualization_code],
      [execute_visualization], [create_visualization],
      [create_multiple_visualizations];
    - [etl/extract_agent.py]: [detect_sources], [extract_file],
      [extract_all], [ai_assisted_extract];
    - [etl/extract_inspect.py]: [clean_columns].

    Python text is a sequence of characters; here it is a [list ascii], read
    as code points 0..255 (Latin-1), with Python's own classification of
    these code points (whitespace, word characters, identifiers, lower
    case).  Effects (the completion service, [exec], the database, the
    clock, logging, raised exceptions) are explicit: a state and exception
    monad over a record that holds the outside world, the heap of DataFrame
    objects and the log. *)

From Stdlib Require Import Ascii String.
From stdpp Require Import gmap strings list fin_maps pretty.

(** ** Python text *)

Abbreviation pystr := (list ascii).

(** A literal. *)
Definition py (s : string) : pystr := list_ascii_of_string s.
Arguments py : simpl never.

Module Char.

Definition code (c : ascii) : N := N_of_ascii c.

Definition in_range (lo hi : N) (c : ascii) : bool :=
  ((lo <=? code c) && (code c <=? hi))%N.

Definition is_code (n : N) (c : ascii) : bool := (code c =? n)%N.

(** [str.isspace] and the class [\s] of [re] on a [str] pattern:
    TAB..CR, FS..US, SPACE, NEL and NBSP. *)
Definition isspace (c : ascii) : bool :=
  in_range 9 13 c || in_range 28 32 c || is_code 133 c || is_code 160 c.

(** The characters at which [str.splitlines] ends a line:
    LF, VT, FF, CR, FS, GS, RS and NEL. *)
Definition islinebreak (c : ascii) : bool :=
  in_range 10 13 c || in_range 28 30 c || is_code 133 c.

Definition isupper (c : ascii) : bool :=
  in_range 65 90 c || in_range 192 214 c || in_range 216 222 c.

(** Letters: A-Z, a-z, the ordinal indicators, the micro sign and the
    accented letters. *)
Definition isalpha (c : ascii) : bool :=
  in_range 65 90 c || in_range 97 122 c || is_code 170 c || is_code 181 c ||
  is_code 186 c || in_range 192 214 c || in_range 216 246 c ||
  in_range 248 255 c.

(** Digits, superscript digits and vulgar fractions. *)
Definition isnumeric (c : ascii) : bool :=
  in_range 48 57 c || in_range 178 179 c || is_code 185 c || in_range 188 190 c.

Definition isalnum (c : ascii) : bool := isalpha c || isnumeric c.

Definition underscore : ascii := "_"%char.

Definition is_underscore (c : ascii) : bool := is_code 95 c.

(** The class [\w] of [re]: alphanumeric or the underscore. *)
Definition isword (c : ascii) : bool := isalnum c || is_underscore c.

(** [str.lower], one character at a time. *)
Definition lower (c : ascii) : ascii :=
  if isupper c then ascii_of_N (code c + 32) else c.

(** First and later characters of an identifier ([str.isidentifier]). *)
Definition isidstart (c : ascii) : bool := isalpha c || is_underscore c.

Definition isidcontinue (c : ascii) : bool :=
  isidstart c || in_range 48 57 c || is_code 183 c.

End Char.

Module Str.

Definition eqb (a b : pystr) : bool := bool_decide (a = b).

(** [s.lower()] *)
Definition lower (s : pystr) : pystr := Char.lower <$> s.

(** The functions that work one character at a time are written for any
    alphabet [C]; the text of the model is the case [C = ascii]. *)
Fixpoint dropwhile {C} (p : C → bool) (s : list C) : list C :=
  match s with
  | [] => []
  | c :: s' => if p c then dropwhile p s' else s
  end.

Definition lstrip {C} (p : C → bool) (s : list C) : list C := dropwhile p s.

Definition rstrip {C} (p : C → bool) (s : list C) : list C :=
  reverse (dropwhile p (reverse s)).

(** [s.strip(chars)], with [p] the membership test of [chars]; and
    [s.strip()], which trims white space. *)
Definition strip_chars {C} (p : C → bool) (s : list C) : list C :=
  rstrip p (lstrip p s).

Definition strip (s : pystr) : pystr := strip_chars Char.isspace s.

(** [s.startswith(prefix)] *)
Fixpoint startswith (prefix s : pystr) : bool :=
  match prefix, s with
  | [], _ => true
  | _ :: _, [] => false
  | a :: prefix', b :: s' => bool_decide (a = b) && startswith prefix' s'
  end.

(** [sub in s] *)
Fixpoint contains (sub s : pystr) : bool :=
  startswith sub s ||
  match s with
  | [] => false
  | _ :: s' => contains sub s'
  end.

(** [sep.join(parts)] *)
Fixpoint join (sep : pystr) (parts : list pystr) : pystr :=
  match parts with
  | [] => []
  | [p] => p
  | p :: rest => p ++ sep ++ join sep rest
  end.

(** [s.split(c)] for a one-character separator: never the empty list. *)
Fixpoint split (sep : ascii) (s : pystr) : list pystr :=
  match s with
  | [] => [[]]
  | c :: s' =>
      if bool_decide (c = sep) then [] :: split sep s'
      else match split sep s' with
           | [] => [[c]]
           | p :: rest => (c :: p) :: rest
           end
  end.

(** [s.splitlines()]: a line ends at a line-break character, CR LF counts
    once, and there is no empty last line after a final line break.
    [cur] holds the characters of the current line, last one first. *)
Fixpoint splitlines_from (cur : pystr) (s : pystr) : list pystr :=
  match s with
  | [] => match cur with [] => [] | _ => [reverse cur] end
  | c :: s' =>
      if Char.islinebreak c then
        reverse cur ::
          match s' with
          | d :: s'' =>
              if Char.is_code 13 c && Char.is_code 10 d then splitlines_from [] s''
              else splitlines_from [] s'
          | [] => splitlines_from [] s'
          end
      else splitlines_from (c :: cur) s'
  end.

Definition splitlines (s : pystr) : list pystr := splitlines_from [] s.

(** [re.sub(r'[^...]', repl, s)] for a one-character class: every
    character outside [keep] becomes [repl]. *)
Definition sub_each {C} (keep : C → bool) (repl : C) (s : list C) : list C :=
  (λ c, if keep c then c else repl) <$> s.

(** [re.sub(r'C+', repl, s)] for a character class [C]: every maximal run
    of characters of the class becomes one [repl].  [in_run] tells that
    the previous character was in the class. *)
Fixpoint sub_runs_from {C} (cls : C → bool) (repl : C) (in_run : bool)
    (s : list C) : list C :=
  match s with
  | [] => []
  | c :: s' =>
      if cls c then
        if in_run then sub_runs_from cls repl true s'
        else repl :: sub_runs_from cls repl true s'
      else c :: sub_runs_from cls repl false s'
  end.

Definition sub_runs {C} (cls : C → bool) (repl : C) (s : list C) : list C :=
  sub_runs_from cls repl false s.

(** [s.isidentifier()] *)
Definition isidentifier (s : pystr) : bool :=
  match s with
  | [] => false
  | c :: s' => Char.isidstart c && forallb Char.isidcontinue s'
  end.

End Str.

(** ** [etl/helpers.py] *)

Definition fence : pystr := py "```".
Definition fence_python : pystr := py "```python".

Definition is_fence_line (line : pystr) : bool :=
  Str.eqb (Str.strip line) fence || Str.eqb (Str.strip line) fence_python.

Definition newline : pystr := py (String "010" EmptyString).

(** [clean_code_fences]: drop the fence lines, join the rest with LF. *)
Definition clean_code_fences (code : pystr) : pystr :=
  let lines := Str.splitlines code in
  let clean_lines := List.filter (λ line, negb (is_fence_line line)) lines in
  Str.join newline clean_lines.

(** [sanitize_column_name] *)
Definition sanitize_column_name (col_name : pystr) : pystr :=
  let sanitized :=
    Str.sub_each (λ c, Char.isword c || Char.isspace c) Char.underscore
      (Str.lower col_name) in
  let sanitized := Str.sub_runs Char.isspace Char.underscore sanitized in
  let sanitized := Str.sub_runs Char.is_underscore Char.underscore sanitized in
  let sanitized := Str.strip_chars Char.is_underscore sanitized in
  sanitized.

(** ** Text beyond Latin-1 *)

(** Python text is a sequence of Unicode code points, and the text above
    is the part of it that Latin-1 covers.  [Wide] has one character more:
    U+1D400, MATHEMATICAL BOLD CAPITAL A.  It is an upper-case letter
    ([str.isupper] holds of it), so a word character of [re] and no white
    space, and it has no lower-case form: [str.lower] leaves it as it
    is. *)
Module Wide.

Inductive char : Type :=
| Latin (c : ascii)
| BoldCapitalA.

Definition text := list char.

(** The Latin-1 text as wide text. *)
Definition of_pystr (s : pystr) : text := Latin <$> s.

Definition isupper (c : char) : bool :=
  match c with Latin a => Char.isupper a | BoldCapitalA => true end.

Definition isspace (c : char) : bool :=
  match c with Latin a => Char.isspace a | BoldCapitalA => false end.

Definition isword (c : char) : bool :=
  match c with Latin a => Char.isword a | BoldCapitalA => true end.

Definition is_underscore (c : char) : bool :=
  match c with Latin a => Char.is_underscore a | BoldCapitalA => false end.

Definition underscore : char := Latin Char.underscore.

Definition lower_char (c : char) : char :=
  match c with Latin a => Latin (Char.lower a) | BoldCapitalA => BoldCapitalA end.

Definition lower (s : text) : text := lower_char <$> s.

(** [sanitize_column_name], on wide text. *)
Definition sanitize_column_name (col_name : text) : text :=
  let sanitized :=
    Str.sub_each (λ c, isword c || isspace c) underscore (lower col_name) in
  let sanitized := Str.sub_runs isspace underscore sanitized in
  let sanitized := Str.sub_runs is_underscore underscore sanitized in
  let sanitized := Str.strip_chars is_underscore sanitized in
  sanitized.

End Wide.

(** ** Python objects, exceptions and dictionaries *)

Abbreviation loc := positive.

(** A [pandas.DataFrame] object: column labels, one dtype per column, and
    the rows. *)
Record DataFrame := mkDataFrame {
  df_columns : list pystr;
  df_dtypes : list pystr;
  df_rows : list (list pystr) }.

Definition df_shape (df : DataFrame) : nat * nat :=
  (length (df_rows df), length (df_columns df)).

Definition empty_frame : DataFrame := mkDataFrame [] [] [].

Global Instance DataFrame_inhabited : Inhabited DataFrame := populate empty_frame.

(** An exception object, an instance of a subclass of [Exception]: its class
    and its [str()]. *)
Record exn := mkExn { exn_class : pystr; exn_str : pystr }.

Definition Exception (msg : pystr) : exn := mkExn (py "Exception") msg.
Definition ValueError (msg : pystr) : exn := mkExn (py "ValueError") msg.
Definition TypeError (msg : pystr) : exn := mkExn (py "TypeError") msg.

(** What a handler [except Exception] sees of a raised object: an
    instance of [Exception], which it catches, or another
    [BaseException] ([SystemExit], [KeyboardInterrupt]), which passes it.
    Generated code can raise either; an exception is read as an instance of
    [Exception] where one is expected. *)
Inductive signal : Type :=
| Exc (e : exn)
| Exit (e : exn).
Coercion Exc : exn >-> signal.

(** How a call ends: it returns or it raises. *)
Inductive result (E A : Type) : Type :=
| Ret (a : A)
| Raise (e : E).
Arguments Ret {E A} & a.
Arguments Raise {E A} & e.
Arguments pair {A B} & x y.

(** A library call raises instances of [Exception]; Python code that runs
    generated code may also be left by an exit. *)
Abbreviation py_result := (result exn).
Abbreviation outcome := (result signal).

(** A library call as a piece of Python code. *)
Definition called {A} (r : py_result A) : outcome A :=
  match r with
  | Ret a => Ret a
  | Raise e => Raise (Exc e)
  end.

Definition is_raise {E A} (r : result E A) : bool :=
  match r with Raise _ => true | Ret _ => false end.

Definition SystemExit (code : pystr) : exn := mkExn (py "SystemExit") code.

(** A [dict]: keys in insertion order, each once. *)
Module Dict.

Definition t (V : Type) : Type := list (pystr * V).

Fixpoint get {V} (d : t V) (k : pystr) : option V :=
  match d with
  | [] => None
  | (k', v) :: d' => if bool_decide (k' = k) then Some v else get d' k
  end.

(** [d.get(k, dflt)] *)
Definition get_default {V} (d : t V) (k : pystr) (dflt : V) : V :=
  default dflt (get d k).

(** [d[k] = v]: an existing key keeps its place. *)
Fixpoint set {V} (d : t V) (k : pystr) (v : V) : t V :=
  match d with
  | [] => [(k, v)]
  | (k', v') :: d' =>
      if bool_decide (k' = k) then (k', v) :: d' else (k', v') :: set d' k v
  end.

(** [d.update(other)] *)
Definition update {V} (d other : t V) : t V :=
  foldl (λ acc kv, set acc kv.1 kv.2) d other.

End Dict.

(** The values a namespace can hold, as far as the sandbox tells them
    apart: [None], a DataFrame object, a module, the mapping of input
    tables, and any other object, with the name of its type and its
    [len()] when it has one. *)
Inductive value : Type :=
| VNone
| VDataFrame (l : loc)
| VModule (name : pystr)
| VInputs (tables : Dict.t loc)
| VObject (type_name : pystr) (size : option nat).

Definition is_none (v : value) : bool :=
  match v with VNone => true | _ => false end.

(** [isinstance(v, pd.DataFrame)] *)
Definition is_dataframe (v : value) : bool :=
  match v with VDataFrame _ => true | _ => false end.

Abbreviation namespace := (Dict.t value).

(** A value decoded from JSON, also the type of keyword arguments. *)
Inductive json : Type :=
| JNull
| JBool (b : bool)
| JInt (z : Z)
| JStr (s : pystr)
| JOther (text : pystr).

(** [str(v)], as an f-string renders it. *)
Definition json_str (v : json) : pystr :=
  match v with
  | JNull => py "None"
  | JBool true => py "True"
  | JBool false => py "False"
  | JInt z => py (pretty z)
  | JStr s => s
  | JOther text => text
  end.

(** [v == 'literal'] *)
Definition json_is (v : json) (literal : string) : bool :=
  match v with JStr s => Str.eqb s (py literal) | _ => false end.

(** The descriptor of one input table that [transform] hands to the code
    generator. *)
Record descriptor := mkDescriptor {
  d_columns : list pystr;
  d_dtypes : list (pystr * pystr);
  d_shape : nat * nat;
  d_sample : list (list pystr) }.

(** What is sent to the completion service.  The text of a prompt is fixed
    by the arguments that the source interpolates into its template. *)
Inductive prompt : Type :=
| TransformPrompt (user_query : pystr) (data_info : Dict.t descriptor)
| DestinationPrompt (user_query : pystr) (shape : nat * nat).

(** The statements sent over the DuckDB connection;
    [CreateTableIfNotExistsAs] reads the DataFrame it is given. *)
Inductive sql : Type :=
| DropTableIfExists (table_name : pystr)
| CreateTableIfNotExistsAs (table_name : pystr) (df : DataFrame)
| SelectCount (table_name : pystr).

Inductive file_format : Type := CSV | Excel | Parquet.

(** ** Logging *)

Inductive level : Type := INFO | WARNING | ERROR.

Inductive log_arg : Type :=
| AStr (s : pystr)
| AInt (z : Z)
| ANat (n : nat)
| AShape (shape : nat * nat)
| AExn (e : exn)
| ADict (d : Dict.t json).

(** One record of the log: the level, the text of the f-string with [{}]
    for each interpolated expression, and the values interpolated. *)
Record log_record := mkLog {
  log_level : level;
  log_template : string;
  log_args : list log_arg }.

(** The calls that the transformation agent and the loading agent make
    to the completion service and to [exec], in order.  The extraction
    agent is a capability of the outside world here: what it asks of the
    completion service is not listed. *)
Inductive call : Type :=
| CallGenerate (p : prompt)
| CallExec (code : pystr).

(** ** The state of a run and the outside world *)

(** [world] is everything outside the program (the completion service, the
    file system, the database, the clock); [heap] holds the DataFrame
    objects, by identity; [connected] tells whether [LoadAgent.conn] is
    set; [log] and [calls] grow at the end. *)
Record state (World : Type) := mkState {
  world : World;
  heap : gmap loc DataFrame;
  connected : bool;
  log : list log_record;
  calls : list call }.
Arguments mkState {World}.
Arguments world {World}.
Arguments heap {World}.
Arguments connected {World}.
Arguments log {World}.
Arguments calls {World}.

(** A stage entry of the run record: the status and what else the stage
    stores. *)
Inductive stage_payload : Type :=
| NoPayload
| ExtractPayload (datasets : list pystr) (row_counts : Dict.t nat)
| TransformPayload (output_shape : nat * nat) (columns : list pystr)
| LoadPayload (destination : json)
| AnalyzePayload (plots : nat) (summary : pystr).

Record stage_record := mkStage {
  stage_status : pystr;
  stage_payload_of : stage_payload }.

(** The run record [results] of [ETLPipeline.run]; a key that was never
    assigned is [None]. *)
Record run_record := mkRun {
  run_query : pystr;
  run_start_time : Z;
  run_stages : gmap pystr stage_record;
  run_end_time : option Z;
  run_duration_seconds : option Z;
  run_status : option pystr;
  run_error : option pystr }.

(** The capabilities the program consumes.  Each one may change the world;
    those that run Python code on tables may also change the heap.  None of
    them can write to the log or to the list of calls. *)
Class External (World : Type) := {
  (** [self.model.generate_content(prompt).text] *)
  generate_content : prompt → World → py_result pystr * World;
  (** [exec(code, exec_globals)]: the namespace as the code leaves it;
      the code may raise, or exit *)
  py_exec : pystr → namespace → World → gmap loc DataFrame →
            outcome namespace * World * gmap loc DataFrame;
  (** [json.loads] on a text that starts with an opening brace *)
  json_loads : pystr → py_result (Dict.t json);
  (** [duckdb.connect(db_path)] *)
  duckdb_connect : pystr → World → py_result () * World;
  (** [self.conn.execute(...)], with the count that [SelectCount] fetches *)
  conn_execute : sql → World → py_result Z * World;
  (** [self.conn.close()] *)
  conn_close : World → py_result () * World;
  (** [Path(file_path).parent.mkdir(parents=True, exist_ok=True)] *)
  mkdir_parent : json → World → py_result () * World;
  (** [df.to_csv], [df.to_excel], [df.to_parquet] *)
  df_write : file_format → DataFrame → json → World → py_result () * World;
  (** [ExtractAgent.ai_assisted_extract], as the pipeline sees it: the
      tables by name; its own request to the completion service happens
      inside *)
  ai_assisted_extract : pystr → pystr → World → gmap loc DataFrame →
            py_result (Dict.t loc) * World * gmap loc DataFrame;
  (** [self.analyze_agent.iterative_analyze] and [generate_summary];
      the result of the first is the number of plots *)
  iterative_analyze : pystr → loc → World → gmap loc DataFrame →
            py_result nat * World * gmap loc DataFrame;
  generate_summary : pystr → loc → nat → World → py_result pystr * World;
  (** [save_metadata], which catches its own exceptions *)
  save_metadata : run_record → World → World;
  (** [datetime.now()], as the reading of a clock; a duration is the
      difference of two readings *)
  now : World → Z * World;
  (** [hasattr(v, 'shape')] for an object that is no table: a Series or
      an array has a shape and no [columns]; objects of other libraries
      that have both are not modelled *)
  has_shape : value → bool }.

(** ** The monad of Python code: state and exceptions *)

Definition M (World A : Type) : Type := state World → outcome A * state World.

Section Monad.
Context {World : Type}.

Definition ret {A} (a : A) : M World A := λ st, (Ret a, st).

Definition raise {A} (e : exn) : M World A := λ st, (Raise e, st).

Definition bind {A B} (m : M World A) (k : A → M World B) : M World B :=
  λ st, match m st with
        | (Ret a, st') => k a st'
        | (Raise e, st') => (Raise e, st')
        end.

(** [try: m  except Exception as e: handler e]: what is no instance of
    [Exception] passes the handler. *)
Definition try_except {A} (m : M World A) (handler : exn → M World A) : M World A :=
  λ st, match m st with
        | (Ret a, st') => (Ret a, st')
        | (Raise (Exc e), st') => handler e st'
        | (Raise (Exit e), st') => (Raise (Exit e), st')
        end.

(** [try: m  finally: cleanup] *)
Definition try_finally {A} (m : M World A) (cleanup : M World ()) : M World A :=
  λ st, match m st with
        | (r, st') =>
            match cleanup st' with
            | (Ret _, st'') => (r, st'')
            | (Raise e, st'') => (Raise e, st'')
            end
        end.

Definition logger (lv : level) (template : string) (args : list log_arg) : M World () :=
  λ st, (Ret (), mkState (world st) (heap st) (connected st)
                   (log st ++ [mkLog lv template args]) (calls st)).

Definition record_call (c : call) : M World () :=
  λ st, (Ret (), mkState (world st) (heap st) (connected st) (log st)
                   (calls st ++ [c])).

Definition get_heap : M World (gmap loc DataFrame) := λ st, (Ret (heap st), st).

Definition get_connected : M World bool := λ st, (Ret (connected st), st).

Definition set_connected (b : bool) : M World () :=
  λ st, (Ret (), mkState (world st) (heap st) b (log st) (calls st)).

(** A capability that only touches the world. *)
Definition on_world {A} (f : World → py_result A * World) : M World A :=
  λ st, match f (world st) with
        | (r, w) => (called r, mkState w (heap st) (connected st) (log st) (calls st))
        end.

(** A capability that touches the world and the heap. *)
Definition on_world_heap {A}
    (f : World → gmap loc DataFrame → py_result A * World * gmap loc DataFrame)
    : M World A :=
  λ st, match f (world st) (heap st) with
        | (r, w, h) => (called r, mkState w h (connected st) (log st) (calls st))
        end.

(** Generated code that runs on the world and the heap. *)
Definition on_exec {A}
    (f : World → gmap loc DataFrame → outcome A * World * gmap loc DataFrame)
    : M World A :=
  λ st, match f (world st) (heap st) with
        | (r, w, h) => (r, mkState w h (connected st) (log st) (calls st))
        end.

(** [for x in xs: body x] *)
Fixpoint for_each {A} (xs : list A) (body : A → M World ()) : M World () :=
  match xs with
  | [] => ret ()
  | x :: xs' => bind (body x) (λ _, for_each xs' body)
  end.

End Monad.

Global Instance M_ret {World} : MRet (M World) := @ret World.
Global Instance M_bind {World} : MBind (M World) := λ A B k m, bind m k.

(** ** [etl/transform_agent.py] *)

Definition result_df : pystr := py "result_df".

(** The test and the target of one step of the reverse scan in
    [generate_transformation_code]: the stripped line holds [=], is no
    comment, and what precedes the first [=] is an identifier. *)
Definition assignment_target (raw_line : pystr) : option pystr :=
  let line := Str.strip raw_line in
  if Str.contains (py "=") line && negb (Str.startswith (py "#") line) then
    let var_name := Str.strip (hd [] (Str.split "="%char line)) in
    if negb (Str.eqb var_name []) && Str.isidentifier var_name
    then Some var_name else None
  else None.

(** The loop [for i in range(len(lines) - 1, -1, -1)], on the lines taken
    last one first: it stops at the first line that has a target. *)
Fixpoint find_var_name (reversed_lines : list pystr) : option pystr :=
  match reversed_lines with
  | [] => None
  | line :: rest =>
      match assignment_target line with
      | Some var_name => Some var_name
      | None => find_var_name rest
      end
  end.

(** The text that the loop appends for [var_name]. *)
Definition assign_result (var_name : pystr) : pystr :=
  newline ++ newline ++ py "# Assign result" ++ newline ++
  py "result_df = " ++ var_name ++ newline.

(** The namespace that [execute_transformation] hands to [exec]. *)
Definition exec_globals_of (dataframes : Dict.t loc) : namespace :=
  let exec_globals : namespace :=
    [(py "pd", VModule (py "pandas"));
     (py "dataframes", VInputs dataframes);
     (result_df, VNone)] in
  Dict.set exec_globals (py "np") (VModule (py "numpy")).

Section TransformAgent.
Context {World : Type} {ext : External World}.

(** "Add result_df assignment if missing" *)
Definition add_missing_result_df (code : pystr) : M World pystr :=
  if negb (Str.contains result_df code) then
    logger WARNING "Adding missing result_df assignment" [];;
    let lines := Str.split "010"%char code in
    match find_var_name (reverse lines) with
    | Some var_name =>
        logger INFO "Auto-added: result_df = {}" [AStr var_name];;
        mret (code ++ assign_result var_name)
    | None => mret code
    end
  else mret code.

Definition generate_transformation_code (user_query : pystr)
    (data_info : Dict.t descriptor) : M World pystr :=
  try_except
    (record_call (CallGenerate (TransformPrompt user_query data_info));;
     code ← on_world (generate_content (TransformPrompt user_query data_info));
     let code := clean_code_fences code in
     code ← add_missing_result_df code;
     logger INFO "Generated transformation code" [];;
     mret code)
    (λ e,
     logger ERROR "Failed to generate transformation code: {}" [AExn e];;
     raise e).

(** [len(v)] *)
Definition py_len (v : value) : M World nat :=
  match v with
  | VNone => raise (TypeError (py "object of type 'NoneType' has no len()"))
  | VDataFrame l => h ← get_heap; mret (length (df_rows (h !!! l)))
  | VModule _ => raise (TypeError (py "object of type 'module' has no len()"))
  | VInputs tables => mret (length tables)
  | VObject _ (Some n) => mret n
  | VObject type_name None =>
      raise (TypeError (py "object of type '" ++ type_name ++ py "' has no len()"))
  end.

(** The text of the [AttributeError] for a missing attribute. *)
Definition no_attribute_of (v : value) (name : string) : pystr :=
  match v with
  | VModule module_name =>
      py "module '" ++ module_name ++ py "' has no attribute '" ++ py name ++ py "'"
  | VNone => py "'NoneType' object has no attribute '" ++ py name ++ py "'"
  | VDataFrame _ => py "'DataFrame' object has no attribute '" ++ py name ++ py "'"
  | VInputs _ => py "'dict' object has no attribute '" ++ py name ++ py "'"
  | VObject type_name _ =>
      py "'" ++ type_name ++ py "' object has no attribute '" ++ py name ++ py "'"
  end.

(** [type(v)], for the log *)
Definition type_name_of (v : value) : pystr :=
  match v with
  | VNone => py "NoneType"
  | VDataFrame _ => py "DataFrame"
  | VModule _ => py "module"
  | VInputs _ => py "dict"
  | VObject type_name _ => type_name
  end.

(** The test of the search loop on one binding. *)
Definition is_candidate (binding : pystr * value) : bool :=
  is_dataframe binding.2 &&
  (negb (bool_decide (binding.1 ∈ [py "pd"; py "dataframes"])) &&
   negb (Str.startswith (py "_") binding.1)).

(** The search loop [for var_name, var_value in exec_globals.items()],
    on the bindings that remain. *)
Fixpoint find_candidates (items : namespace) (candidates : list (pystr * value))
    : M World (list (pystr * value)) :=
  match items with
  | [] => mret candidates
  | (var_name, var_value) :: rest =>
      if is_candidate (var_name, var_value) then
        h ← get_heap;
        logger INFO "Found DataFrame candidate: '{}' with shape {}"
          [AStr var_name;
           AShape (match var_value with
                   | VDataFrame l => df_shape (h !!! l)
                   | _ => (0, 0)
                   end)];;
        find_candidates rest (candidates ++ [(var_name, var_value)])
      else find_candidates rest candidates
  end.

Definition execute_transformation (code : pystr) (dataframes : Dict.t loc)
    : M World value :=
  try_except
    (let exec_globals := exec_globals_of dataframes in
     record_call (CallExec code);;
     exec_globals ← on_exec (py_exec code exec_globals);
     let result := Dict.get_default exec_globals result_df VNone in
     result ←
       (if is_none result then
          logger WARNING "result_df not found, searching for other DataFrames..." [];;
          candidates ← find_candidates exec_globals [];
          match last candidates with
          | Some (var_name, var_value) =>
              logger INFO "Using DataFrame '{}' as result" [AStr var_name];;
              mret var_value
          | None => mret result
          end
        else mret result);
     (if is_none result then
        logger ERROR "Available variables:" [];;
        for_each exec_globals (λ binding,
          if negb (Str.startswith (py "__") binding.1) then
            logger ERROR "  {}: {}" [AStr binding.1; AStr (type_name_of binding.2)]
          else mret ());;
        raise (ValueError
          (py "Transformation code did not produce 'result_df' or any other DataFrame"))
      else mret ());;
     n ← py_len result;
     logger INFO "Transformation executed successfully: {} rows" [ANat n];;
     mret result)
    (λ e,
     logger ERROR "Error executing transformation: {}" [AExn e];;
     logger ERROR "Generated code was:\n{}" [AStr code];;
     raise e).

(** The descriptor of a table: columns, dtypes, shape and the first two
    rows. *)
Definition describe (df : DataFrame) : descriptor :=
  mkDescriptor (df_columns df) (zip (df_columns df) (df_dtypes df))
    (df_shape df) (take 2 (df_rows df)).

(** [data_info], one descriptor for each input table. *)
Definition data_info_of (h : gmap loc DataFrame) (dataframes : Dict.t loc)
    : Dict.t descriptor :=
  (λ entry : pystr * loc, (entry.1, describe (h !!! entry.2))) <$> dataframes.

Definition transform (user_query : pystr) (dataframes : Dict.t loc) : M World value :=
  h ← get_heap;
  let data_info := data_info_of h dataframes in
  code ← generate_transformation_code user_query data_info;
  result ← execute_transformation code dataframes;
  mret result.

(** [str(last_error)] *)
Definition str_of_last_error (last_error : option exn) : pystr :=
  match last_error with
  | None => py "None"
  | Some e => exn_str e
  end.

(** The warning that [iterative_transform] logs after a failed attempt. *)
Definition retry_warning : string := "Transformation attempt {} failed: {}".

(** The text added to the query after a failed attempt. *)
Definition error_context (e : exn) : pystr :=
  newline ++ newline ++ py "Previous attempt failed with error: " ++ exn_str e ++
  py ". Please fix the code.".

(** The loop [for attempt in range(max_iterations)] of
    [iterative_transform], on the attempts that remain, and what follows
    the loop. *)
Fixpoint retry_loop (attempts : list Z) (max_iterations : Z) (user_query : pystr)
    (dataframes : Dict.t loc) (last_error : option exn) : M World value :=
  match attempts with
  | [] =>
      raise (Exception
        (py "Transformation failed after " ++ py (pretty max_iterations) ++
         py " attempts. Last error: " ++ str_of_last_error last_error))
  | attempt :: rest =>
      λ st,
      match transform user_query dataframes st with
      | (Ret result, st') => (Ret result, st')
      | (Raise (Exc e), st') =>
          (logger WARNING retry_warning [AInt (attempt + 1); AExn e];;
           let user_query :=
             if bool_decide (attempt < max_iterations - 1)%Z
             then user_query ++ error_context e else user_query in
           retry_loop rest max_iterations user_query dataframes (Some e)) st'
      | (Raise (Exit e), st') => (Raise (Exit e), st')
      end
  end.

(** [range(n)] *)
Definition range (n : Z) : list Z := Z.of_nat <$> seq 0 (Z.to_nat n).

Definition iterative_transform (user_query : pystr) (dataframes : Dict.t loc)
    (max_iterations : Z) : M World value :=
  retry_loop (range max_iterations) max_iterations user_query dataframes None.

End TransformAgent.

(** ** [etl/load_agent.py] *)

(** [re.search(r'\{.*?\}', text, re.DOTALL)]: from the first opening brace
    that has a closing brace after it, up to the nearest closing brace. *)
Fixpoint up_to_closing_brace (s : pystr) : option pystr :=
  match s with
  | [] => None
  | c :: s' =>
      if bool_decide (c = "}"%char) then Some [c]
      else (λ m, c :: m) <$> up_to_closing_brace s'
  end.

Fixpoint search_braces (s : pystr) : option pystr :=
  match s with
  | [] => None
  | c :: s' =>
      if bool_decide (c = "{"%char) then
        match up_to_closing_brace s' with
        | Some m => Some (c :: m)
        | None => search_braces s'
        end
      else search_braces s'
  end.

Definition default_destination : Dict.t json :=
  [(py "destination", JStr (py "duckdb"));
   (py "table_name", JStr (py "ai_result"));
   (py "reason", JStr (py "Default destination"))].

Definition fallback_destination : Dict.t json :=
  [(py "destination", JStr (py "duckdb"));
   (py "table_name", JStr (py "result"));
   (py "reason", JStr (py "Fallback"))].

Section LoadAgent.
Context {World : Type} {ext : External World}.

Definition connect_duckdb (db_path : pystr) : M World () :=
  try_except
    (on_world (duckdb_connect db_path);;
     set_connected true;;
     logger INFO "Connected to DuckDB: {}" [AStr db_path])
    (λ e,
     logger ERROR "Failed to connect to DuckDB: {}" [AExn e];;
     raise e).

(** [df.columns = new_columns], on the object itself. *)
Definition set_columns (df : loc) (new_columns : list pystr) : M World () :=
  λ st,
  let old := heap st !!! df in
  (Ret (), mkState (world st)
             (<[df := mkDataFrame new_columns (df_dtypes old) (df_rows old)]> (heap st))
             (connected st) (log st) (calls st)).

Definition load_to_duckdb (df : loc) (table_name : json) (mode : json) : M World () :=
  conn ← get_connected;
  (if negb conn then connect_duckdb (py "warehouse.duckdb") else mret ());;
  try_except
    (h ← get_heap;
     set_columns df (sanitize_column_name <$> df_columns (h !!! df));;
     (if json_is mode "replace" then
        on_world (conn_execute (DropTableIfExists (json_str table_name)));; mret ()
      else mret ());;
     h ← get_heap;
     on_world (conn_execute (CreateTableIfNotExistsAs (json_str table_name) (h !!! df)));;
     row_count ← on_world (conn_execute (SelectCount (json_str table_name)));
     logger INFO "Loaded {} rows to table '{}'" [AInt row_count; AStr (json_str table_name)])
    (λ e,
     logger ERROR "Failed to load to DuckDB: {}" [AExn e];;
     raise e).

(** [load_to_csv], [load_to_excel] and [load_to_parquet] differ in the
    writer and in the name in the error message. *)
Definition load_to_file (fmt : file_format) (df : loc) (file_path : json) : M World () :=
  try_except
    (h ← get_heap;
     on_world (df_write fmt (h !!! df) file_path);;
     logger INFO "Loaded {} rows to {}"
       [ANat (length (df_rows (h !!! df))); AStr (json_str file_path)])
    (λ e,
     logger ERROR
       (match fmt with
        | CSV => "Failed to load to CSV: {}"
        | Excel => "Failed to load to Excel: {}"
        | Parquet => "Failed to load to Parquet: {}"
        end) [AExn e];;
     raise e).

Definition ai_determine_destination (user_query : pystr) (df : loc)
    : M World (Dict.t json) :=
  h ← get_heap;
  let prompt := DestinationPrompt user_query (df_shape (h !!! df)) in
  try_except
    (record_call (CallGenerate prompt);;
     response_text ← on_world (generate_content prompt);
     destination_info ←
       match search_braces response_text with
       | Some json_match => λ st, (called (json_loads json_match), st)
       | None => mret default_destination
       end;
     logger INFO "AI determined destination: {}" [ADict destination_info];;
     mret destination_info)
    (λ e,
     logger ERROR "AI destination determination failed: {}" [AExn e];;
     mret fallback_destination).

(** [load]: [destination] is [None] when the caller gives none, or gives
    Python's [None]; a destination that the caller does give is [Some d]
    with [d] other than [JNull]. *)
Definition load (df : loc) (user_query : pystr) (destination : option json)
    (kwargs : Dict.t json) : M World json :=
  choice ←
    match destination with
    | None =>
        dest_info ← ai_determine_destination user_query df;
        mret (Dict.get_default dest_info (py "destination") (JStr (py "duckdb")),
              Dict.update kwargs dest_info)
    | Some destination => mret (destination, kwargs)
    end;
  let destination : json := choice.1 in
  let kwargs : Dict.t json := choice.2 in
  if json_is destination "duckdb" then
    let table_name := Dict.get_default kwargs (py "table_name") (JStr (py "result_table")) in
    let mode := Dict.get_default kwargs (py "mode") (JStr (py "replace")) in
    load_to_duckdb df table_name mode;;
    mret (JStr (py "duckdb:" ++ json_str table_name))
  else if json_is destination "csv" then
    let file_path := Dict.get_default kwargs (py "file_path") (JStr (py "output/result.csv")) in
    on_world (mkdir_parent file_path);;
    load_to_file CSV df file_path;;
    mret file_path
  else if json_is destination "excel" then
    let file_path := Dict.get_default kwargs (py "file_path") (JStr (py "output/result.xlsx")) in
    on_world (mkdir_parent file_path);;
    load_to_file Excel df file_path;;
    mret file_path
  else if json_is destination "parquet" then
    let file_path := Dict.get_default kwargs (py "file_path") (JStr (py "output/result.parquet")) in
    on_world (mkdir_parent file_path);;
    load_to_file Parquet df file_path;;
    mret file_path
  else
    raise (ValueError (py "Unsupported destination: " ++ json_str destination)).

(** [close] *)
Definition close : M World () :=
  conn ← get_connected;
  if conn : bool then
    on_world conn_close;;
    logger INFO "Closed DuckDB connection" []
  else mret ().

End LoadAgent.

(** ** [orchestrator/run_pipeline.py] *)

(** Code that also updates the local dictionary [results]; the dictionary
    survives an exception, which is what the handler of [run] reads. *)
Definition PM (World A : Type) : Type :=
  run_record → state World → outcome A * run_record * state World.

Section PipelineMonad.
Context {World : Type}.

Definition pret {A} (a : A) : PM World A := λ results st, (Ret a, results, st).

Definition pbind {A B} (m : PM World A) (k : A → PM World B) : PM World B :=
  λ results st,
  match m results st with
  | (Ret a, results', st') => k a results' st'
  | (Raise e, results', st') => (Raise e, results', st')
  end.

Definition lift {A} (m : M World A) : PM World A :=
  λ results st, match m st with (r, st') => (r, results, st') end.

Definition get_results : PM World run_record :=
  λ results st, (Ret results, results, st).

(** [results['stages'][name] = entry] *)
Definition set_stage (name : string) (entry : stage_record) : PM World () :=
  λ results st,
  (Ret (),
   mkRun (run_query results) (run_start_time results)
     (<[py name := entry]> (run_stages results))
     (run_end_time results) (run_duration_seconds results)
     (run_status results) (run_error results),
   st).

(** The three assignments that complete a successful run. *)
Definition set_completion (pipeline_end : Z) : PM World () :=
  λ results st,
  (Ret (),
   mkRun (run_query results) (run_start_time results) (run_stages results)
     (Some pipeline_end) (Some (pipeline_end - run_start_time results)%Z)
     (Some (py "success")) (run_error results),
   st).

End PipelineMonad.

Global Instance PM_ret {World} : MRet (PM World) := @pret World.
Global Instance PM_bind {World} : MBind (PM World) := λ A B k m, pbind m k.

Definition skipped : stage_record := mkStage (py "skipped") NoPayload.

Section Pipeline.
Context {World : Type} {ext : External World}.

(** [datetime.now()] *)
Definition clock : M World Z :=
  on_world (λ w, match now w with (t, w') => (Ret t, w') end).

Definition banner : M World () :=
  logger INFO "==================================================" [].

Definition AttributeError (msg : pystr) : exn := mkExn (py "AttributeError") msg.

(** The table behind a value whose [.shape] and then [.columns] are read.
    Another object lacks one of the two: [.shape], or, when it has a shape
    as a Series or an array has, [.columns]. *)
Definition as_dataframe (v : value) : M World loc :=
  match v with
  | VDataFrame l => mret l
  | _ => raise (AttributeError
           (no_attribute_of v (if has_shape v then "columns" else "shape")))
  end.

(** "Pipeline completion": the end of the [try] block of [run]. *)
Definition run_complete : PM World run_record :=
  pipeline_end ← lift clock;
  set_completion pipeline_end;;
  results ← get_results;
  lift (on_world (λ w, (Ret (), save_metadata results w)));;
  lift (banner;;
        logger INFO "PIPELINE COMPLETED SUCCESSFULLY in {}s"
          [AInt (default 0%Z (run_duration_seconds results))];;
        banner);;
  mret results.

(** The body of the [try] block of [run]. *)
Definition run_try (user_query data_directory : pystr)
    (skip_transform skip_load analyze : bool) : PM World run_record :=
  lift (banner;; logger INFO "STAGE 1: EXTRACTION" [];; banner);;
  extracted_data ← lift (on_world_heap (ai_assisted_extract user_query data_directory));
  (if bool_decide (extracted_data = [])
   then lift (raise (ValueError
          (py "No data extracted. Check data directory and file formats.")))
   else mret ());;
  h ← lift get_heap;
  set_stage "extract"
    (mkStage (py "success")
       (ExtractPayload extracted_data.*1
          ((λ entry : pystr * loc, (entry.1, length (df_rows (h !!! entry.2))))
             <$> extracted_data)));;
  lift (logger INFO "Extracted {} datasets" [ANat (length extracted_data)]);;
  transformed_df ←
    (if negb skip_transform then
       lift (banner;; logger INFO "STAGE 2: TRANSFORMATION" [];; banner);;
       transformed ← lift (iterative_transform user_query extracted_data 3);
       transformed_df ← lift (as_dataframe transformed);
       h ← lift get_heap;
       set_stage "transform"
         (mkStage (py "success")
            (TransformPayload (df_shape (h !!! transformed_df))
               (df_columns (h !!! transformed_df))));;
       lift (logger INFO "Transformed data: {}" [AShape (df_shape (h !!! transformed_df))]);;
       mret transformed_df
     else
       match extracted_data.*2 with
       | first :: _ => set_stage "transform" skipped;; mret first
       | [] => lift (raise (mkExn (py "IndexError") (py "list index out of range")))
       end);
  (if negb skip_load then
     lift (banner;; logger INFO "STAGE 3: LOADING" [];; banner);;
     load_destination ← lift (load transformed_df user_query None []);
     set_stage "load" (mkStage (py "success") (LoadPayload load_destination));;
     lift (logger INFO "Loaded to: {}" [AStr (json_str load_destination)])
   else set_stage "load" skipped);;
  (if analyze then
     lift (banner;; logger INFO "STAGE 4: ANALYSIS & VISUALIZATION" [];; banner);;
     analysis_results ← lift (on_world_heap (iterative_analyze user_query transformed_df));
     summary ← lift (on_world (generate_summary user_query transformed_df analysis_results));
     set_stage "analyze" (mkStage (py "success") (AnalyzePayload analysis_results summary));;
     lift (logger INFO "Analysis complete. Generated {} plots" [ANat analysis_results];;
           logger INFO "\nSUMMARY:\n{}" [AStr summary])
   else set_stage "analyze" skipped);;
  run_complete.

(** The handler [except Exception as e] of [run]. *)
Definition run_except (e : exn) (results : run_record) : M World run_record :=
  logger ERROR "Pipeline failed: {}" [AExn e];;
  end_time ← clock;
  mret (mkRun (run_query results) (run_start_time results) (run_stages results)
          (Some end_time) (run_duration_seconds results)
          (Some (py "failed")) (Some (exn_str e))).

(** The [try] block with its handler: either way [results] is returned. *)
Definition run_protected (user_query data_directory : pystr)
    (skip_transform skip_load analyze : bool) (results : run_record)
    : M World run_record :=
  λ st,
  match run_try user_query data_directory skip_transform skip_load analyze
          results st with
  | (Ret results, _, st') => (Ret results, st')
  | (Raise (Exc e), results, st') => run_except e results st'
  | (Raise (Exit e), _, st') => (Raise (Exit e), st')
  end.

Definition run (user_query data_directory : pystr)
    (skip_transform skip_load analyze : bool) : M World run_record :=
  logger INFO "Starting ETL pipeline for query: {}" [AStr user_query];;
  pipeline_start ← clock;
  let results := mkRun user_query pipeline_start ∅ None None None None in
  try_finally
    (run_protected user_query data_directory skip_transform skip_load analyze results)
    close.

End Pipeline.

(** ** Stubs of the capabilities *)

(** A scripted outside world, to run the model on examples: the reply of
    the completion service to its n-th request, the effect of [exec], the
    JSON decoder, what the extraction finds, and whether the database
    answers.  The world counts the requests served. *)
Record stub := mkStub {
  stub_reply : nat → prompt → py_result pystr;
  stub_exec : pystr → namespace → outcome namespace;
  stub_json : pystr → py_result (Dict.t json);
  stub_extract : py_result (Dict.t loc);
  stub_connect : py_result ();
  stub_sql : sql → py_result Z }.

(** [VisualizeAgent] defines neither [iterative_analyze] nor
    [generate_summary]; calling them raises. *)
Definition no_attribute (name : string) : exn :=
  mkExn (py "AttributeError")
    (py "'VisualizeAgent' object has no attribute '" ++ py name ++ py "'").

Definition stub_external (s : stub) : External nat := {|
  generate_content p w := (stub_reply s w p, S w);
  py_exec code ns w h := (stub_exec s code ns, w, h);
  json_loads text := stub_json s text;
  duckdb_connect _ w := (stub_connect s, w);
  conn_execute q w := (stub_sql s q, w);
  conn_close w := (Ret (), w);
  mkdir_parent _ w := (Ret (), w);
  df_write _ _ _ w := (Ret (), w);
  ai_assisted_extract _ _ w h := (stub_extract s, w, h);
  iterative_analyze _ _ w h := (Raise (no_attribute "iterative_analyze"), w, h);
  generate_summary _ _ _ w := (Raise (no_attribute "generate_summary"), w);
  save_metadata _ w := w;
  now w := (0%Z, w);
  has_shape v :=
    match v with
    | VObject type_name _ =>
        bool_decide (type_name ∈ [py "Series"; py "ndarray"; py "Index"])
    | VModule module_name => Str.eqb module_name (py "numpy")
    | _ => false
    end |}.

(** The stub that nothing is asked of: each capability fails or is empty. *)
Definition silent : stub :=
  mkStub (λ _ _, Ret []) (λ _ ns, Ret ns)
    (λ _, Raise (ValueError (py "Expecting value")))
    (Ret []) (Ret ()) (λ _, Ret 0%Z).

(** [exec] of code that binds [df] to a table and [result_df] to a list. *)
Definition binds_list : stub :=
  mkStub (stub_reply silent)
    (λ _ ns,
       Ret (Dict.set
              (Dict.set (Dict.set ns (py "__builtins__") (VModule (py "builtins")))
                 (py "df") (VDataFrame 1))
              result_df (VObject (py "list") (Some 3))))
    (stub_json silent) (stub_extract silent) (stub_connect silent) (stub_sql silent).

(** [exec] of code that binds [df] and then [top] to tables and leaves
    [result_df] alone. *)
Definition binds_tables : stub :=
  mkStub (stub_reply silent)
    (λ _ ns,
       Ret (Dict.set
              (Dict.set (Dict.set ns (py "__builtins__") (VModule (py "builtins")))
                 (py "df") (VDataFrame 1))
              (py "top") (VDataFrame 2)))
    (stub_json silent) (stub_extract silent) (stub_connect silent) (stub_sql silent).

(** [exec] of code that raises. *)
Definition exec_raises (e : exn) : stub :=
  mkStub (stub_reply silent) (λ _ _, Raise e)
    (stub_json silent) (stub_extract silent) (stub_connect silent) (stub_sql silent).

(** [exec] of code that exits, as with [sys.exit]. *)
Definition exec_exits (e : exn) : stub :=
  mkStub (stub_reply silent) (λ _ _, Raise (Exit e))
    (stub_json silent) (stub_extract silent) (stub_connect silent) (stub_sql silent).

Definition KeyError (msg : pystr) : exn := mkExn (py "KeyError") msg.

(** A small table, and a state whose heap holds the given objects. *)
Definition drivers : DataFrame :=
  mkDataFrame [py "Driver Name"; py "Total Points"] [py "object"; py "int64"]
    [[py "Hamilton"; py "4800"]; [py "Vettel"; py "3100"]].

Definition state_with (frames : list (loc * DataFrame)) : state nat :=
  mkState 0 (list_to_map frames) false [] [].

(** A completion service that always gives the same reply, with a decoder
    that knows the given texts. *)
Definition replies (text : pystr) (decoded : Dict.t (Dict.t json)) : stub :=
  mkStub (λ _ _, Ret text) (stub_exec silent)
    (λ m, match Dict.get decoded m with
          | Some object => Ret object
          | None => Raise (mkExn (py "JSONDecodeError") (py "Expecting value"))
          end)
    (stub_extract silent) (stub_connect silent) (stub_sql silent).

(** The double quote, and the reply that selects an object store. *)
Definition dq : pystr := ["034"%char].

Definition s3_reply : pystr :=
  py "{" ++ dq ++ py "destination" ++ dq ++ py ": " ++ dq ++ py "s3" ++ dq ++ py "}".

(** The completion service selects [s3]; the extraction finds one table;
    the transformation is skipped in the runs that use this stub. *)
Definition selects_s3 : stub :=
  mkStub (λ _ _, Ret s3_reply) (stub_exec silent)
    (stub_json (replies s3_reply [(s3_reply, [(py "destination", JStr (py "s3"))])]))
    (Ret [(py "a", 1%positive)]) (stub_connect silent) (stub_sql silent).


(** The code generator answers with code that raises on its first two
    requests and with code that binds [result_df] from the third on. *)
Definition succeeds_third : stub :=
  mkStub
    (λ n _, if decide (n < 2) then Ret (py "result_df = dataframes['a']['team']")
            else Ret (py "result_df = dataframes['a']"))
    (λ code ns,
       if Str.eqb code (py "result_df = dataframes['a']")
       then Ret (Dict.set (Dict.set ns (py "__builtins__") (VModule (py "builtins")))
                   result_df (VDataFrame 1))
       else Raise (KeyError (py "'team'")))
    (stub_json silent) (Ret [(py "a", 1%positive)]) (stub_connect silent)
    (stub_sql silent).

(** The extraction finds one table and everything else is [silent]. *)
Definition extracts_one : stub :=
  mkStub (stub_reply silent) (stub_exec silent) (stub_json silent)
    (Ret [(py "a", 1%positive)]) (stub_connect silent) (stub_sql silent).

(** The reply that selects the warehouse and names the table [top]. *)
Definition named_reply : pystr :=
  py "{" ++ dq ++ py "destination" ++ dq ++ py ": " ++ dq ++ py "duckdb" ++ dq ++
  py ", " ++ dq ++ py "table_name" ++ dq ++ py ": " ++ dq ++ py "top" ++ dq ++ py "}".

(** ** Notions used in the statements *)

(** The lines that [clean_code_fences] keeps. *)
Definition kept_lines (code : pystr) : list pystr :=
  List.filter (λ line, negb (is_fence_line line)) (Str.splitlines code).

(** A list of lines without its last line when that line is empty. *)
Fixpoint drop_last_empty (lines : list pystr) : list pystr :=
  match lines with
  | [] => []
  | [l] => match l with [] => [] | _ => [l] end
  | l :: rest => l :: drop_last_empty rest
  end.

(** The column-name rule in the words of the specification: lower case,
    every character that is no word character becomes an underscore,
    repeated underscores collapse, the edges are trimmed. *)
Definition sanitize_column_name_spec (col_name : pystr) : pystr :=
  Str.strip_chars Char.is_underscore
    (Str.sub_runs Char.is_underscore Char.underscore
       (Str.sub_each Char.isword Char.underscore (Str.lower col_name))).

(** A line that holds no line-break character. *)
Definition break_free (line : pystr) : Prop :=
  Forall (λ c, Char.islinebreak c = false) line.



(** The [try] block of [run] in two parts: up to the loading stage, which
    gives the table to load, and from the loading stage on. *)
Definition run_until_load {World} {ext : External World}
    (user_query data_directory : pystr) (skip_transform : bool) : PM World loc :=
  lift (banner;; logger INFO "STAGE 1: EXTRACTION" [];; banner);;
  extracted_data ← lift (on_world_heap (ai_assisted_extract user_query data_directory));
  (if bool_decide (extracted_data = [])
   then lift (raise (ValueError
          (py "No data extracted. Check data directory and file formats.")))
   else mret ());;
  h ← lift get_heap;
  set_stage "extract"
    (mkStage (py "success")
       (ExtractPayload extracted_data.*1
          ((λ entry : pystr * loc, (entry.1, length (df_rows (h !!! entry.2))))
             <$> extracted_data)));;
  lift (logger INFO "Extracted {} datasets" [ANat (length extracted_data)]);;
  (if negb skip_transform then
     lift (banner;; logger INFO "STAGE 2: TRANSFORMATION" [];; banner);;
     transformed ← lift (iterative_transform user_query extracted_data 3);
     transformed_df ← lift (as_dataframe transformed);
     h ← lift get_heap;
     set_stage "transform"
       (mkStage (py "success")
          (TransformPayload (df_shape (h !!! transformed_df))
             (df_columns (h !!! transformed_df))));;
     lift (logger INFO "Transformed data: {}" [AShape (df_shape (h !!! transformed_df))]);;
     mret transformed_df
   else
     match extracted_data.*2 with
     | first :: _ => set_stage "transform" skipped;; mret first
     | [] => lift (raise (mkExn (py "IndexError") (py "list index out of range")))
     end).

Definition run_from_load {World} {ext : External World}
    (user_query : pystr) (skip_load analyze : bool) (transformed_df : loc)
    : PM World run_record :=
  (if negb skip_load then
     lift (banner;; logger INFO "STAGE 3: LOADING" [];; banner);;
     load_destination ← lift (load transformed_df user_query None []);
     set_stage "load" (mkStage (py "success") (LoadPayload load_destination));;
     lift (logger INFO "Loaded to: {}" [AStr (json_str load_destination)])
   else set_stage "load" skipped);;
  (if analyze then
     lift (banner;; logger INFO "STAGE 4: ANALYSIS & VISUALIZATION" [];; banner);;
     analysis_results ← lift (on_world_heap (iterative_analyze user_query transformed_df));
     summary ← lift (on_world (generate_summary user_query transformed_df analysis_results));
     set_stage "analyze" (mkStage (py "success") (AnalyzePayload analysis_results summary));;
     lift (logger INFO "Analysis complete. Generated {} plots" [ANat analysis_results];;
           logger INFO "\nSUMMARY:\n{}" [AStr summary])
   else set_stage "analyze" skipped);;
  run_complete.

(** The state in which the loading stage calls [load]: the banner of the
    stage is in the log. *)
Definition at_load {World} (st : state World) : state World :=
  ((banner;; logger INFO "STAGE 3: LOADING" [];; banner) st).2.

(** A state in which nothing has happened yet. *)
Definition initial_state {World} (w : World) : state World :=
  mkState w ∅ false [] [].

(** In the words of the specification, the code binds [result_df] when
    the name is an assignment target somewhere in it. *)
Definition binds_result_df (code : pystr) : bool :=
  existsb (λ line, bool_decide (assignment_target line = Some result_df))
    (Str.split "010"%char code).

(** Result recovery in the words of the specification: [result_df] when
    it is bound to a table; otherwise the last table-shaped binding of the
    namespace that is neither the input mapping nor underscore-prefixed;
    otherwise nothing. *)
Definition table_candidate (binding : pystr * value) : bool :=
  is_dataframe binding.2 &&
  (negb (Str.eqb binding.1 (py "dataframes")) &&
   negb (Str.startswith (py "_") binding.1)).

Definition recovery_as_specified (final : namespace) : option value :=
  match Dict.get final result_df with
  | Some (VDataFrame l) => Some (VDataFrame l)
  | _ => snd <$> last (List.filter table_candidate final)
  end.

(** A record of the log that is no such warning. *)
Definition quiet (r : log_record) : Prop := log_template r ≠ retry_warning.

(** [st'] is [st] with more records in the log, none of them the warning
    of a failed attempt. *)
Definition log_extended {World} (st st' : state World) : Prop :=
  ∃ records,
    Forall quiet records ∧
    st' = mkState (world st) (heap st) (connected st) (log st ++ records) (calls st).

(** The failed attempts that the log reports: number and exception. *)
Definition retry_warnings (records : list log_record) : list (Z * exn) :=
  omap (λ r,
    if bool_decide (log_template r = retry_warning) then
      match log_args r with
      | [AInt attempt; AExn e] => Some (attempt, e)
      | _ => None
      end
    else None) records.

(** The queries that the code generator was asked, and the code texts
    that were executed, among a list of calls. *)
Definition generate_queries (cs : list call) : list pystr :=
  omap (λ c, match c with
             | CallGenerate (TransformPrompt user_query _) => Some user_query
             | _ => None
             end) cs.

Definition exec_codes (cs : list call) : list pystr :=
  omap (λ c, match c with CallExec code => Some code | _ => None end) cs.

(** A computation whose final state is always related to its initial
    state by [R]. *)
Definition preserves {World A} (R : relation (state World)) (m : M World A) : Prop :=
  ∀ st, R st (m st).2.

(** A computation that only writes to the log, and no retry warning. *)
Abbreviation log_only := (preserves log_extended).

(** A computation whose exits all satisfy [P]. *)
Definition exits_only {World A} (P : exn → Prop) (m : M World A) : Prop :=
  ∀ st e st', m st = (Raise (Exit e), st') → P e.

(** A computation that an [except Exception] clause always stops: what it
    raises is an instance of [Exception], never an exit. *)
Abbreviation no_exit := (exits_only (λ _, False)).

(** The exits that generated code can bring about. *)
Definition raised_by_exec {World} {ext : External World} (e : exn) : Prop :=
  ∃ code exec_globals w h w' h',
    py_exec code exec_globals w h = (Raise (Exit e), w', h').

(** The state right after [exec] has run, and right after the code
    generator has answered. *)
Definition after_exec {World} {ext : External World} (code : pystr)
    (dataframes : Dict.t loc) (st : state World) : outcome namespace * state World :=
  match py_exec code (exec_globals_of dataframes) (world st) (heap st) with
  | (r, w, h) =>
      (r, mkState w h (connected st) (log st) (calls st ++ [CallExec code]))
  end.

Definition after_generate {World} {ext : External World} (p : prompt)
    (st : state World) : py_result pystr * state World :=
  match generate_content p (world st) with
  | (r, w) =>
      (r, mkState w (heap st) (connected st) (log st) (calls st ++ [CallGenerate p]))
  end.


(** The terminal error of [iterative_transform]. *)
Definition terminal_error (max_iterations : Z) (last_error : option exn) : exn :=
  Exception
    (py "Transformation failed after " ++ py (pretty max_iterations) ++
     py " attempts. Last error: " ++ str_of_last_error last_error).

(** [st'] has the heap of [st]. *)
Definition heap_kept {World} (st st' : state World) : Prop := heap st' = heap st.


(** The destinations that [load] knows. *)
Definition supported (destination : json) : bool :=
  json_is destination "duckdb" || json_is destination "csv" ||
  json_is destination "excel" || json_is destination "parquet".







(** The code that the binding repair of [generate_transformation_code]
    hands on. *)
Definition repaired (code : pystr) : pystr :=
  if Str.contains result_df code then code
  else match find_var_name (reverse (Str.split "010"%char code)) with
       | Some var_name => code ++ assign_result var_name
       | None => code
       end.

(** [st'] has the calls of [st]: nothing was asked of the completion
    service and no code was executed. *)
Definition calls_kept {World} (st st' : state World) : Prop := calls st' = calls st.

(** [st'] has the tables and the connection of [st]. *)
Definition session_kept {World} (st st' : state World) : Prop :=
  heap st' = heap st ∧ connected st' = connected st.

(** The calls of one attempt of [iterative_transform]: a request for code
    and, when the request was answered, one execution. *)
Definition attempt_calls (cs : list call) : Prop :=
  ∃ user_query data_info,
    cs = [CallGenerate (TransformPrompt user_query data_info)] ∨
    ∃ code, cs = [CallGenerate (TransformPrompt user_query data_info); CallExec code].

(** The calls of a run of the pipeline: at most [limit] attempts of the
    transformation, and then at most one request for a destination, for
    the query of the run. *)
Definition run_calls (limit : nat) (routed : bool) (user_query : pystr)
    (new : list call) : Prop :=
  ∃ attempts routing,
    new = concat attempts ++ routing ∧
    length attempts ≤ limit ∧
    Forall attempt_calls attempts ∧
    (routing = [] ∨
     routed = true ∧ ∃ shape, routing = [CallGenerate (DestinationPrompt user_query shape)]).

(** A part of [run] that makes no call. *)
Definition pm_kept {World A} (m : PM World A) : Prop :=
  ∀ results st, calls (m results st).2 = calls st.

(** A part of [run] that takes the list of calls from [P] to [Q], whether
    it returns or raises. *)
Definition pm_calls {World A} (P : list call → Prop) (m : PM World A)
    (Q : list call → Prop) : Prop :=
  ∀ results st, P (calls st) → Q (calls (m results st).2).

(** The stages of a run, in the order in which [run] goes through them,
    each with the flag that skips it. *)
Definition stage_names : list pystr :=
  [py "extract"; py "transform"; py "load"; py "analyze"].

Definition stage_flags (skip_transform skip_load analyze : bool) : Dict.t bool :=
  [(py "extract", false); (py "transform", skip_transform); (py "load", skip_load);
   (py "analyze", negb analyze)].

(** The record has an entry for each of the first [k] stages and for
    nothing else. *)
Definition stages_entered (k : nat) (results : run_record) : Prop :=
  dom (run_stages results) = (list_to_set (take k stage_names) : gset pystr).

(** The status in the entry of a stage that is done. *)
Definition status_of (skip : bool) : pystr :=
  if skip then py "skipped" else py "success".

(** Every entry of the record belongs to one of the four stages and has
    the status that the flag of its stage asks for. *)
Definition statuses_follow (skip_transform skip_load analyze : bool)
    (results : run_record) : Prop :=
  ∀ name entry,
    run_stages results !! name = Some entry →
    status_of <$> Dict.get (stage_flags skip_transform skip_load analyze) name
    = Some (stage_status entry).

(** Started on a record that satisfies [P], a part of [run] establishes
    [Q] when it returns and [E] when it raises. *)
Definition pm_stages {World A} (P : run_record → Prop) (m : PM World A)
    (Q : A → run_record → Prop) (E : run_record → Prop) : Prop :=
  ∀ results st,
    P results →
    match m results st with
    | (Ret a, results', _) => Q a results'
    | (Raise _, results', _) => E results'
    end.

(** ** [etl/visualize_agent.py] *)

(** [s.replace(old, new)]: the occurrences of a non-empty [old] are
    replaced from the left, without overlap; [skip] counts the characters
    of an occurrence that are still to be passed over.  An empty [old]
    occurs before every character and at the end. *)
Fixpoint replace_from (old new : pystr) (skip : nat) (s : pystr) : pystr :=
  match s with
  | [] => []
  | c :: s' =>
      match skip with
      | S k => replace_from old new k s'
      | 0 =>
          if Str.startswith old s then new ++ replace_from old new (length old - 1) s'
          else c :: replace_from old new 0 s'
      end
  end.

Definition str_replace (old new s : pystr) : pystr :=
  match old with
  | [] => new ++ concat ((λ c, c :: new) <$> s)
  | _ => replace_from old new 0 s
  end.

(** [re.search(r'\[.*?\]', text, re.DOTALL)]: from the first opening
    bracket that has a closing bracket after it, up to the nearest closing
    bracket. *)
Fixpoint up_to_closing_bracket (s : pystr) : option pystr :=
  match s with
  | [] => None
  | c :: s' =>
      if bool_decide (c = "]"%char) then Some [c]
      else (λ m, c :: m) <$> up_to_closing_bracket s'
  end.

Fixpoint search_brackets (s : pystr) : option pystr :=
  match s with
  | [] => None
  | c :: s' =>
      if bool_decide (c = "["%char) then
        match up_to_closing_bracket s' with
        | Some m => Some (c :: m)
        | None => search_brackets s'
        end
      else search_brackets s'
  end.

(** An item of the decoded list of suggestions: a JSON object, or a value
    of another kind, with the exception that indexing it by a key raises. *)
Inductive suggestion : Type :=
| Chart (config : Dict.t json)
| NotAChart (e : exn).

(** [config[key]] *)
Definition suggestion_item (config : suggestion) (key : string) : py_result json :=
  match config with
  | Chart d =>
      match Dict.get d (py key) with
      | Some v => Ret v
      | None => Raise (mkExn (py "KeyError") (py "'" ++ py key ++ py "'"))
      end
  | NotAChart e => Raise e
  end.

(** What [VisualizeAgent] consumes.  The two prompts are fixed by the
    query and the table they describe. *)
Class Studio (World : Type) := {
  (** [self.model.generate_content(prompt).text], for the prompt of
      [generate_visualization_code] and for that of
      [create_multiple_visualizations] *)
  visualization_reply : pystr → DataFrame → World → py_result pystr * World;
  suggestions_reply : pystr → DataFrame → World → py_result pystr * World;
  (** [json.loads] on a text that starts with an opening bracket *)
  json_loads_list : pystr → py_result (list suggestion);
  (** [Path(output_path).parent.mkdir(exist_ok=True, parents=True)] *)
  make_parent : pystr → World → py_result () * World;
  (** [exec(code, exec_globals)], with [df] in the namespace; the code
      may raise, or exit *)
  exec_plot : pystr → loc → World → gmap loc DataFrame →
              outcome () * World * gmap loc DataFrame;
  (** [Path(path).exists()] *)
  path_exists : pystr → World → bool;
  (** [shutil.move(src, dst)] *)
  shutil_move : pystr → pystr → World → py_result () * World }.

Definition default_output_path : pystr := py "output/visualization.png".

Definition single_quoted (s : pystr) : pystr := py "'" ++ s ++ py "'".
Definition double_quoted (s : pystr) : pystr := ["034"%char] ++ s ++ ["034"%char].

(** [f"{output_dir}/visualization_{i+1}.png"] *)
Definition numbered_path (output_dir : pystr) (i : nat) : pystr :=
  output_dir ++ py "/visualization_" ++ py (pretty (Z.of_nat i + 1)%Z) ++ py ".png".

Section VisualizeAgent.
Context {World : Type} {studio : Studio World}.

Definition generate_visualization_code (user_query : pystr) (df : loc) : M World pystr :=
  h ← get_heap;
  try_except
    (code ← on_world (visualization_reply user_query (h !!! df));
     let code := clean_code_fences code in
     logger INFO "Generated visualization code" [];;
     mret code)
    (λ e,
     logger ERROR "Failed to generate visualization code: {}" [AExn e];;
     raise e).

(** [Path(path).exists()], which reads the world. *)
Definition exists_path (path : pystr) : M World bool :=
  λ st, (Ret (path_exists path (world st)), st).

Definition execute_visualization (code : pystr) (df : loc) (output_path : pystr)
    : M World pystr :=
  try_except
    (on_world (make_parent output_path);;
     let code :=
       str_replace (single_quoted default_output_path) (single_quoted output_path) code in
     let code :=
       str_replace (double_quoted default_output_path) (double_quoted output_path) code in
     on_exec (exec_plot code df);;
     found ← exists_path output_path;
     (if negb found then
        let alt_path := default_output_path in
        alt_found ← exists_path alt_path;
        if alt_found : bool then
          on_world (shutil_move alt_path output_path);;
          logger INFO "Moved visualization from {} to {}" [AStr alt_path; AStr output_path]
        else mret ()
      else mret ());;
     logger INFO "Visualization saved to {}" [AStr output_path];;
     mret output_path)
    (λ e,
     logger ERROR "Error executing visualization: {}" [AExn e];;
     raise e).

Definition create_visualization (user_query : pystr) (df : loc) (output_path : pystr)
    : M World pystr :=
  code ← generate_visualization_code user_query df;
  logger INFO "Generated code:\n{}" [AStr code];;
  execute_visualization code df output_path.

(** The loop [for i, config in enumerate(viz_configs)] of
    [create_multiple_visualizations], from index [i] on, with the paths
    it collects. *)
Fixpoint visualize_each (user_query : pystr) (df : loc) (output_dir : pystr)
    (i : nat) (viz_configs : list suggestion) : M World (list pystr) :=
  match viz_configs with
  | [] => mret []
  | config :: rest =>
      kind ← (λ st, (called (suggestion_item config "type"), st));
      description ← (λ st, (called (suggestion_item config "description"), st));
      let modified_query :=
        user_query ++ py ". Create a " ++ json_str kind ++ py " chart showing " ++
        json_str description in
      let output_path := numbered_path output_dir i in
      viz_path ← create_visualization modified_query df output_path;
      viz_paths ← visualize_each user_query df output_dir (S i) rest;
      mret (viz_path :: viz_paths)
  end.

Definition create_multiple_visualizations (user_query : pystr) (df : loc)
    (output_dir : pystr) : M World (list pystr) :=
  h ← get_heap;
  try_except
    (response_text ← on_world (suggestions_reply user_query (h !!! df));
     match search_brackets response_text with
     | Some json_match =>
         viz_configs ← (λ st, (called (json_loads_list json_match), st));
         visualize_each user_query df output_dir 0 viz_configs
     | None =>
         viz_path ← create_visualization user_query df default_output_path;
         mret [viz_path]
     end)
    (λ e,
     logger ERROR "Multiple visualizations failed: {}" [AExn e];;
     viz_path ← create_visualization user_query df default_output_path;
     mret [viz_path]).

End VisualizeAgent.

(** A scripted studio: the replies of the completion service and the
    decoder of suggestion lists are given; the plotting code runs without
    effect, and no file is ever found. *)
Record studio_stub := mkStudioStub {
  studio_code : py_result pystr;
  studio_suggestions : py_result pystr;
  studio_json : pystr → py_result (list suggestion) }.

Definition studio_external (s : studio_stub) : Studio nat := {|
  visualization_reply _ _ w := (studio_code s, S w);
  suggestions_reply _ _ w := (studio_suggestions s, S w);
  json_loads_list text := studio_json s text;
  make_parent _ w := (Ret (), w);
  exec_plot _ _ w h := (Ret (), w, h);
  path_exists _ _ := false;
  shutil_move _ _ w := (Ret (), w) |}.


(** A computation whose value, when it returns, satisfies [Q]. *)
Definition returns_only {World A} (Q : A → Prop) (m : M World A) : Prop :=
  ∀ st a, (m st).1 = Ret a → Q a.

(** ** [etl/extract_agent.py] and [get_file_list] *)

(** One detected source: the dictionary that [detect_sources] builds. *)
Record source := mkSource {
  source_path : pystr;
  source_name : pystr;
  source_type : pystr;
  source_size : Z }.

(** The pandas readers that [extract_file] chooses from. *)
Inductive reader : Type := ReadCsv | ReadExcel | ReadJson | ReadParquet.

(** What [ExtractAgent] consumes.  A file is known by the text of its
    path; [path_name], [path_suffix] and [path_stem] are the attributes of
    [pathlib.Path] of these names. *)
Class Files (World : Type) := {
  (** [Path(directory).exists()] *)
  dir_exists : pystr → World → bool;
  (** [list(Path(directory).glob(pattern))], as the texts of the paths *)
  glob : pystr → pystr → World → py_result (list pystr) * World;
  (** [file.stat().st_size] *)
  file_size : pystr → World → py_result Z * World;
  path_name : pystr → pystr;
  path_suffix : pystr → pystr;
  path_stem : pystr → pystr;
  (** [pd.read_csv], [pd.read_excel], [pd.read_json], [pd.read_parquet]:
      the new DataFrame object *)
  read_table : reader → pystr → World → gmap loc DataFrame →
               py_result loc * World * gmap loc DataFrame;
  (** lines 66 to 72 of [extract_all]: the metadata of one source, built
      with [get_data_summary] and saved with [save_metadata] *)
  note_metadata : pystr → pystr → loc → World → gmap loc DataFrame →
                  py_result () * World * gmap loc DataFrame;
  (** [self.model.generate_content(prompt).text], for the prompt of
      [ai_assisted_extract], fixed by the query and the sources *)
  selection_reply : pystr → list source → World → py_result pystr * World;
  (** [json.loads] on a text that starts with an opening bracket *)
  json_loads_names : pystr → py_result (list json) }.

(** The world of an [ExtractAgent]: what is outside the program, and the
    attribute [self.extracted_data], which outlives the calls. *)
Record agent_world (World : Type) := mkAgentWorld {
  outside : World;
  extracted_data : Dict.t loc }.
Arguments mkAgentWorld {World}.
Arguments outside {World}.
Arguments extracted_data {World}.

(** [name in files_to_extract], for a decoded list. *)
Definition json_eq_str (v : json) (s : pystr) : bool :=
  match v with JStr t => Str.eqb t s | _ => false end.

Definition name_in (name : pystr) (files_to_extract : list json) : bool :=
  existsb (λ v, json_eq_str v name) files_to_extract.

Module ExtractAgent.

Section Agent.
Context {World : Type} {files : Files World}.

Definition on_files {A} (f : World → py_result A * World) : M (agent_world World) A :=
  on_world (λ aw, match f (outside aw) with
                  | (r, w) => (r, mkAgentWorld w (extracted_data aw))
                  end).

Definition on_files_heap {A}
    (f : World → gmap loc DataFrame → py_result A * World * gmap loc DataFrame)
    : M (agent_world World) A :=
  on_world_heap (λ aw h, match f (outside aw) h with
                         | (r, w, h') => (r, mkAgentWorld w (extracted_data aw), h')
                         end).

(** [self.extracted_data], and [self.extracted_data[source_name] = df] *)
Definition get_extracted : M (agent_world World) (Dict.t loc) :=
  λ st, (Ret (extracted_data (world st)), st).

Definition set_extracted (name : pystr) (df : loc) : M (agent_world World) () :=
  on_world (λ aw, (Ret (), mkAgentWorld (outside aw)
                             (Dict.set (extracted_data aw) name df))).

(** [files.extend(dir_path.glob(f"*.{ext}"))] for each extension in turn. *)
Fixpoint glob_each (directory : pystr) (extensions : list pystr)
    : M (agent_world World) (list pystr) :=
  match extensions with
  | [] => mret []
  | ext :: rest =>
      found ← on_files (glob directory (py "*." ++ ext));
      more ← glob_each directory rest;
      mret (found ++ more)
  end.

(** [get_file_list] of [helpers.py]; [extensions] is [None] by default. *)
Definition get_file_list (directory : pystr) (extensions : option (list pystr))
    : M (agent_world World) (list pystr) :=
  λ st,
  if negb (dir_exists directory (outside (world st))) then
    (logger WARNING "Directory does not exist: {}" [AStr directory];; mret []) st
  else
    match extensions with
    | Some (ext :: rest) => glob_each directory (ext :: rest) st
    | _ => on_files (glob directory (py "*")) st
    end.

(** The loop of [detect_sources]. *)
Fixpoint describe_each (found : list pystr) : M (agent_world World) (list source) :=
  match found with
  | [] => mret []
  | file :: rest =>
      size ← on_files (file_size file);
      sources ← describe_each rest;
      mret (mkSource file (path_name file) (drop 1 (path_suffix file)) size :: sources)
  end.

Definition detect_sources (directory : pystr) : M (agent_world World) (list source) :=
  let extensions := [py "csv"; py "xlsx"; py "xls"; py "json"; py "parquet"] in
  found ← get_file_list directory (Some extensions);
  sources ← describe_each found;
  logger INFO "Detected {} data sources" [ANat (length sources)];;
  mret sources.

Definition extract_file (file_path : pystr) : M (agent_world World) loc :=
  let suffix := path_suffix file_path in
  try_except
    (df ←
       (if Str.eqb suffix (py ".csv") then on_files_heap (read_table ReadCsv file_path)
        else if Str.eqb suffix (py ".xlsx") || Str.eqb suffix (py ".xls") then
          on_files_heap (read_table ReadExcel file_path)
        else if Str.eqb suffix (py ".json") then
          on_files_heap (read_table ReadJson file_path)
        else if Str.eqb suffix (py ".parquet") then
          on_files_heap (read_table ReadParquet file_path)
        else raise (ValueError (py "Unsupported file type: " ++ suffix)));
     h ← get_heap;
     logger INFO "Extracted {} rows from {}"
       [ANat (length (df_rows (h !!! df))); AStr file_path];;
     mret df)
    (λ e,
     logger ERROR "Error extracting {}: {}" [AStr file_path; AExn e];;
     raise e).

(** The body of the loop of [extract_all], with its handler. *)
Definition extract_one (s : source) : M (agent_world World) () :=
  try_except
    (df ← extract_file (source_path s);
     let name := path_stem (source_path s) in
     set_extracted name df;;
     on_files_heap (note_metadata name (source_path s) df))
    (λ e, logger ERROR "Failed to extract {}: {}" [AStr (source_path s); AExn e]).

Definition extract_all (directory : pystr) : M (agent_world World) (Dict.t loc) :=
  sources ← detect_sources directory;
  for_each sources extract_one;;
  get_extracted.

(** The body of the loop of [ai_assisted_extract]. *)
Definition extract_selected (files_to_extract : list json) (s : source)
    : M (agent_world World) () :=
  if name_in (source_name s) files_to_extract then
    df ← extract_file (source_path s);
    set_extracted (path_stem (source_path s)) df;;
    logger INFO "AI selected and extracted: {}" [AStr (source_name s)]
  else mret ().

(** The [return] that follows the [try] block cannot raise; it is the
    last step of the block here. *)
Definition ai_assisted_extract (user_query directory : pystr)
    : M (agent_world World) (Dict.t loc) :=
  sources ← detect_sources directory;
  try_except
    (response_text ← on_files (selection_reply user_query sources);
     files_to_extract ←
       match search_brackets response_text with
       | Some json_match => λ st, (called (json_loads_names json_match), st)
       | None => mret (JStr <$> (source_name <$> sources))
       end;
     for_each sources (extract_selected files_to_extract);;
     get_extracted)
    (λ e,
     logger ERROR "AI extraction failed, extracting all: {}" [AExn e];;
     extract_all directory).

End Agent.

End ExtractAgent.

(** The keys of [d] are keys of [d']. *)
Definition keys_kept {V} (d d' : Dict.t V) : Prop :=
  ∀ k, is_Some (Dict.get d k) → is_Some (Dict.get d' k).

(** The agent has kept what it had extracted. *)
Definition extracted_kept {World} (st st' : state (agent_world World)) : Prop :=
  keys_kept (extracted_data (world st)) (extracted_data (world st')).

(** A computation that returns, whatever the state. *)
Definition returns {World A} (m : M World A) : Prop :=
  ∀ st, ∃ a st', m st = (Ret a, st').

(** A computation that satisfies [Q] on the value and the state it
    returns with. *)
Definition ends_with {World A} (Q : A → state World → Prop) (m : M World A) : Prop :=
  ∀ st, match m st with
        | (Ret a, st') => Q a st'
        | (Raise _, _) => True
        end.

(** A scripted file system with one directory: the files that the pattern
    for CSV files finds, each read as the table [drivers] into a new
    object; the completion service selects the names [selected]. *)
Definition files_stub (found : list pystr) (selected : py_result (list json))
    : Files nat := {|
  dir_exists _ _ := true;
  glob _ pattern w := (Ret (if Str.eqb pattern (py "*.csv") then found else []), w);
  file_size _ w := (Ret 64%Z, w);
  path_name file := file;
  path_suffix _ := py ".csv";
  path_stem file := reverse (drop 4 (reverse file));
  read_table _ _ w h :=
    let l := fresh (dom h) in (Ret l, w, <[l := drivers]> h);
  note_metadata _ _ _ w h := (Ret (), w, h);
  selection_reply _ _ w := (Ret (py "[...]"), S w);
  json_loads_names _ := selected |}.

(** An agent that holds the table [old] from an earlier call. *)
Definition agent_with_old : state (agent_world nat) :=
  mkState (mkAgentWorld 0 [(py "old", 1%positive)])
    {[1%positive := drivers]} false [] [].

(** ** The metadata file of [helpers.py] *)

(** What [json.load] finds in the metadata file: a JSON object, or a value
    of another kind, with the exception that assigning to a key of it
    raises. *)
Inductive loaded : Type :=
| LoadedDict (d : Dict.t json)
| LoadedOther (e : exn).

(** What the metadata functions consume. *)
Class MetadataFiles (World : Type) := {
  (** [with open(metadata_path, 'r') as f: json.load(f)] *)
  open_and_load : pystr → World → py_result loaded * World;
  (** [with open(metadata_path, 'w') as f: json.dump(metadata, f, ...)] *)
  open_and_dump : Dict.t json → pystr → World → py_result () * World;
  (** [datetime.now().isoformat()] *)
  now_isoformat : World → pystr * World }.

Module Helpers.

Section Metadata.
Context {World : Type} {store : MetadataFiles World}.

Definition load_metadata (metadata_path : pystr) : M World loaded :=
  try_except
    (on_world (open_and_load metadata_path))
    (λ e,
     if Str.eqb (exn_class e) (py "FileNotFoundError") then mret (LoadedDict [])
     else if Str.eqb (exn_class e) (py "JSONDecodeError") then
       logger ERROR "Error decoding metadata: {}" [AExn e];;
       mret (LoadedDict [])
     else raise e).

Definition save_metadata (metadata : Dict.t json) (metadata_path : pystr) : M World () :=
  try_except
    (on_world (open_and_dump metadata metadata_path))
    (λ e, logger ERROR "Error saving metadata: {}" [AExn e]).

Definition update_metadata (key : pystr) (value : json) (metadata_path : pystr)
    : M World () :=
  metadata ← load_metadata metadata_path;
  metadata ←
    match metadata with
    | LoadedDict d => mret (Dict.set d key value)
    | LoadedOther e => raise e
    end;
  last_updated ← on_world (λ w, match now_isoformat w with (t, w') => (Ret t, w') end);
  let metadata := Dict.set metadata (py "last_updated") (JStr last_updated) in
  save_metadata metadata metadata_path.

End Metadata.

End Helpers.

(** The metadata file is missing or is no JSON. *)
Definition unreadable (e : exn) : bool :=
  Str.eqb (exn_class e) (py "FileNotFoundError") ||
  Str.eqb (exn_class e) (py "JSONDecodeError").

(** A scripted metadata file: what reading it gives. *)
Definition metadata_stub (content : py_result loaded) : MetadataFiles nat := {|
  open_and_load _ w := (content, w);
  open_and_dump _ _ w := (Ret (), S w);
  now_isoformat w := (py "2024-05-01T12:00:00", w) |}.

(** ** [etl/extract_inspect.py] *)

(** [df.columns.str.strip().str.lower().str.replace(" ", "_")], for one
    label. *)
Definition clean_column (label : pystr) : pystr :=
  str_replace (py " ") (py "_") (Str.lower (Str.strip label)).

(** [clean_columns], on the table itself. *)
Definition clean_columns (df : DataFrame) : DataFrame :=
  mkDataFrame (clean_column <$> df_columns df) (df_dtypes df) (df_rows df).

(** * Properties *)

(** ** Characters *)

Ltac run_monad :=
  unfold mbind, mret, M_bind, M_ret, bind, ret, raise, try_except, record_call,
    on_world_heap, on_world, on_exec, get_heap, logger in *;
  cbn beta iota delta [fst snd world heap connected log calls is_none py_len called] in *.

Ltac by_cases_on_char c :=
  destruct c as [[] [] [] [] [] [] [] []]; vm_compute; try reflexivity; try discriminate.

Lemma isword_not_isspace c : Char.isword c = true → Char.isspace c = false.
Proof. by_cases_on_char c. Qed.


Lemma is_underscore_isword c : Char.is_underscore c = true → Char.isword c = true.
Proof. by_cases_on_char c. Qed.



Lemma linebreak_isspace c : Char.islinebreak c = true → Char.isspace c = true.
Proof. by_cases_on_char c. Qed.

(** ** Dictionaries *)

Section DictFacts.
Context {V : Type}.
Implicit Types (d : Dict.t V) (k : pystr) (v : V).

Lemma dict_get_set_eq d k v : Dict.get (Dict.set d k v) k = Some v.
Proof.
  induction d as [|[k' v'] d IH]; simpl.
  - by rewrite bool_decide_eq_true_2.
  - destruct (bool_decide (k' = k)) eqn:E; simpl; by rewrite E.
Qed.

Lemma dict_get_set_ne d k k' v : k ≠ k' → Dict.get (Dict.set d k v) k' = Dict.get d k'.
Proof.
  intros Hne. induction d as [|[k0 v0] d IH]; simpl.
  - by rewrite bool_decide_eq_false_2.
  - destruct (bool_decide (k0 = k)) eqn:E; simpl.
    + apply bool_decide_eq_true_1 in E as ->. by rewrite !bool_decide_eq_false_2.
    + by rewrite IH.
Qed.

(** Assigning to a key that is there keeps the order of the keys. *)
Lemma dict_set_keys d k v : is_Some (Dict.get d k) → (Dict.set d k v).*1 = d.*1.
Proof.
  induction d as [|[k' v'] d IH]; [by intros [? ?]|].
  cbn [Dict.get Dict.set]. destruct (bool_decide (k' = k)) eqn:E; [done|].
  intros H. rewrite !fmap_cons. f_equal. by apply IH.
Qed.

(** Assigning to a new key puts it last. *)
Lemma dict_set_new d k v : Dict.get d k = None → Dict.set d k v = d ++ [(k, v)].
Proof.
  induction d as [|[k' v'] d IH]; simpl; [done|].
  destruct (bool_decide (k' = k)); [done|]. intros H. by rewrite IH.
Qed.

End DictFacts.

Example exec_globals_result_df dataframes :
  Dict.get (exec_globals_of dataframes) result_df = Some VNone ∧
  (exec_globals_of dataframes).*1 = [py "pd"; py "dataframes"; result_df; py "np"].
Proof. by vm_compute. Qed.

(** ** [clean_code_fences] *)

Section CleanCodeFences.

Lemma splitlines_from_break_free cur s :
  break_free cur → Forall break_free (Str.splitlines_from cur s).
Proof.
  revert cur. induction s as [s IH] using (induction_ltof1 _ (@length ascii)).
  unfold ltof in IH. intros cur Hcur. destruct s as [|c s']; simpl.
  - destruct cur; [constructor|]. repeat constructor.
    unfold break_free. rewrite reverse_cons. apply Forall_app. split.
    + apply Forall_reverse. by inversion Hcur.
    + repeat constructor. by inversion Hcur.
  - destruct (Char.islinebreak c) eqn:Hc.
    + constructor; [by apply Forall_reverse|].
      destruct s' as [|d s'']; [simpl; constructor|].
      destruct (Char.is_code 13 c && Char.is_code 10 d);
        apply IH; simpl; try lia; constructor.
    + apply IH; [simpl; lia|]. by constructor.
Qed.

Lemma splitlines_break_free code : Forall break_free (Str.splitlines code).
Proof. apply splitlines_from_break_free. constructor. Qed.

Lemma kept_lines_break_free code : Forall break_free (kept_lines code).
Proof.
  unfold kept_lines. pose proof (splitlines_break_free code) as H.
  rewrite Forall_forall in H |- *. intros l Hl. apply H.
  apply list_elem_of_In in Hl. apply filter_In in Hl as [Hl _].
  by apply list_elem_of_In.
Qed.

Lemma kept_lines_not_fence code :
  Forall (λ line, is_fence_line line = false) (kept_lines code).
Proof.
  unfold kept_lines. rewrite Forall_forall. intros l Hl.
  apply list_elem_of_In in Hl. apply filter_In in Hl as [_ Hl].
  by apply negb_true_iff.
Qed.

(** A line without line breaks is read up to its end. *)
Lemma splitlines_from_app cur line rest :
  break_free line →
  Str.splitlines_from cur (line ++ rest) = Str.splitlines_from (reverse line ++ cur) rest.
Proof.
  revert cur. induction line as [|c line IH]; intros cur Hline; [done|].
  inversion Hline as [|? ? Hc Hline']; subst. simpl. rewrite Hc.
  rewrite IH by done. by rewrite reverse_cons, <- app_assoc.
Qed.

Lemma splitlines_line line :
  break_free line →
  Str.splitlines line = match line with [] => [] | _ => [line] end.
Proof.
  intros Hline. unfold Str.splitlines.
  rewrite <- (app_nil_r line) at 1. rewrite splitlines_from_app by done.
  rewrite app_nil_r. simpl. destruct line as [|c line]; [done|].
  destruct (reverse (c :: line)) eqn:Hrev.
  - apply (f_equal length) in Hrev. rewrite length_reverse in Hrev. done.
  - by rewrite <- Hrev, reverse_involutive.
Qed.

Lemma splitlines_line_newline line rest :
  break_free line →
  Str.splitlines (line ++ newline ++ rest) = line :: Str.splitlines rest.
Proof.
  intros Hline. unfold Str.splitlines. rewrite splitlines_from_app by done.
  rewrite app_nil_r. simpl. rewrite reverse_involutive. by destruct rest.
Qed.

(** Reading back the lines that were joined with LF. *)
Lemma splitlines_join lines :
  Forall break_free lines →
  Str.splitlines (Str.join newline lines) = drop_last_empty lines.
Proof.
  induction lines as [|l lines IH]; intros Hlines; [done|].
  inversion Hlines as [|? ? Hl Hrest]; subst.
  destruct lines as [|l' lines].
  - simpl. rewrite splitlines_line by done. by destruct l.
  - change (Str.join newline (l :: l' :: lines))
      with (l ++ newline ++ Str.join newline (l' :: lines)).
    rewrite splitlines_line_newline by done. by rewrite IH.
Qed.

Lemma drop_last_empty_Forall {P : pystr → Prop} lines :
  Forall P lines → Forall P (drop_last_empty lines).
Proof.
  induction lines as [|l lines IH]; intros H; [done|].
  inversion H; subst. destruct lines as [|l' lines].
  - simpl. destruct l; by repeat constructor.
  - change (drop_last_empty (l :: l' :: lines))
      with (l :: drop_last_empty (l' :: lines)).
    constructor; auto.
Qed.

Lemma drop_last_empty_id lines :
  last lines ≠ Some [] → drop_last_empty lines = lines.
Proof.
  induction lines as [|l lines IH]; intros H; [done|].
  destruct lines as [|l' lines].
  - simpl. destruct l; [by destruct H|done].
  - change (drop_last_empty (l :: l' :: lines))
      with (l :: drop_last_empty (l' :: lines)).
    f_equal. apply IH. by rewrite last_cons_cons in H.
Qed.

Lemma filter_all_true {A} (f : A → bool) (l : list A) :
  Forall (λ x, f x = true) l → List.filter f l = l.
Proof.
  induction 1 as [|x l Hx _ IH]; [done|]. simpl. by rewrite Hx, IH.
Qed.

(** The second pass drops nothing but an empty last line. *)
Lemma clean_code_fences_twice code :
  clean_code_fences (clean_code_fences code)
  = Str.join newline (drop_last_empty (kept_lines code)).
Proof.
  unfold clean_code_fences at 1. fold (kept_lines (clean_code_fences code)).
  unfold kept_lines at 1. unfold clean_code_fences. fold (kept_lines code).
  rewrite splitlines_join by apply kept_lines_break_free.
  rewrite filter_all_true; [done|].
  apply drop_last_empty_Forall.
  eapply Forall_impl; [apply kept_lines_not_fence|].
  intros l Hl. simpl in Hl. by rewrite Hl.
Qed.

Example clean_code_fences_python_block :
  clean_code_fences
    (py "```python" ++ newline ++ py "x = 1" ++ newline ++ py " ``` ")
  = py "x = 1".
Proof. vm_compute. reflexivity. Qed.

(** C5, the claim as written fails: sanitizing is not idempotent.  On the
    text [a LF LF] the first pass yields [a LF] and the second yields [a]. *)
Lemma clean_code_fences_not_idempotent :
  let x := py "a" ++ newline ++ newline in
  clean_code_fences x = py "a" ++ newline ∧
  clean_code_fences (clean_code_fences x) = py "a" ∧
  clean_code_fences (clean_code_fences x) ≠ clean_code_fences x.
Proof. vm_compute. repeat split. discriminate. Qed.

(** C5, amended: [clean_code_fences] removes exactly the lines that, once
    trimmed, are the bare or the python fence marker, and joins the other
    lines, unchanged and in order, with LF.  Read back line by line, the
    result is those kept lines, none of them a fence, except that an empty
    last kept line is no line of the result.  A second pass removes that
    empty last line and nothing else, so the function is idempotent on
    every text whose last kept line is not empty. *)
Theorem clean_code_fences_lines code :
  clean_code_fences code = Str.join newline (kept_lines code) ∧
  Str.splitlines (clean_code_fences code) = drop_last_empty (kept_lines code) ∧
  Forall (λ line, is_fence_line line = false)
    (Str.splitlines (clean_code_fences code)) ∧
  clean_code_fences (clean_code_fences code)
    = Str.join newline (drop_last_empty (kept_lines code)) ∧
  (last (kept_lines code) ≠ Some [] →
   clean_code_fences (clean_code_fences code) = clean_code_fences code).
Proof.
  assert (Hsplit : Str.splitlines (clean_code_fences code)
                   = drop_last_empty (kept_lines code)).
  { apply splitlines_join, kept_lines_break_free. }
  split; [done|]. split; [done|]. split.
  { rewrite Hsplit. apply drop_last_empty_Forall, kept_lines_not_fence. }
  split; [apply clean_code_fences_twice|].
  intros Hlast. rewrite clean_code_fences_twice.
  by rewrite drop_last_empty_id.
Qed.

Lemma clean_code_fences_lines_witness :
  let code := py "```" ++ newline ++ py "x = 1" ++ newline ++ py "y = x" in
  last (kept_lines code) ≠ Some [] ∧
  clean_code_fences (clean_code_fences code) = clean_code_fences code.
Proof.
  intros code.
  assert (H : last (kept_lines code) ≠ Some []) by (vm_compute; discriminate).
  split; [exact H|].
  exact (proj2 (proj2 (proj2 (proj2 (clean_code_fences_lines code)))) H).
Defined.

End CleanCodeFences.

(** ** [sanitize_column_name] *)

Section SanitizeColumnName.

Implicit Types (s : pystr) (c : ascii) (cls : ascii → bool).

Lemma dropwhile_split cls s :
  ∃ pre, s = pre ++ Str.dropwhile cls s ∧ Forall (λ c, cls c = true) pre.
Proof.
  induction s as [|c s [pre [IH1 IH2]]]; [by exists []|]. simpl.
  destruct (cls c) eqn:Hc.
  - exists (c :: pre). split; [by rewrite <- app_comm_cons, <- IH1|by constructor].
  - by exists [].
Qed.


Lemma dropwhile_id cls s :
  (∀ c, head s = Some c → cls c = false) → Str.dropwhile cls s = s.
Proof. destruct s as [|c s]; [done|]. intros H. simpl. by rewrite (H c). Qed.











Lemma sub_runs_from_Forall (P : ascii → Prop) cls repl in_run s :
  P repl → Forall (λ c, P c ∨ cls c = true) s →
  Forall P (Str.sub_runs_from cls repl in_run s).
Proof.
  intros Hrepl Hs. revert in_run.
  induction Hs as [|c s Hc _ IH]; intros in_run; [constructor|]. simpl.
  destruct (cls c) eqn:E.
  - destruct in_run; [apply IH|]. constructor; [done|apply IH].
  - constructor; [|apply IH]. by destruct Hc.
Qed.



Lemma sub_runs_from_in cls repl in_run c s :
  cls c = true →
  Str.sub_runs_from cls repl in_run (c :: s)
  = if in_run then Str.sub_runs_from cls repl true s
    else repl :: Str.sub_runs_from cls repl true s.
Proof. intros H. simpl. by rewrite H. Qed.

Lemma sub_runs_from_out cls repl in_run c s :
  cls c = false →
  Str.sub_runs_from cls repl in_run (c :: s) = c :: Str.sub_runs_from cls repl false s.
Proof. intros H. simpl. by rewrite H. Qed.

Lemma collapse_space_then_underscore in_space in_us s :
  (in_space = true → in_us = true) →
  Str.sub_runs_from Char.is_underscore Char.underscore in_us
    (Str.sub_runs_from Char.isspace Char.underscore in_space
       (Str.sub_each (λ c, Char.isword c || Char.isspace c) Char.underscore s))
  = Str.sub_runs_from Char.is_underscore Char.underscore in_us
      (Str.sub_each Char.isword Char.underscore s).
Proof.
  revert in_space in_us. induction s as [|c s IH]; intros in_space in_us H; [done|].
  unfold Str.sub_each in *. rewrite !fmap_cons.
  assert (Hus : Char.is_underscore Char.underscore = true) by done.
  assert (Hsp : Char.isspace Char.underscore = false) by done.
  destruct (Char.isword c) eqn:Hw.
  - rewrite orb_true_l.
    rewrite (sub_runs_from_out Char.isspace) by by apply isword_not_isspace.
    destruct (Char.is_underscore c) eqn:Hu.
    + rewrite !(sub_runs_from_in Char.is_underscore) by done.
      destruct in_us; [by apply IH | f_equal; by apply IH].
    + rewrite !(sub_runs_from_out Char.is_underscore) by done.
      f_equal. by apply IH.
  - rewrite orb_false_l.
    destruct (Char.isspace c) eqn:Hs.
    + rewrite (sub_runs_from_in Char.isspace) by done.
      rewrite (sub_runs_from_in Char.is_underscore _ _ Char.underscore) by done.
      destruct in_space.
      * rewrite (H eq_refl). by apply IH.
      * rewrite (sub_runs_from_in Char.is_underscore) by done.
        destruct in_us; [by apply IH | f_equal; by apply IH].
    + rewrite (sub_runs_from_out Char.isspace) by done.
      rewrite !(sub_runs_from_in Char.is_underscore _ _ Char.underscore) by done.
      destruct in_us; [by apply IH | f_equal; by apply IH].
Qed.

Lemma sanitize_column_name_refines col_name :
  sanitize_column_name col_name = sanitize_column_name_spec col_name.
Proof.
  unfold sanitize_column_name, sanitize_column_name_spec, Str.sub_runs.
  by rewrite collapse_space_then_underscore.
Qed.






Example sanitize_column_name_driver :
  sanitize_column_name (py "  Driver Name (#1)__Total ") = py "driver_name_1_total".
Proof. vm_compute. reflexivity. Qed.

End SanitizeColumnName.

(** ** Column names beyond Latin-1 *)

Section WideText.
Implicit Types (s : pystr) (cls : ascii → bool).

Lemma dropwhile_latin cls (wide_cls : Wide.char → bool) s :
  (∀ c, wide_cls (Wide.Latin c) = cls c) →
  Str.dropwhile wide_cls (Wide.Latin <$> s) = Wide.Latin <$> Str.dropwhile cls s.
Proof.
  intros Hcls. induction s as [|c s IH]; [done|].
  simpl. rewrite Hcls. by destruct (cls c).
Qed.

Lemma strip_chars_latin cls (wide_cls : Wide.char → bool) s :
  (∀ c, wide_cls (Wide.Latin c) = cls c) →
  Str.strip_chars wide_cls (Wide.Latin <$> s) = Wide.Latin <$> Str.strip_chars cls s.
Proof.
  intros Hcls. unfold Str.strip_chars, Str.rstrip, Str.lstrip.
  rewrite (dropwhile_latin cls) by done.
  rewrite <- fmap_reverse, (dropwhile_latin cls) by done.
  by rewrite fmap_reverse.
Qed.

Lemma sub_runs_from_latin cls (wide_cls : Wide.char → bool) repl in_run s :
  (∀ c, wide_cls (Wide.Latin c) = cls c) →
  Str.sub_runs_from wide_cls (Wide.Latin repl) in_run (Wide.Latin <$> s)
  = Wide.Latin <$> Str.sub_runs_from cls repl in_run s.
Proof.
  intros Hcls. revert in_run. induction s as [|c s IH]; intros in_run; [done|].
  simpl. rewrite Hcls. destruct (cls c), in_run; simpl; by rewrite IH.
Qed.

Lemma sub_each_latin cls (wide_cls : Wide.char → bool) repl s :
  (∀ c, wide_cls (Wide.Latin c) = cls c) →
  Str.sub_each wide_cls (Wide.Latin repl) (Wide.Latin <$> s)
  = Wide.Latin <$> Str.sub_each cls repl s.
Proof.
  intros Hcls. unfold Str.sub_each. rewrite <- !list_fmap_compose.
  apply list_fmap_ext. intros i c _. simpl. rewrite Hcls. by destruct (cls c).
Qed.

(** On Latin-1 text the wide function is the function of the model. *)
Lemma wide_sanitize_latin s :
  Wide.sanitize_column_name (Wide.of_pystr s) = Wide.of_pystr (sanitize_column_name s).
Proof.
  unfold Wide.sanitize_column_name, sanitize_column_name, Wide.of_pystr, Wide.lower,
    Str.lower, Str.sub_runs, Wide.underscore.
  assert (Hlower : Wide.lower_char <$> (Wide.Latin <$> s)
                   = Wide.Latin <$> (Char.lower <$> s)).
  { rewrite <- !list_fmap_compose. by apply list_fmap_ext. }
  rewrite Hlower.
  rewrite (sub_each_latin (λ c, Char.isword c || Char.isspace c)) by done.
  rewrite (sub_runs_from_latin Char.isspace) by done.
  rewrite (sub_runs_from_latin Char.is_underscore) by done.
  by rewrite (strip_chars_latin Char.is_underscore).
Qed.

End WideText.


(** ** The lines that the reverse scan accepts *)

Section AssignmentTarget.
Implicit Types (s v e : pystr) (c : ascii) (cls : ascii → bool).

Lemma isidstart_facts c :
  Char.isidstart c = true →
  Char.isspace c = false ∧ c ≠ "="%char ∧ c ≠ "#"%char ∧ Char.isidcontinue c = true.
Proof. by_cases_on_char c; repeat split; discriminate. Qed.

Lemma isidcontinue_facts c :
  Char.isidcontinue c = true → Char.isspace c = false ∧ c ≠ "="%char.
Proof. by_cases_on_char c; repeat split; discriminate. Qed.

Lemma isidentifier_chars v :
  Str.isidentifier v = true →
  ∃ c v', v = c :: v' ∧ Char.isidstart c = true ∧
          Forall (λ d, Char.isidcontinue d = true) (c :: v').
Proof.
  destruct v as [|c v']; [done|]. simpl. intros [H1 H2]%andb_true_iff.
  exists c, v'. split; [done|]. split; [done|]. constructor.
  - by apply isidstart_facts.
  - apply Forall_forall. intros d Hd. rewrite forallb_forall in H2.
    apply H2. by apply list_elem_of_In.
Qed.

Lemma dropwhile_app_stop cls s t c :
  head t = Some c → cls c = false → Forall (λ d, cls d = true) s →
  Str.dropwhile cls (s ++ t) = t.
Proof.
  intros Ht Hc Hs. induction Hs as [|d s Hd _ IH].
  - destruct t as [|c' t]; [done|]. simpl in *. injection Ht as ->. by rewrite Hc.
  - simpl. by rewrite Hd.
Qed.

Lemma dropwhile_app_keep cls s t c :
  head (Str.dropwhile cls s) = Some c →
  Str.dropwhile cls (s ++ t) = Str.dropwhile cls s ++ t.
Proof.
  induction s as [|d s IH]; [done|]. simpl. destruct (cls d); [apply IH|done].
Qed.

(** Trimming on the right stops at the last character outside the class. *)
Lemma rstrip_app_keep cls s t c :
  last s = Some c → cls c = false →
  Str.rstrip cls (s ++ t) = s ++ Str.rstrip cls t.
Proof.
  intros Hlast Hc. unfold Str.rstrip. rewrite reverse_app.
  destruct (Str.dropwhile cls (reverse t)) as [|d r] eqn:Ht.
  - destruct (dropwhile_split cls (reverse t)) as (pre & Hpre & Hall).
    rewrite Ht, app_nil_r in Hpre. rewrite Hpre.
    rewrite (dropwhile_app_stop cls pre (reverse s) c); try done.
    + by rewrite reverse_involutive, app_nil_r.
    + by rewrite head_reverse.
  - rewrite (dropwhile_app_keep cls (reverse t) (reverse s) d) by by rewrite Ht.
    rewrite Ht, reverse_app. by rewrite reverse_involutive.
Qed.

Lemma split_until sep s t :
  Forall (λ c, c ≠ sep) s → hd [] (Str.split sep (s ++ sep :: t)) = s.
Proof.
  induction 1 as [|c s Hc _ IH]; simpl.
  - by rewrite bool_decide_eq_true_2.
  - rewrite bool_decide_eq_false_2 by done.
    destruct (Str.split sep (s ++ sep :: t)) as [|p rest]; simpl in *; by subst.
Qed.

Lemma contains_app_r sub s t : Str.contains sub t = true → Str.contains sub (s ++ t) = true.
Proof.
  intros H. induction s as [|c s IH]; [done|].
  change (Str.contains sub ((c :: s) ++ t))
    with (Str.startswith sub (c :: s ++ t) || Str.contains sub (s ++ t)).
  rewrite IH. apply orb_true_r.
Qed.

(** A line [identifier = expression], whatever the expression, passes the
    test, and its target is the identifier. *)
Lemma assignment_target_identifier v e :
  Str.isidentifier v = true →
  assignment_target (v ++ py " = " ++ e) = Some v.
Proof.
  intros Hid. destruct (isidentifier_chars v Hid) as (c & v' & -> & Hc & Hall).
  destruct (isidstart_facts c Hc) as (Hcspace & Hceq & Hchash & _).
  unfold assignment_target.
  assert (Hlast : ∃ d, last (c :: v') = Some d ∧ Char.isidcontinue d = true).
  { destruct (last (c :: v')) as [d|] eqn:E.
    - exists d. split; [done|]. rewrite Forall_forall in Hall. apply Hall.
      apply last_Some in E as [l' ->]. set_solver.
    - by apply last_None in E. }
  destruct Hlast as (d & Hd & Hdcont).
  destruct (isidcontinue_facts d Hdcont) as (Hdspace & Hdeq).
  set (t := Str.rstrip Char.isspace (" "%char :: e)).
  assert (Hstrip : Str.strip ((c :: v') ++ py " = " ++ e) = (c :: v') ++ py " =" ++ t).
  { unfold Str.strip, Str.strip_chars, Str.lstrip.
    rewrite dropwhile_id by (by intros x [= <-]).
    replace ((c :: v') ++ py " = " ++ e)
      with (((c :: v') ++ py " =") ++ " "%char :: e) by by rewrite <- app_assoc.
    rewrite (rstrip_app_keep _ _ _ "="%char); [by rewrite <- app_assoc| |done].
    change (py " =") with ([" "%char] ++ ["="%char]).
    by rewrite !app_assoc, last_snoc. }
  rewrite Hstrip.
  assert (Hcontains : Str.contains (py "=") ((c :: v') ++ py " =" ++ t) = true).
  { apply contains_app_r. done. }
  rewrite Hcontains.
  change (Str.startswith (py "#") ((c :: v') ++ py " =" ++ t))
    with (bool_decide ("#"%char = c) && true).
  rewrite bool_decide_eq_false_2 by done. cbn [andb negb].
  replace ((c :: v') ++ py " =" ++ t)
    with (((c :: v') ++ [" "%char]) ++ "="%char :: t) by by rewrite <- app_assoc.
  rewrite split_until.
  2:{ apply Forall_app. split; [|by repeat constructor].
      eapply Forall_impl; [exact Hall|]. intros x Hx. by apply isidcontinue_facts. }
  assert (Hname : Str.strip ((c :: v') ++ [" "%char]) = c :: v').
  { unfold Str.strip, Str.strip_chars, Str.lstrip.
    rewrite dropwhile_id by (by intros x [= <-]).
    rewrite (rstrip_app_keep _ _ _ d) by done. by rewrite app_nil_r. }
  rewrite Hname. unfold Str.eqb. rewrite bool_decide_eq_false_2 by done.
  by rewrite Hid.
Qed.

End AssignmentTarget.

(** ** The binding repair of [generate_transformation_code] *)

Section AddMissingResultDf.
Context {World : Type}.
Implicit Types (code line : pystr) (st : state World).

Lemma find_var_name_skip (skipped rest : list pystr) :
  Forall (λ line, assignment_target line = None) skipped →
  find_var_name (skipped ++ rest) = find_var_name rest.
Proof.
  induction 1 as [|line skipped Hline _ IH]; [done|]. simpl. by rewrite Hline.
Qed.

Lemma find_var_name_last (pre post : list pystr) line var_name :
  assignment_target line = Some var_name →
  Forall (λ line, assignment_target line = None) post →
  find_var_name (reverse (pre ++ line :: post)) = Some var_name.
Proof.
  intros Hline Hpost. rewrite reverse_app, reverse_cons, <- app_assoc.
  rewrite find_var_name_skip by by apply Forall_reverse.
  simpl. by rewrite Hline.
Qed.

Lemma find_var_name_none (lines : list pystr) :
  Forall (λ line, assignment_target line = None) lines →
  find_var_name (reverse lines) = None.
Proof.
  intros H. rewrite <- (app_nil_r (reverse lines)).
  rewrite find_var_name_skip by by apply Forall_reverse. done.
Qed.

(** C4, amended: the repair looks for the text [result_df] anywhere in the
    code, not for an assignment to it.  When the text occurs the code is
    left as it is.  When it does not occur, the repair appends one
    assignment to [result_df] (after an empty line and a comment line), bound
    to the target of the last line that passes the test of the reverse
    scan; when no line passes, the code is left unchanged. *)
Theorem add_missing_result_df_result code st :
  (Str.contains result_df code = true →
   (add_missing_result_df code st).1 = Ret code) ∧
  (Str.contains result_df code = false →
   (∀ pre line post var_name,
      Str.split "010"%char code = pre ++ line :: post →
      assignment_target line = Some var_name →
      Forall (λ later, assignment_target later = None) post →
      (add_missing_result_df code st).1
      = Ret (code ++ newline ++ newline ++ py "# Assign result" ++ newline ++
             py "result_df = " ++ var_name ++ newline)) ∧
   (Forall (λ line, assignment_target line = None) (Str.split "010"%char code) →
    (add_missing_result_df code st).1 = Ret code)).
Proof.
  unfold add_missing_result_df. split; [by intros ->|].
  intros ->. simpl. split.
  - intros pre line post var_name -> Hline Hpost.
    by rewrite (find_var_name_last pre post line var_name).
  - intros H. by rewrite find_var_name_none.
Qed.

End AddMissingResultDf.

Lemma add_missing_result_df_result_witness :
  let code := py "df = 1" ++ newline ++ py "print(df)" in
  Str.contains result_df code = false ∧
  (add_missing_result_df code (initial_state ())).1
  = Ret (code ++ newline ++ newline ++ py "# Assign result" ++ newline ++
         py "result_df = " ++ py "df" ++ newline).
Proof.
  intros code.
  assert (H : Str.contains result_df code = false) by (vm_compute; reflexivity).
  split; [exact H|].
  apply (proj1 (proj2 (add_missing_result_df_result code (initial_state ())) H)
           [] (py "df = 1") [py "print(df)"] (py "df")).
  - vm_compute. reflexivity.
  - vm_compute. reflexivity.
  - repeat constructor.
Defined.

(** C4, the claim as written fails: a code text may lack the binding and
    still hold the text [result_df], here in a comment.  The repair then
    appends nothing, although the line [df = 1] could be bound. *)
Lemma add_missing_result_df_skips_mention :
  let code := py "df = 1" ++ newline ++ py "# keep result_df for later" in
  binds_result_df code = false ∧
  find_var_name (reverse (Str.split "010"%char code)) = Some (py "df") ∧
  (add_missing_result_df code (initial_state ())).1 = Ret code ∧
  (add_missing_result_df code (initial_state ())).1
  ≠ Ret (code ++ assign_result (py "df")).
Proof. vm_compute. repeat split. discriminate. Qed.

Example assignment_target_plain :
  assignment_target (py "  total = a + b  ") = Some (py "total").
Proof. vm_compute. reflexivity. Qed.

Example assignment_target_comparison :
  assignment_target (py "x == 1") = Some (py "x").
Proof. vm_compute. reflexivity. Qed.

Example assignment_target_augmented :
  assignment_target (py "x += 1") = None.
Proof. vm_compute. reflexivity. Qed.

Example assignment_target_comment :
  assignment_target (py "# x = 1") = None.
Proof. vm_compute. reflexivity. Qed.

(** ** [execute_transformation] *)

Section ExecuteTransformation.
Context {World : Type} {ext : External World}.
Implicit Types (st : state World) (code : pystr) (dataframes : Dict.t loc).

Lemma log_extended_refl st : log_extended st st.
Proof. exists []. rewrite app_nil_r. split; [constructor|by destruct st]. Qed.

Lemma log_extended_trans st1 st2 st3 :
  log_extended st1 st2 → log_extended st2 st3 → log_extended st1 st3.
Proof.
  intros (r1 & H1 & ->) (r2 & H2 & ->). exists (r1 ++ r2). simpl.
  split; [by apply Forall_app|by rewrite app_assoc].
Qed.

Lemma log_extended_logger st lv template args :
  template ≠ retry_warning →
  log_extended st (logger lv template args st).2.
Proof. intros H. eexists. split; [|done]. by repeat constructor. Qed.

(** The search loop returns the bindings that pass its test, in the order
    of the namespace, and only writes to the log. *)
Lemma find_candidates_filter (items : namespace) candidates st :
  ∃ st', find_candidates items candidates st
         = (Ret (candidates ++ List.filter is_candidate items), st')
         ∧ log_extended st st'.
Proof.
  revert candidates st. induction items as [|[var_name var_value] rest IH];
    intros candidates st.
  - exists st. simpl. rewrite app_nil_r. split; [done|apply log_extended_refl].
  - cbn [find_candidates List.filter].
    destruct (is_candidate (var_name, var_value)).
    + unfold mbind, M_bind, bind, get_heap. cbn beta iota.
      match goal with
      | |- context [logger ?lv ?t ?a st] =>
          destruct (IH (candidates ++ [(var_name, var_value)])
                      (logger lv t a st).2) as (st' & Heq & Hext)
      end.
      exists st'. cbn [logger snd] in *. rewrite Heq, <- app_assoc. split; [done|].
      eapply log_extended_trans; [|exact Hext]. by apply log_extended_logger.
    + apply IH.
Qed.

Lemma for_each_logging {A} (items : list A) (body : A → M World ()) st :
  (∀ x st, ∃ st', body x st = (Ret (), st') ∧ log_extended st st') →
  ∃ st', for_each items body st = (Ret (), st') ∧ log_extended st st'.
Proof.
  intros Hbody. revert st. induction items as [|x items IH]; intros st.
  - exists st. split; [done|apply log_extended_refl].
  - destruct (Hbody x st) as (st1 & H1 & E1).
    destruct (IH st1) as (st2 & H2 & E2).
    exists st2. split; [|by eapply log_extended_trans].
    simpl. unfold bind. by rewrite H1.
Qed.

Lemma log_variables (final : namespace) st :
  ∃ st',
    for_each final (λ binding : pystr * value,
      if negb (Str.startswith (py "__") binding.1)
      then logger ERROR "  {}: {}" [AStr binding.1; AStr (type_name_of binding.2)]
      else mret ()) st = (Ret (), st')
    ∧ log_extended st st'.
Proof.
  apply for_each_logging. intros binding st0.
  destruct (negb (Str.startswith (py "__") binding.1)).
  - eexists. split; [done|]. by apply log_extended_logger.
  - exists st0. split; [done|apply log_extended_refl].
Qed.

(** C1, amended: after the generated code has run, a [result_df] bound to
    a table is the result.  When [result_df] is unset ([None] or deleted),
    the namespace is searched for table-shaped values, leaving out the names
    [pd] and [dataframes] and every name that starts with an underscore,
    and the last one in the order of the namespace is the result.  When
    [result_df] is unset and the search finds nothing, the outcome is the
    error that no result was produced. *)
Theorem execute_transformation_recovery code dataframes st final w h :
  py_exec code (exec_globals_of dataframes) (world st) (heap st) = (Ret final, w, h) →
  (∀ l, Dict.get final result_df = Some (VDataFrame l) →
        (execute_transformation code dataframes st).1 = Ret (VDataFrame l)) ∧
  (Dict.get_default final result_df VNone = VNone →
   (∀ var_name var_value,
      last (List.filter is_candidate final) = Some (var_name, var_value) →
      (execute_transformation code dataframes st).1 = Ret var_value) ∧
   (List.filter is_candidate final = [] →
    (execute_transformation code dataframes st).1
    = Raise (ValueError
        (py "Transformation code did not produce 'result_df' or any other DataFrame")))).
Proof.
  intros Hexec. unfold execute_transformation. split.
  - intros l Hl. run_monad. rewrite Hexec.
    unfold Dict.get_default. rewrite Hl. done.
  - intros Hnone. run_monad. rewrite Hexec. rewrite Hnone. cbn [is_none].
    match goal with
    | |- context [find_candidates final [] ?s] =>
        destruct (find_candidates_filter final [] s) as (st1 & -> & _)
    end.
    rewrite app_nil_l. split.
    + intros var_name var_value Hlast. rewrite Hlast. run_monad.
      assert (Hin : (var_name, var_value) ∈ List.filter is_candidate final).
      { apply last_Some in Hlast as [l' ->]. set_solver. }
      apply list_elem_of_In, filter_In in Hin as [_ Hcand].
      unfold is_candidate in Hcand. apply andb_true_iff in Hcand as [Hdf _].
      destruct var_value; try done.
    + intros ->. cbn [last]. run_monad.
      match goal with
      | |- context [for_each final ?body ?s] =>
          destruct (log_variables final s) as (st2 & Hlog & _)
      end.
      run_monad. by rewrite Hlog.
Qed.

(** C3, amended: what the generated code raises leaves
    [execute_transformation] as it is; no failure value is returned in its
    place.  An instance of [Exception] is caught by the handler, which logs
    its message and the code (two ERROR records) and raises it again,
    unchanged.  An exit ([SystemExit], [KeyboardInterrupt]) is no instance
    of [Exception]: the handler does not see it, nothing is logged, and it
    leaves at once. *)
Theorem execute_transformation_reraises code dataframes st w h :
  (∀ e : exn,
     py_exec code (exec_globals_of dataframes) (world st) (heap st)
     = (Raise (Exc e), w, h) →
     execute_transformation code dataframes st
     = (Raise (Exc e),
        mkState w h (connected st)
          (log st ++
           [mkLog ERROR "Error executing transformation: {}" [AExn e];
            mkLog ERROR "Generated code was:\n{}" [AStr code]])
          (calls st ++ [CallExec code]))) ∧
  (∀ e : exn,
     py_exec code (exec_globals_of dataframes) (world st) (heap st)
     = (Raise (Exit e), w, h) →
     execute_transformation code dataframes st
     = (Raise (Exit e),
        mkState w h (connected st) (log st) (calls st ++ [CallExec code]))).
Proof.
  split; intros e Hexec; unfold execute_transformation; run_monad; rewrite Hexec.
  - by rewrite <- app_assoc.
  - done.
Qed.

End ExecuteTransformation.

Lemma execute_transformation_recovery_witness :
  let code := py "df = dataframes['a']" ++ newline ++ py "top = df.head(3)" in
  let dataframes : Dict.t loc := [(py "a", 1%positive)] in
  let st := initial_state 0 in
  let final :=
    exec_globals_of dataframes ++
    [(py "__builtins__", VModule (py "builtins"));
     (py "df", VDataFrame 1); (py "top", VDataFrame 2)] in
  py_exec (External := stub_external binds_tables) code
    (exec_globals_of dataframes) (world st) (heap st) = (Ret final, 0, ∅) ∧
  Dict.get_default final result_df VNone = VNone ∧
  last (List.filter is_candidate final) = Some (py "top", VDataFrame 2) ∧
  (execute_transformation (ext := stub_external binds_tables) code dataframes st).1
  = Ret (VDataFrame 2).
Proof.
  intros code dataframes st final.
  assert (H1 : py_exec (External := stub_external binds_tables) code
                 (exec_globals_of dataframes) (world st) (heap st)
               = (Ret final, 0, ∅)) by (vm_compute; reflexivity).
  assert (H2 : Dict.get_default final result_df VNone = VNone)
    by (vm_compute; reflexivity).
  assert (H3 : last (List.filter is_candidate final) = Some (py "top", VDataFrame 2))
    by (vm_compute; reflexivity).
  split; [exact H1|]. split; [exact H2|]. split; [exact H3|].
  exact (proj1 (proj2 (execute_transformation_recovery (ext := stub_external binds_tables)
                         code dataframes st final 0 ∅ H1) H2)
           (py "top") (VDataFrame 2) H3).
Defined.

(** C1, the claim as written fails: a [result_df] bound to a list is no
    table, so the specified recovery falls through to the last table of the
    namespace, [df]; the code returns the list. *)
Lemma execute_transformation_accepts_list :
  let code := py "df = dataframes['a']" ++ newline ++ py "result_df = [1, 2, 3]" in
  let dataframes : Dict.t loc := [(py "a", 1%positive)] in
  let final :=
    [(py "pd", VModule (py "pandas")); (py "dataframes", VInputs dataframes);
     (result_df, VObject (py "list") (Some 3)); (py "np", VModule (py "numpy"));
     (py "__builtins__", VModule (py "builtins")); (py "df", VDataFrame 1)] in
  py_exec (External := stub_external binds_list) code
    (exec_globals_of dataframes) 0 ∅ = (Ret final, 0, ∅) ∧
  recovery_as_specified final = Some (VDataFrame 1) ∧
  (execute_transformation (ext := stub_external binds_list) code dataframes
     (initial_state 0)).1 = Ret (VObject (py "list") (Some 3)).
Proof. vm_compute. done. Qed.

Lemma execute_transformation_reraises_witness :
  let e := KeyError (py "'points'") in
  let code := py "result_df = dataframes['a']['points']" in
  let dataframes : Dict.t loc := [(py "a", 1%positive)] in
  let st := initial_state 0 in
  py_exec (External := stub_external (exec_raises e)) code
    (exec_globals_of dataframes) (world st) (heap st) = (Raise e, 0, ∅) ∧
  execute_transformation (ext := stub_external (exec_raises e)) code dataframes st
  = (Raise e,
     mkState 0 ∅ false
       [mkLog ERROR "Error executing transformation: {}" [AExn e];
        mkLog ERROR "Generated code was:\n{}" [AStr code]]
       [CallExec code]).
Proof.
  intros e code dataframes st.
  assert (H : py_exec (External := stub_external (exec_raises e)) code
                (exec_globals_of dataframes) (world st) (heap st)
              = (Raise e, 0, ∅)) by reflexivity.
  split; [exact H|].
  exact (proj1 (execute_transformation_reraises (ext := stub_external (exec_raises e))
                  code dataframes st 0 ∅) e H).
Defined.

(** C3, the claim as written fails: the exception that the generated code
    raises leaves [execute_transformation] as an exception, the same one;
    no value is returned in its place. *)
Lemma execute_transformation_propagates :
  let e := KeyError (py "'points'") in
  (execute_transformation (ext := stub_external (exec_raises e))
     (py "result_df = dataframes['a']['points']") [(py "a", 1%positive)]
     (initial_state 0)).1 = Raise e.
Proof. vm_compute. reflexivity. Qed.

(** ** What a computation leaves in the log *)

Section Preserves.
Context {World : Type} (R : relation (state World)) `{!PreOrder R}.
Implicit Types (st : state World).

Lemma preserves_ret {A} (a : A) : preserves R (mret a : M World A).
Proof. intros st. reflexivity. Qed.

Lemma preserves_raise {A} e : preserves R (raise e : M World A).
Proof. intros st. reflexivity. Qed.

Lemma preserves_bind {A B} (m : M World A) (k : A → M World B) :
  preserves R m → (∀ a, preserves R (k a)) → preserves R (m ≫= k).
Proof.
  intros Hm Hk st. unfold mbind, M_bind, bind.
  specialize (Hm st). destruct (m st) as [[a|e] st1]; [|done].
  etransitivity; [exact Hm|apply Hk].
Qed.

Lemma preserves_try_except {A} (m : M World A) handler :
  preserves R m → (∀ e, preserves R (handler e)) → preserves R (try_except m handler).
Proof.
  intros Hm Hh st. unfold try_except.
  specialize (Hm st). destruct (m st) as [[a|[e|e]] st1]; [done| |done].
  etransitivity; [exact Hm|apply Hh].
Qed.

Lemma preserves_try_finally {A} (m : M World A) cleanup :
  preserves R m → preserves R cleanup → preserves R (try_finally m cleanup).
Proof.
  intros Hm Hc st. unfold try_finally.
  specialize (Hm st). destruct (m st) as [r st1].
  specialize (Hc st1). destruct (cleanup st1) as [[[]|e] st2];
    etransitivity; eauto.
Qed.

Lemma preserves_get_heap : preserves R (get_heap (World := World)).
Proof. intros st. reflexivity. Qed.

Lemma preserves_get_connected : preserves R (get_connected (World := World)).
Proof. intros st. reflexivity. Qed.

Lemma preserves_for_each {A} (items : list A) (body : A → M World ()) :
  (∀ x, preserves R (body x)) → preserves R (for_each items body).
Proof.
  intros Hbody. induction items as [|x items IH]; [apply preserves_ret|].
  simpl. apply (preserves_bind (body x) (λ _, for_each items body)); auto.
Qed.

End Preserves.

Global Instance log_extended_preorder {World} : PreOrder (@log_extended World).
Proof. split; [intros st; apply log_extended_refl|intros ? ? ?; apply log_extended_trans]. Qed.

Lemma log_only_logger {World} lv template args :
  template ≠ retry_warning → log_only (logger (World := World) lv template args).
Proof. intros H st. by apply log_extended_logger. Qed.

Create HintDb frame.

(** ** What a computation can raise *)

Section ExitsOnly.
Context {World : Type} (P : exn → Prop).
Implicit Types (st : state World).

Lemma exits_only_ret {A} (a : A) : exits_only P (mret a : M World A).
Proof. by intros st e st'. Qed.

Lemma exits_only_raise {A} (e : exn) : exits_only P (raise e : M World A).
Proof. by intros st e' st'. Qed.

Lemma exits_only_called {A} (r : py_result A) :
  exits_only P (λ st, (called r, st) : outcome A * state World).
Proof. intros st e st'. by destruct r. Qed.

Lemma exits_only_bind {A B} (m : M World A) (k : A → M World B) :
  exits_only P m → (∀ a, exits_only P (k a)) → exits_only P (m ≫= k).
Proof.
  intros Hm Hk st e st'. unfold mbind, M_bind, bind.
  destruct (m st) as [[a|[e0|e0]] st1] eqn:E; [apply Hk|done|].
  intros [= -> ->]. by apply Hm in E.
Qed.

Lemma exits_only_try_except {A} (m : M World A) handler :
  exits_only P m → (∀ e, exits_only P (handler e)) →
  exits_only P (try_except m handler).
Proof.
  intros Hm Hh st e st'. unfold try_except.
  destruct (m st) as [[a|[e0|e0]] st1] eqn:E; [done|apply Hh|].
  intros [= -> ->]. by apply Hm in E.
Qed.

Lemma exits_only_try_finally {A} (m : M World A) cleanup :
  exits_only P m → exits_only P cleanup → exits_only P (try_finally m cleanup).
Proof.
  intros Hm Hc st e st'. unfold try_finally.
  destruct (m st) as [r st1] eqn:E.
  destruct (cleanup st1) as [[[]|e0] st2] eqn:E'.
  - intros [= -> ->]. by apply Hm in E.
  - intros [= -> ->]. by apply Hc in E'.
Qed.

Lemma exits_only_logger lv template args :
  exits_only P (logger (World := World) lv template args).
Proof. by intros st e st'. Qed.

Lemma exits_only_record_call c : exits_only P (record_call (World := World) c).
Proof. by intros st e st'. Qed.

Lemma exits_only_get_heap : exits_only P (get_heap (World := World)).
Proof. by intros st e st'. Qed.

Lemma exits_only_get_connected : exits_only P (get_connected (World := World)).
Proof. by intros st e st'. Qed.

Lemma exits_only_set_connected b : exits_only P (set_connected (World := World) b).
Proof. by intros st e st'. Qed.

Lemma exits_only_on_world {A} (f : World → py_result A * World) :
  exits_only P (on_world f).
Proof. intros st e st'. unfold on_world. by destruct (f (world st)) as [[a|e0] w]. Qed.

Lemma exits_only_on_world_heap {A}
    (f : World → gmap loc DataFrame → py_result A * World * gmap loc DataFrame) :
  exits_only P (on_world_heap f).
Proof.
  intros st e st'. unfold on_world_heap.
  by destruct (f (world st) (heap st)) as [[[a|e0] w] h].
Qed.

Lemma exits_only_for_each {A} (items : list A) (body : A → M World ()) :
  (∀ x, exits_only P (body x)) → exits_only P (for_each items body).
Proof.
  intros Hbody. induction items as [|x items IH]; [apply exits_only_ret|].
  simpl. apply (exits_only_bind (body x) (λ _, for_each items body)); auto.
Qed.

End ExitsOnly.

Lemma exits_only_on_exec {World} {ext : External World} code exec_globals :
  exits_only raised_by_exec (on_exec (py_exec code exec_globals)).
Proof.
  intros st e st'. unfold on_exec.
  destruct (py_exec code exec_globals (world st) (heap st)) as [[r w] h] eqn:E.
  intros [= -> _]. by eexists _, _, _, _, _, _.
Qed.

Create HintDb exits.

#[export] Hint Resolve exits_only_logger exits_only_record_call exits_only_get_heap
  exits_only_get_connected exits_only_set_connected exits_only_on_world
  exits_only_on_world_heap exits_only_called exits_only_on_exec : exits.

(** One step through a computation, for a goal [exits_only P m]; the
    database [exits] holds what is known of the leaves. *)
Ltac exits_only_step :=
  first
    [ solve [auto with exits]
    | match goal with
      | |- exits_only _ (mret _) => apply exits_only_ret
      | |- exits_only _ (raise _) => apply exits_only_raise
      | |- exits_only _ (for_each _ _) => apply exits_only_for_each; intros ?
      | |- exits_only _ (try_except _ _) =>
          apply exits_only_try_except; [|intros ?]
      | |- exits_only _ (try_finally _ _) => apply exits_only_try_finally
      | |- exits_only _ (_ ≫= _) => apply exits_only_bind; [|intros ?]
      | |- exits_only _ (if ?b then _ else _) => destruct b
      | |- exits_only _ (match ?x with _ => _ end) => destruct x
      | |- exits_only _ (let x := _ in _) => cbv zeta
      end
    | progress cbv beta ].

Ltac exits_only := repeat exits_only_step.

(** One step through a computation, for a goal [preserves R m]; the
    database [frame] holds what is known of the leaves. *)
Ltac preserves_step :=
  first
    [ match goal with |- PreOrder _ => apply _ end
    | apply preserves_ret
    | apply preserves_raise
    | apply preserves_get_heap
    | apply preserves_get_connected
    | apply log_only_logger; discriminate
    | solve [auto with frame]
    | apply preserves_for_each; [..|intros ?]
    | apply preserves_try_except; [..|intros ?]
    | apply preserves_try_finally
    | apply preserves_bind; [..|intros ?]
    | match goal with
      | |- preserves _ (if ?b then _ else _) => destruct b
      | |- preserves _ (match ?x with _ => _ end) => destruct x
      | |- preserves _ (let x := _ in _) => cbv zeta
      end
    | progress cbv beta ].

Ltac preserves := repeat preserves_step.

Ltac log_only := preserves.

Section TransformFootprint.
Context {World : Type} {ext : External World}.
Implicit Types (st : state World) (code : pystr) (dataframes : Dict.t loc).

Lemma log_only_find_candidates (items : namespace) candidates :
  log_only (find_candidates (World := World) items candidates).
Proof.
  intros st. destruct (find_candidates_filter items candidates st) as (st' & -> & H).
  exact H.
Qed.

Lemma log_only_py_len v : log_only (py_len (World := World) v).
Proof. destruct v as [| | | |? []]; simpl; log_only. Qed.

Hint Resolve log_only_find_candidates log_only_py_len : frame.

Lemma log_only_add_missing_result_df code :
  log_only (add_missing_result_df (World := World) code).
Proof. unfold add_missing_result_df. log_only. Qed.

Lemma execute_transformation_footprint code dataframes st :
  log_extended (after_exec code dataframes st).2
    (execute_transformation code dataframes st).2.
Proof.
  unfold after_exec.
  destruct (py_exec code (exec_globals_of dataframes) (world st) (heap st))
    as [[[final|[e|e]] w] h] eqn:Hexec.
  - unfold execute_transformation.
    match goal with
    | |- context [try_except (_ ;; x ← _ ; @?rest x) ?handler] =>
        assert (Hrest : log_only (try_except (rest final) handler))
    end.
    { log_only. }
    match type of Hrest with
    | log_only ?m =>
        specialize (Hrest (mkState w h (connected st) (log st)
                             (calls st ++ [CallExec code])))
    end.
    unfold try_except, mbind, M_bind, bind, record_call, on_exec in *.
    cbn beta iota delta [fst snd world heap connected log calls called] in *.
    rewrite Hexec. exact Hrest.
  - unfold execute_transformation. run_monad. rewrite Hexec.
    cbn beta iota delta [snd]. eexists [_; _].
    split; [|by rewrite <- app_assoc]. repeat constructor; discriminate.
  - unfold execute_transformation. run_monad. rewrite Hexec.
    apply log_extended_refl.
Qed.

Lemma generate_transformation_code_footprint user_query data_info st :
  let p := TransformPrompt user_query data_info in
  log_extended (after_generate p st).2
    (generate_transformation_code user_query data_info st).2 ∧
  is_raise (generate_transformation_code user_query data_info st).1
  = is_raise (after_generate p st).1.
Proof.
  intros p. unfold after_generate, generate_transformation_code.
  fold p. unfold try_except, mbind, M_bind, bind, record_call, on_world.
  cbn beta iota delta [fst snd world heap connected log calls called].
  destruct (generate_content p (world st)) as [[code|e] w] eqn:Hgen.
  - cbn beta iota delta [fst snd world heap connected log calls called].
    match goal with
    | |- context [add_missing_result_df ?c ?s] =>
        pose proof (log_only_add_missing_result_df c s) as Hadd;
        destruct (add_missing_result_df c s) as [[code'|e'] st1] eqn:Hc
    end.
    + split; [|done]. simpl in *.
      eapply log_extended_trans; [exact Hadd|].
      apply log_extended_logger. discriminate.
    + exfalso. clear Hadd. revert Hc. unfold add_missing_result_df.
      destruct (negb _); [|done]. unfold mbind, M_bind, bind, logger.
      destruct (find_var_name _); done.
  - split; [|done]. simpl. eexists. split; [|reflexivity].
    repeat constructor; discriminate.
Qed.

Lemma transform_unfold user_query dataframes st :
  transform user_query dataframes st
  = match generate_transformation_code user_query
            (data_info_of (heap st) dataframes) st with
    | (Ret code, st1) => execute_transformation code dataframes st1
    | (Raise e, st1) => (Raise e, st1)
    end.
Proof.
  unfold transform, mbind, M_bind, bind, get_heap. cbn beta iota.
  destruct (generate_transformation_code _ _ st) as [[code|e] st1]; [|done].
  by destruct (execute_transformation code dataframes st1) as [[v|e] st2].
Qed.


End TransformFootprint.

(** ** [iterative_transform] *)

Section IterativeTransform.
Context {World : Type} {ext : External World}.
Implicit Types (st : state World) (dataframes : Dict.t loc) (errors : list exn).







Lemma retry_loop_step attempt rest max_iterations user_query dataframes last_error st
    (e : exn) st1 :
  transform user_query dataframes st = (Raise (Exc e), st1) →
  retry_loop (attempt :: rest) max_iterations user_query dataframes last_error st
  = retry_loop rest max_iterations
      (if bool_decide (attempt < max_iterations - 1)%Z
       then user_query ++ error_context e else user_query)
      dataframes (Some e)
      (mkState (world st1) (heap st1) (connected st1)
         (log st1 ++ [mkLog WARNING retry_warning [AInt (attempt + 1); AExn e]])
         (calls st1)).
Proof.
  intros Ht. cbn [retry_loop]. rewrite Ht.
  unfold mbind, M_bind, bind, logger. cbn beta iota. done.
Qed.

(** An exit ends the loop at the attempt where it occurs. *)
Lemma retry_loop_exit attempt rest max_iterations user_query dataframes last_error st
    (e : exn) st1 :
  transform user_query dataframes st = (Raise (Exit e), st1) →
  retry_loop (attempt :: rest) max_iterations user_query dataframes last_error st
  = (Raise (Exit e), st1).
Proof. intros Ht. cbn [retry_loop]. by rewrite Ht. Qed.



End IterativeTransform.



Example iterative_transform_three_failures :
  let e := KeyError (py "'points'") in
  let E := stub_external (exec_raises e) in
  let out := iterative_transform (ext := E) (py "top drivers")
               [(py "a", 1%positive)] 3 (initial_state 0) in
  out.1 = Raise (Exception
            (py "Transformation failed after 3 attempts. Last error: 'points'")) ∧
  generate_queries (calls out.2)
  = [py "top drivers";
     py "top drivers" ++ error_context e;
     py "top drivers" ++ error_context e ++ error_context e] ∧
  length (exec_codes (calls out.2)) = 3.
Proof. vm_compute. done. Qed.

(** ** Where an exit can come from *)

Section Exits.
Context {World : Type} {ext : External World}.
Implicit Types (st : state World) (P : exn → Prop).

Lemma exits_only_weaken {A} P (Q : exn → Prop) (m : M World A) :
  (∀ e, P e → Q e) → exits_only P m → exits_only Q m.
Proof. intros HPQ Hm st e st' E. eapply HPQ, Hm, E. Qed.

Lemma exits_only_generate_transformation_code P user_query data_info :
  exits_only P (generate_transformation_code user_query data_info).
Proof. unfold generate_transformation_code, add_missing_result_df. exits_only. Qed.

Lemma exits_only_find_candidates P items candidates :
  exits_only P (find_candidates (World := World) items candidates).
Proof.
  revert candidates. induction items as [|[var_name var_value] items IH];
    intros candidates; simpl; [apply exits_only_ret|].
  destruct (is_candidate _); [|apply IH]. exits_only.
Qed.

Lemma exits_only_py_len P v : exits_only P (py_len (World := World) v).
Proof. unfold py_len. exits_only. Qed.

Lemma exits_only_execute_transformation code dataframes :
  exits_only raised_by_exec (execute_transformation code dataframes).
Proof.
  pose proof (exits_only_find_candidates raised_by_exec).
  pose proof (exits_only_py_len raised_by_exec).
  unfold execute_transformation. exits_only.
Qed.

Lemma exits_only_transform user_query dataframes :
  exits_only raised_by_exec (transform user_query dataframes).
Proof.
  pose proof (exits_only_generate_transformation_code raised_by_exec).
  pose proof exits_only_execute_transformation.
  unfold transform. exits_only.
Qed.

Lemma exits_only_retry_loop attempts max_iterations user_query dataframes last_error :
  exits_only raised_by_exec
    (retry_loop attempts max_iterations user_query dataframes last_error).
Proof.
  revert user_query last_error.
  induction attempts as [|attempt rest IH]; intros user_query last_error;
    [apply exits_only_raise|].
  intros st e st'. cbn [retry_loop].
  destruct (transform user_query dataframes st) as [[v|[e0|e0]] st1] eqn:Ht; [done| |].
  - apply IH.
  - intros [= -> ->]. by apply exits_only_transform in Ht.
Qed.

(** An exit that leaves [iterative_transform] was raised by generated
    code. *)
Lemma exits_only_iterative_transform user_query dataframes max_iterations :
  exits_only raised_by_exec (iterative_transform user_query dataframes max_iterations).
Proof. apply exits_only_retry_loop. Qed.

Lemma exits_only_set_columns P df new_columns :
  exits_only P (set_columns (World := World) df new_columns).
Proof. by intros st e st'. Qed.

Lemma exits_only_load_to_duckdb P df table_name mode :
  exits_only P (load_to_duckdb df table_name mode).
Proof.
  pose proof (exits_only_set_columns P).
  unfold load_to_duckdb, connect_duckdb. exits_only.
Qed.

Lemma exits_only_load_to_file P fmt df file_path :
  exits_only P (load_to_file fmt df file_path).
Proof. unfold load_to_file. exits_only. Qed.

Lemma exits_only_ai_determine_destination P user_query df :
  exits_only P (ai_determine_destination user_query df).
Proof. unfold ai_determine_destination. exits_only. Qed.

(** [load] calls no generated code: it never exits. *)
Lemma exits_only_load P df user_query destination kwargs :
  exits_only P (load df user_query destination kwargs).
Proof.
  pose proof (exits_only_load_to_duckdb P). pose proof (exits_only_load_to_file P).
  pose proof (exits_only_ai_determine_destination P).
  unfold load. exits_only.
Qed.

Lemma exits_only_close P : exits_only P (close (World := World)).
Proof. unfold close. exits_only. Qed.

Lemma exits_only_clock P : exits_only P (clock (World := World)).
Proof. unfold clock. exits_only. Qed.

Lemma exits_only_banner P : exits_only P (banner (World := World)).
Proof. unfold banner. exits_only. Qed.

Lemma exits_only_as_dataframe P v : exits_only P (as_dataframe (World := World) v).
Proof. unfold as_dataframe. exits_only. Qed.

End Exits.

#[export] Hint Resolve exits_only_load exits_only_close exits_only_clock
  exits_only_banner exits_only_as_dataframe exits_only_iterative_transform : exits.


(** ** [load_to_duckdb] *)

Global Instance heap_kept_preorder {World} : PreOrder (@heap_kept World).
Proof.
  split; [by intros st|]. intros st1 st2 st3 H12 H23. unfold heap_kept in *. congruence.
Qed.

Section LoadToDuckdb.
Context {World : Type} {ext : External World}.
Implicit Types (st : state World) (df : loc).

Lemma heap_kept_logger lv template args :
  preserves heap_kept (logger (World := World) lv template args).
Proof. by intros st. Qed.

Lemma heap_kept_on_world {A} (f : World → py_result A * World) :
  preserves heap_kept (on_world f).
Proof. intros st. unfold on_world. by destruct (f (world st)). Qed.

Lemma heap_kept_set_connected b : preserves heap_kept (set_connected (World := World) b).
Proof. by intros st. Qed.

Lemma heap_kept_record_call c : preserves heap_kept (record_call (World := World) c).
Proof. by intros st. Qed.

Hint Resolve heap_kept_logger heap_kept_on_world heap_kept_set_connected
  heap_kept_record_call : frame.

Lemma heap_kept_connect_duckdb db_path : preserves heap_kept (connect_duckdb db_path).
Proof. unfold connect_duckdb. preserves. Qed.



End LoadToDuckdb.



Example load_to_duckdb_renames_drivers :
  let E := stub_external silent in
  let st := state_with [(1%positive, drivers)] in
  let st' := (load_to_duckdb (ext := E) 1 (JStr (py "result_table"))
                (JStr (py "replace")) st).2 in
  df_columns (heap st !!! 1%positive) = [py "Driver Name"; py "Total Points"] ∧
  df_columns (heap st' !!! 1%positive) = [py "driver_name"; py "total_points"].
Proof. vm_compute. done. Qed.

(** The renaming stays when the database refuses a statement. *)
Example load_to_duckdb_renames_before_failure :
  let E := stub_external
             (mkStub (stub_reply silent) (stub_exec silent) (stub_json silent)
                (stub_extract silent) (Ret ())
                (λ _, Raise (mkExn (py "CatalogException") (py "table exists")))) in
  let st := state_with [(1%positive, drivers)] in
  let out := load_to_duckdb (ext := E) 1 (JStr (py "result_table"))
               (JStr (py "append")) st in
  is_raise out.1 = true ∧
  df_columns (heap out.2 !!! 1%positive) = [py "driver_name"; py "total_points"].
Proof. vm_compute. done. Qed.

(** ** The brace-delimited piece of a reply *)

Section SearchBraces.
Implicit Types (s m : pystr).

Lemma up_to_closing_brace_none s :
  up_to_closing_brace s = None ↔ "}"%char ∉ s.
Proof.
  induction s as [|c s IH]; simpl.
  { split; [intros _; apply not_elem_of_nil|done]. }
  rewrite not_elem_of_cons. case_bool_decide as Hc.
  - subst c. split; [done|]. by intros [? _].
  - destruct (up_to_closing_brace s) as [m|]; simpl.
    + split; [done|]. intros [_ Hs]. by apply IH in Hs.
    + split; [|done]. intros _. split; [congruence|]. by apply IH.
Qed.

(** What is found ends at the first closing brace. *)
Lemma up_to_closing_brace_some s m :
  up_to_closing_brace s = Some m →
  ∃ inner rest, m = inner ++ ["}"%char] ∧ s = m ++ rest ∧ "}"%char ∉ inner.
Proof.
  revert m. induction s as [|c s IH]; intros m; simpl; [done|].
  case_bool_decide as Hc.
  - intros [= <-]. exists [], s. subst c. split; [done|]. split; [done|].
    apply not_elem_of_nil.
  - destruct (up_to_closing_brace s) as [m'|]; simpl; [|done].
    intros [= <-]. destruct (IH m' eq_refl) as (inner & rest & -> & Hs & Hinner).
    exists (c :: inner), rest. split; [done|]. split.
    + rewrite Hs at 1. done.
    + apply not_elem_of_cons. split; [congruence|done].
Qed.

(** No piece is found exactly when no opening brace has a closing brace
    after it. *)
Lemma search_braces_none s :
  search_braces s = None ↔ ∀ pre post, s = pre ++ "{"%char :: post → "}"%char ∉ post.
Proof.
  induction s as [|c s IH]; simpl.
  { split; [|done]. intros _ pre post H. by destruct pre. }
  case_bool_decide as Hc.
  - subst c. destruct (up_to_closing_brace s) as [m|] eqn:Hm.
    + split; [done|]. intros H. specialize (H [] s eq_refl).
      apply up_to_closing_brace_none in H. congruence.
    + rewrite IH. split.
      * intros H pre post Heq. destruct pre as [|d pre].
        -- injection Heq as Hs. subst post. by apply up_to_closing_brace_none.
        -- injection Heq as Hd Hs. by apply (H pre post).
      * intros H pre post ->. by apply (H ("{"%char :: pre) post).
  - rewrite IH. split.
    + intros H pre post Heq. destruct pre as [|d pre].
      * injection Heq as Hd Hs. done.
      * injection Heq as Hd Hs. by apply (H pre post).
    + intros H pre post ->. by apply (H (c :: pre) post).
Qed.

(** The piece found is part of the reply, from an opening brace to the
    first closing brace after it. *)
Lemma search_braces_some s m :
  search_braces s = Some m →
  ∃ pre inner post,
    s = pre ++ m ++ post ∧ m = "{"%char :: inner ++ ["}"%char] ∧ "}"%char ∉ inner.
Proof.
  revert m. induction s as [|c s IH]; intros m; simpl; [done|].
  case_bool_decide as Hc.
  - subst c. destruct (up_to_closing_brace s) as [m'|] eqn:Hm.
    + intros [= <-].
      destruct (up_to_closing_brace_some s m' Hm) as (inner & rest & -> & Hs & Hinner).
      exists [], inner, rest. split; [|done]. rewrite Hs at 1. done.
    + intros H. destruct (IH m H) as (pre & inner & post & -> & -> & Hinner).
      by exists ("{"%char :: pre), inner, post.
  - intros H. destruct (IH m H) as (pre & inner & post & -> & -> & Hinner).
    by exists (c :: pre), inner, post.
Qed.

End SearchBraces.

(** ** [ai_determine_destination] and [load] *)

Section Destination.
Context {World : Type} {ext : External World}.
Implicit Types (st : state World) (df : loc) (user_query : pystr).

(** The call never raises. *)
Lemma ai_determine_destination_returns user_query df st :
  ∃ destination_info, (ai_determine_destination user_query df st).1 = Ret destination_info.
Proof.
  unfold ai_determine_destination.
  unfold mbind at 1, M_bind at 1, bind at 1, get_heap at 1. cbn beta iota.
  unfold try_except.
  match goal with
  | |- context [let (_, _) := ?m ?st in _] =>
      assert (Hm : no_exit m) by exits_only;
      destruct (m st) as [[d|[e|e]] st1] eqn:E
  end; [by eexists..|].
  by apply Hm in E.
Qed.

(** C8: when the reply of the completion service holds no brace-delimited
    piece, or when the piece found is no JSON that [json.loads] accepts,
    [ai_determine_destination] returns a default: the DuckDB warehouse with
    the table name [ai_result] in the first case and [result] in the
    second.  It never raises, whatever the reply. *)
Theorem ai_determine_destination_default user_query df st text w :
  generate_content (DestinationPrompt user_query (df_shape (heap st !!! df))) (world st)
  = (Ret text, w) →
  (search_braces text = None →
   (ai_determine_destination user_query df st).1 = Ret default_destination) ∧
  (∀ json_match e,
     search_braces text = Some json_match → json_loads json_match = Raise e →
     (ai_determine_destination user_query df st).1 = Ret fallback_destination) ∧
  Dict.get default_destination (py "destination") = Some (JStr (py "duckdb")) ∧
  Dict.get default_destination (py "table_name") = Some (JStr (py "ai_result")) ∧
  Dict.get fallback_destination (py "destination") = Some (JStr (py "duckdb")) ∧
  Dict.get fallback_destination (py "table_name") = Some (JStr (py "result")) ∧
  (∃ destination_info,
     (ai_determine_destination user_query df st).1 = Ret destination_info).
Proof.
  intros Hreply. split; [|split].
  - intros Hsearch. unfold ai_determine_destination. run_monad.
    rewrite Hreply. cbn [called]. rewrite Hsearch. done.
  - intros json_match e Hsearch Hjson. unfold ai_determine_destination. run_monad.
    rewrite Hreply. cbn [called]. rewrite Hsearch, Hjson. done.
  - repeat split; try done. apply ai_determine_destination_returns.
Qed.

End Destination.

Lemma ai_determine_destination_default_witness :
  let text := py "I would store it in {the warehouse}." in
  let E := stub_external (replies text []) in
  let st := state_with [(1%positive, drivers)] in
  generate_content (External := E)
    (DestinationPrompt (py "top drivers") (df_shape (heap st !!! 1%positive)))
    (world st) = (Ret text, 1) ∧
  search_braces text = Some (py "{the warehouse}") ∧
  json_loads (External := E) (py "{the warehouse}")
  = Raise (mkExn (py "JSONDecodeError") (py "Expecting value")) ∧
  (ai_determine_destination (ext := E) (py "top drivers") 1 st).1
  = Ret fallback_destination.
Proof.
  intros text E st.
  assert (H1 : generate_content (External := E)
                 (DestinationPrompt (py "top drivers") (df_shape (heap st !!! 1%positive)))
                 (world st) = (Ret text, 1)) by reflexivity.
  assert (H2 : search_braces text = Some (py "{the warehouse}"))
    by (vm_compute; reflexivity).
  assert (H3 : json_loads (External := E) (py "{the warehouse}")
               = Raise (mkExn (py "JSONDecodeError") (py "Expecting value")))
    by (vm_compute; reflexivity).
  split; [exact H1|]. split; [exact H2|]. split; [exact H3|].
  exact (proj1 (proj2 (ai_determine_destination_default (ext := E) (py "top drivers")
                         1 st text 1 H1)) _ _ H2 H3).
Defined.

Example search_braces_shortest :
  search_braces (py "pick {a: {b: 1}} please") = Some (py "{a: {b: 1}").
Proof. vm_compute. reflexivity. Qed.

Example search_braces_unclosed : search_braces (py "} pick {a: 1") = None.
Proof. vm_compute. reflexivity. Qed.

(** ** [ETLPipeline.run] *)

Section Run.
Context {World : Type} {ext : External World}.
Implicit Types (st : state World) (results : run_record).








Lemma clock_returns st : ∃ t st', clock st = (Ret t, st').
Proof.
  unfold clock, on_world. destruct (now (world st)) as [t w]. by eexists _, _.
Qed.

Lemma close_returns st :
  (∀ w, (conn_close w).1 = Ret ()) → ∃ st', close st = (Ret (), st').
Proof.
  intros Hclose. unfold close, mbind, M_bind, bind, get_connected.
  destruct (connected st); [|by eexists].
  unfold on_world. specialize (Hclose (world st)).
  destruct (conn_close (world st)) as [r w]. simpl in Hclose. subst r.
  by eexists.
Qed.

(** What the handler makes of an exception of the [try] block. *)
Lemma run_protected_failure user_query data_directory skip_transform skip_load analyze
    results st (e : exn) results' st1 :
  run_try user_query data_directory skip_transform skip_load analyze results st
  = (Raise (Exc e), results', st1) →
  ∃ end_time st2,
    run_protected user_query data_directory skip_transform skip_load analyze results st
    = (Ret (mkRun (run_query results') (run_start_time results') (run_stages results')
              (Some end_time) (run_duration_seconds results')
              (Some (py "failed")) (Some (exn_str e))), st2).
Proof.
  intros Htry. unfold run_protected. rewrite Htry.
  unfold run_except, mbind, M_bind, bind, logger.
  match goal with
  | |- context [clock ?s] => destruct (clock_returns s) as (t & st2 & ->)
  end.
  by eexists _, _.
Qed.












End Run.



(** ** An unsupported destination, in [load] and in a run *)

Section UnsupportedDestination.
Context {World : Type} {ext : External World}.
Implicit Types (st : state World) (df : loc) (user_query : pystr).
Implicit Types (results : run_record).

Lemma pbind_assoc {A B C} (m : PM World A) (f : A → PM World B) (g : B → PM World C)
    results st :
  ((m ≫= f) ≫= g) results st = (m ≫= λ a, f a ≫= g) results st.
Proof.
  unfold mbind, PM_bind, pbind.
  by destruct (m results st) as [[[a|e] results1] st1].
Qed.

Lemma pbind_ext {A B} (m : PM World A) (f g : A → PM World B) results st :
  (∀ a results1 st1, f a results1 st1 = g a results1 st1) →
  (m ≫= f) results st = (m ≫= g) results st.
Proof.
  intros Hfg. unfold mbind, PM_bind, pbind.
  by destruct (m results st) as [[[a|e] results1] st1].
Qed.

(** The two parts make up the [try] block. *)
Lemma run_try_split user_query data_directory skip_transform skip_load analyze
    results st :
  run_try user_query data_directory skip_transform skip_load analyze results st
  = (run_until_load user_query data_directory skip_transform
       ≫= run_from_load user_query skip_load analyze) results st.
Proof.
  unfold run_try, run_until_load, run_from_load. symmetry.
  do 6 (etransitivity; [apply pbind_assoc|]; apply pbind_ext; intros ? ? ?).
  reflexivity.
Qed.

Lemma load_given d df user_query kwargs st :
  supported d = false →
  load df user_query (Some d) kwargs st
  = (Raise (ValueError (py "Unsupported destination: " ++ json_str d)), st).
Proof.
  unfold supported. intros H.
  apply orb_false_iff in H as [H Hparquet].
  apply orb_false_iff in H as [H Hexcel].
  apply orb_false_iff in H as [Hduckdb Hcsv].
  unfold load, mbind, M_bind, bind, mret, M_ret, ret. cbn beta iota delta [fst snd].
  by rewrite Hduckdb, Hcsv, Hexcel, Hparquet.
Qed.

Lemma load_routed df user_query kwargs st dest_info st1 :
  ai_determine_destination user_query df st = (Ret dest_info, st1) →
  load df user_query None kwargs st
  = load df user_query
      (Some (Dict.get_default dest_info (py "destination") (JStr (py "duckdb"))))
      (Dict.update kwargs dest_info) st1.
Proof.
  intros H. unfold load, mbind, M_bind, bind, mret, M_ret, ret.
  rewrite H. done.
Qed.

(** The [try] block stops at a [load] that raises, with the record as
    the earlier stages left it. *)
Lemma run_try_load_raises user_query data_directory skip_transform analyze
    results st0 df results1 st_l (e : exn) st1 :
  run_until_load user_query data_directory skip_transform results st0
  = (Ret df, results1, st_l) →
  load df user_query None [] (at_load st_l) = (Raise (Exc e), st1) →
  run_try user_query data_directory skip_transform false analyze results st0
  = (Raise (Exc e), results1, st1).
Proof.
  intros Huntil Hload. rewrite run_try_split.
  unfold mbind at 1, PM_bind at 1, pbind at 1. rewrite Huntil.
  clear Huntil. unfold run_from_load. cbn [negb]. unfold at_load in Hload.
  unfold mbind, PM_bind, pbind, lift, M_bind, bind, banner, logger in *.
  cbn beta iota delta [fst snd] in *.
  by rewrite Hload.
Qed.

(** C7, amended: a destination outside the four that [load] knows makes
    [load] raise [ValueError], whether the caller gave it or the Sink
    Router chose it; nothing falls back to a default.  Only a choice
    without a [destination] key is read as the default [duckdb].  A run
    whose loading stage gets such a choice from the Sink Router stops
    there: [run] returns its record with the status [failed], that
    [ValueError] as its error, and the stages as they were before the
    loading stage (as long as closing the database connection does not
    raise). *)
Theorem load_unsupported_raises df user_query kwargs st :
  (∀ d, d ≠ JNull → supported d = false →
     load df user_query (Some d) kwargs st
     = (Raise (ValueError (py "Unsupported destination: " ++ json_str d)), st)) ∧
  (∀ dest_info st1,
     ai_determine_destination user_query df st = (Ret dest_info, st1) →
     (∀ d, Dict.get dest_info (py "destination") = Some d → supported d = false →
        load df user_query None kwargs st
        = (Raise (ValueError (py "Unsupported destination: " ++ json_str d)), st1)) ∧
     (Dict.get dest_info (py "destination") = None →
      load df user_query None kwargs st
      = load df user_query (Some (JStr (py "duckdb")))
          (Dict.update kwargs dest_info) st1)) ∧
  (∀ data_directory skip_transform analyze st_run results st0 results1 dest_info st1 d,
     run user_query data_directory skip_transform false analyze st_run
     = try_finally
         (run_protected user_query data_directory skip_transform false analyze results)
         close st0 →
     run_until_load user_query data_directory skip_transform results st0
     = (Ret df, results1, st) →
     ai_determine_destination user_query df (at_load st) = (Ret dest_info, st1) →
     Dict.get dest_info (py "destination") = Some d →
     supported d = false →
     (∀ w, (conn_close w).1 = Ret ()) →
     ∃ r,
       (run user_query data_directory skip_transform false analyze st_run).1 = Ret r ∧
       run_status r = Some (py "failed") ∧
       run_error r = Some (py "Unsupported destination: " ++ json_str d) ∧
       run_stages r = run_stages results1).
Proof.
  split; [intros d _; apply load_given|]. split.
  - intros dest_info st1 Hrouted. rewrite (load_routed _ _ _ _ _ _ Hrouted).
    unfold Dict.get_default. split.
    + intros d -> Hd. by apply load_given.
    + by intros ->.
  - intros data_directory skip_transform analyze st_run results st0 results1 dest_info
      st1 d Hrun Huntil Hrouted Hdest Hd Hclose.
    assert (Hload : load df user_query None [] (at_load st)
                    = (Raise (Exc (ValueError
                         (py "Unsupported destination: " ++ json_str d))), st1)).
    { rewrite (load_routed _ _ _ _ _ _ Hrouted). unfold Dict.get_default.
      rewrite Hdest. by apply load_given. }
    pose proof (run_try_load_raises _ _ _ analyze _ _ _ _ _ _ _ Huntil Hload) as Htry.
    destruct (run_protected_failure _ _ _ _ _ _ _ _ _ _ Htry) as (t & st2 & Hp).
    rewrite Hrun. unfold try_finally. rewrite Hp.
    destruct (close_returns st2 Hclose) as (st3 & ->).
    eexists. split; [reflexivity|]. done.
Qed.

End UnsupportedDestination.

Lemma load_unsupported_raises_witness :
  let E := stub_external selects_s3 in
  let st_run := state_with [(1%positive, drivers)] in
  let results := mkRun (py "top drivers") 0 ∅ None None None None in
  let st0 := (logger INFO "Starting ETL pipeline for query: {}"
                [AStr (py "top drivers")] st_run).2 in
  let until := run_until_load (ext := E) (py "top drivers") (py "processed") true
                 results st0 in
  let st := until.2 in
  let dest_info : Dict.t json := [(py "destination", JStr (py "s3"))] in
  let st1 := (ai_determine_destination (ext := E) (py "top drivers") 1 (at_load st)).2 in
  until = (Ret 1%positive, until.1.2, st) ∧
  ai_determine_destination (ext := E) (py "top drivers") 1 (at_load st)
  = (Ret dest_info, st1) ∧
  Dict.get dest_info (py "destination") = Some (JStr (py "s3")) ∧
  supported (JStr (py "s3")) = false ∧
  JStr (py "s3") ≠ JNull ∧
  load (ext := E) 1 (py "top drivers") (Some (JStr (py "s3"))) [] st
  = (Raise (ValueError (py "Unsupported destination: s3")), st) ∧
  ∃ r,
    (run (ext := E) (py "top drivers") (py "processed") true false false st_run).1
    = Ret r ∧
    run_status r = Some (py "failed") ∧
    run_error r = Some (py "Unsupported destination: " ++ json_str (JStr (py "s3"))) ∧
    run_stages r = run_stages until.1.2.
Proof.
  intros E st_run results st0 until st dest_info st1.
  assert (H0 : run (ext := E) (py "top drivers") (py "processed") true false false st_run
               = try_finally
                   (run_protected (ext := E) (py "top drivers") (py "processed") true
                      false false results)
                   close st0) by reflexivity.
  assert (H1 : until = (Ret 1%positive, until.1.2, st)) by (vm_compute; reflexivity).
  assert (H2 : ai_determine_destination (ext := E) (py "top drivers") 1 (at_load st)
               = (Ret dest_info, st1)) by (vm_compute; reflexivity).
  assert (H3 : Dict.get dest_info (py "destination") = Some (JStr (py "s3")))
    by (vm_compute; reflexivity).
  assert (H4 : supported (JStr (py "s3")) = false) by (vm_compute; reflexivity).
  assert (H5 : JStr (py "s3") ≠ JNull) by discriminate.
  assert (H6 : ∀ w, (conn_close (External := E) w).1 = Ret ()) by reflexivity.
  split; [exact H1|]. split; [exact H2|]. split; [exact H3|]. split; [exact H4|].
  split; [exact H5|].
  pose proof (load_unsupported_raises (ext := E) 1 (py "top drivers") [] st) as Hthm.
  split; [exact (proj1 Hthm (JStr (py "s3")) H5 H4)|].
  exact (proj2 (proj2 Hthm) (py "processed") true false st_run results st0 until.1.2
           dest_info st1 (JStr (py "s3")) H0 H1 H2 H3 H4 H6).
Defined.

(** C7, the claim as written fails: the reply selects [s3], which [load]
    does not know; [load] raises, and the run that called it ends as
    failed with that error. *)
Lemma load_unsupported_aborts :
  let E := stub_external selects_s3 in
  let st := state_with [(1%positive, drivers)] in
  supported (JStr (py "s3")) = false ∧
  (load (ext := E) 1 (py "top drivers") None [] st).1
  = Raise (ValueError (py "Unsupported destination: s3")) ∧
  ∃ r, (run (ext := E) (py "top drivers") (py "processed") true false false st).1
       = Ret r ∧
       run_status r = Some (py "failed") ∧
       run_error r = Some (py "Unsupported destination: s3") ∧
       run_stages r !! py "load" = None.
Proof.
  intros E st. split; [done|]. split; [vm_compute; reflexivity|].
  eexists. split; [vm_compute; reflexivity|]. split; [vm_compute; reflexivity|].
  split; vm_compute; reflexivity.
Qed.

(** ** Runs of the whole model *)

(** Generated code that exits ends the run: no record is returned, and
    the log has no line of the handler. *)
Example run_exits :
  let exit := SystemExit (py "1") in
  let E := stub_external
             (mkStub (stub_reply silent) (stub_exec (exec_exits exit)) (stub_json silent)
                (Ret [(py "a", 1%positive)]) (stub_connect silent) (stub_sql silent)) in
  let st := state_with [(1%positive, drivers)] in
  let out := run (ext := E) (py "points per team") (py "processed") false false false st in
  out.1 = Raise (Exit exit) ∧
  Forall (λ r, log_template r ≠ "Pipeline failed: {}") (log out.2).
Proof.
  intros exit E st out. split; [vm_compute; reflexivity|].
  vm_compute. repeat constructor; discriminate.
Qed.

(** Generated code that binds [result_df] to a Series: the run fails on
    [.columns], the second attribute that is read. *)
Example run_fails_on_series :
  let E := stub_external
             (mkStub (stub_reply silent)
                (λ _ ns, Ret (Dict.set ns result_df (VObject (py "Series") (Some 2))))
                (stub_json silent) (Ret [(py "a", 1%positive)]) (stub_connect silent)
                (stub_sql silent)) in
  let st := state_with [(1%positive, drivers)] in
  let out := run (ext := E) (py "points") (py "processed") false false false st in
  ∃ r, out.1 = Ret r ∧ run_status r = Some (py "failed") ∧
       run_error r = Some (py "'Series' object has no attribute 'columns'") ∧
       run_stages r !! py "transform" = None.
Proof.
  intros E st out. eexists. split; [vm_compute; reflexivity|]. by vm_compute.
Qed.

(** Two failures, then a success: three requests to the code generator,
    the third with both error contexts, and the table as the result. *)
Example iterative_transform_succeeds_third :
  let E := stub_external succeeds_third in
  let e := KeyError (py "'team'") in
  let out := iterative_transform (ext := E) (py "points per team")
               [(py "a", 1%positive)] 3 (state_with [(1%positive, drivers)]) in
  out.1 = Ret (VDataFrame 1) ∧
  generate_queries (calls out.2)
  = [py "points per team";
     py "points per team" ++ error_context e;
     py "points per team" ++ error_context e ++ error_context e] ∧
  retry_warnings (log out.2) = [(1%Z, e); (2%Z, e)].
Proof. vm_compute. done. Qed.

(** With the transformation skipped, the table that is loaded is the
    extracted one, and the run leaves that very object renamed. *)
Example run_renames_extracted_table :
  let E := stub_external extracts_one in
  let st := state_with [(1%positive, drivers)] in
  let out := run (ext := E) (py "store it") (py "processed") true false false st in
  (∃ r, out.1 = Ret r ∧ run_status r = Some (py "success") ∧
        run_stages r !! py "load"
        = Some (mkStage (py "success") (LoadPayload (JStr (py "duckdb:ai_result"))))) ∧
  df_columns (heap st !!! 1%positive) = [py "Driver Name"; py "Total Points"] ∧
  df_columns (heap out.2 !!! 1%positive) = [py "driver_name"; py "total_points"].
Proof.
  intros E st out. split; [|by vm_compute].
  eexists. split; [vm_compute; reflexivity|]. by vm_compute.
Qed.

(** The analysis stage calls two methods that [VisualizeAgent] does not
    define: with [analyze] set the run ends as failed, after the other
    stages are done. *)
Example run_fails_in_analysis :
  let E := stub_external extracts_one in
  let st := state_with [(1%positive, drivers)] in
  let out := run (ext := E) (py "store it") (py "processed") true true true st in
  ∃ r, out.1 = Ret r ∧ run_status r = Some (py "failed") ∧
       run_error r
       = Some (py "'VisualizeAgent' object has no attribute 'iterative_analyze'") ∧
       run_stages r !! py "load" = Some skipped ∧
       run_stages r !! py "analyze" = None.
Proof.
  intros E st out. eexists. split; [vm_compute; reflexivity|]. by vm_compute.
Qed.

(** ** More on [iterative_transform] and [execute_transformation] *)

Section TransformOutcome.
Context {World : Type} {ext : External World}.
Implicit Types (st : state World) (dataframes : Dict.t loc).

Lemma retry_loop_outcome attempts max_iterations user_query dataframes last_error st :
  match (retry_loop attempts max_iterations user_query dataframes last_error st).1 with
  | Ret v =>
      ∃ q' st1,
        transform q' dataframes st1
        = (Ret v, (retry_loop attempts max_iterations user_query dataframes
                     last_error st).2)
  | Raise (Exc e) => ∃ last, e = terminal_error max_iterations last
  | Raise (Exit e) =>
      ∃ q' st1,
        transform q' dataframes st1
        = (Raise (Exit e), (retry_loop attempts max_iterations user_query dataframes
                              last_error st).2)
  end.
Proof.
  revert user_query last_error st.
  induction attempts as [|attempt rest IH]; intros user_query last_error st.
  - simpl. by exists last_error.
  - destruct (transform user_query dataframes st) as [[v|[e|e]] st1] eqn:Ht.
    + cbn [retry_loop]. rewrite Ht. cbn [fst snd]. by exists user_query, st.
    + rewrite (retry_loop_step _ _ _ _ _ _ _ e st1 Ht). apply IH.
    + rewrite (retry_loop_exit _ _ _ _ _ _ _ e st1 Ht). cbn [fst snd].
      by exists user_query, st.
Qed.

(** X1: whatever the code generator and the generated code do,
    [iterative_transform] ends in one of three ways.  It returns a value
    that one of its attempts returned, in the state that attempt left
    (nothing is done after a success); or it raises its own terminal
    error: an instance of [Exception] raised by an attempt never leaves
    it; or an exit that an attempt raised leaves it as it is, in the state
    that attempt left. *)
Theorem iterative_transform_outcome user_query dataframes (max_iterations : Z) st :
  match (iterative_transform user_query dataframes max_iterations st).1 with
  | Ret v =>
      ∃ q' st1,
        transform q' dataframes st1
        = (Ret v, (iterative_transform user_query dataframes max_iterations st).2)
  | Raise (Exc e) => ∃ last, e = terminal_error max_iterations last
  | Raise (Exit e) =>
      ∃ q' st1,
        transform q' dataframes st1
        = (Raise (Exit e),
           (iterative_transform user_query dataframes max_iterations st).2)
  end.
Proof. apply retry_loop_outcome. Qed.

(** X2: with [max_iterations] zero or negative no attempt is made: the
    code generator is not asked, nothing is logged, and the terminal error
    names no last error. *)
Theorem iterative_transform_no_attempts user_query dataframes (max_iterations : Z) st :
  (max_iterations ≤ 0)%Z →
  iterative_transform user_query dataframes max_iterations st
  = (Raise (Exception
       (py "Transformation failed after " ++ py (pretty max_iterations) ++
        py " attempts. Last error: None")), st).
Proof.
  intros H. unfold iterative_transform, range.
  replace (Z.to_nat max_iterations) with 0 by lia. done.
Qed.

Lemma py_len_returns v st n st' :
  py_len v st = (Ret n, st') →
  (∃ l, v = VDataFrame l) ∨ (∃ tables, v = VInputs tables) ∨
  (∃ type_name, v = VObject type_name (Some n)).
Proof.
  destruct v as [|l|name|tables|type_name [size|]]; try done.
  - intros _. left. by exists l.
  - intros _. right. left. by exists tables.
  - intros [= <- _]. right. right. by exists type_name.
Qed.

(** X3: what [execute_transformation] returns is never [None] and always
    has a length: it is a DataFrame, or else an object that [len] accepts.
    A module or an object without length bound to [result_df] makes the
    call raise. *)
Theorem execute_transformation_returns_sized code dataframes st v :
  (execute_transformation code dataframes st).1 = Ret v →
  is_none v = false ∧
  ((∃ l, v = VDataFrame l) ∨ (∃ tables, v = VInputs tables) ∨
   (∃ type_name n, v = VObject type_name (Some n))).
Proof.
  unfold execute_transformation, try_except.
  match goal with
  | |- context [let (_, _) := ?body st in _] =>
      destruct (body st) as [[v'|[e|e]] st1] eqn:Hbody
  end.
  2:{ unfold mbind, M_bind, bind, logger, raise. cbn. done. }
  2:{ done. }
  cbn [fst]. intros [= ->]. revert Hbody.
  unfold mbind, M_bind, bind, record_call, on_world_heap, on_exec.
  cbn beta iota delta [fst snd world heap connected log calls called].
  destruct (py_exec code (exec_globals_of dataframes) (world st) (heap st))
    as [[[final|e] w] h]; [|done].
  match goal with
  | |- context [let (_, _) := ?pick ?s in _] =>
      destruct (pick s) as [[result|e] st2]; [|done]
  end.
  destruct (is_none result) eqn:Hnone.
  - unfold logger at 1. cbn beta iota.
    match goal with
    | |- context [for_each final ?body ?s] =>
        destruct (for_each final body s) as [[[]|e] st3]; done
    end.
  - unfold mret, M_ret, ret. cbn beta iota.
    destruct (py_len result st2) as [[n|e] st3] eqn:Hlen; [|done].
    unfold logger. cbn beta iota. intros [= <- _]. split; [done|].
    destruct (py_len_returns _ _ _ _ Hlen) as [H|[H|[ty H]]]; eauto.
Qed.

End TransformOutcome.

Lemma iterative_transform_no_attempts_witness :
  let E := stub_external silent in
  ((-1) ≤ 0)%Z ∧
  iterative_transform (ext := E) (py "top drivers") [(py "a", 1%positive)] (-1)
    (initial_state 0)
  = (Raise (Exception
       (py "Transformation failed after " ++ py (pretty (-1)%Z) ++
        py " attempts. Last error: None")), initial_state 0).
Proof.
  intros E. assert (H : ((-1) ≤ 0)%Z) by lia. split; [exact H|].
  exact (iterative_transform_no_attempts (ext := E) (py "top drivers")
           [(py "a", 1%positive)] (-1) (initial_state 0) H).
Defined.

Lemma execute_transformation_returns_sized_witness :
  let E := stub_external binds_tables in
  let code := py "df = dataframes['a']" ++ newline ++ py "top = df.head(3)" in
  let out := execute_transformation (ext := E) code [(py "a", 1%positive)]
               (initial_state 0) in
  out.1 = Ret (VDataFrame 2) ∧
  is_none (VDataFrame 2) = false ∧
  ((∃ l, VDataFrame 2 = VDataFrame l) ∨ (∃ tables, VDataFrame 2 = VInputs tables) ∨
   (∃ type_name n, VDataFrame 2 = VObject type_name (Some n))).
Proof.
  intros E code out.
  assert (H : out.1 = Ret (VDataFrame 2)) by (vm_compute; reflexivity).
  split; [exact H|].
  exact (execute_transformation_returns_sized (ext := E) code [(py "a", 1%positive)]
           (initial_state 0) (VDataFrame 2) H).
Defined.

(** ** More on the binding repair and on the generated code *)

Section GeneratedCode.
Context {World : Type} {ext : External World}.
Implicit Types (st : state World) (code : pystr).

Lemma contains_prefix sub s : Str.contains sub (sub ++ s) = true.
Proof.
  assert (H : Str.startswith sub (sub ++ s) = true).
  { induction sub as [|c sub IH]; [done|]. simpl. by rewrite bool_decide_eq_true_2. }
  destruct sub as [|c sub]; [by destruct s|].
  change (Str.contains (c :: sub) ((c :: sub) ++ s))
    with (Str.startswith (c :: sub) ((c :: sub) ++ s)
          || Str.contains (c :: sub) (sub ++ s)).
  by rewrite H.
Qed.

Lemma contains_assign_result code var_name :
  Str.contains result_df (code ++ assign_result var_name) = true.
Proof.
  unfold assign_result. do 5 apply contains_app_r.
  change (py "result_df = ") with (result_df ++ py " = ").
  rewrite <- app_assoc. apply contains_prefix.
Qed.

Lemma add_missing_result_df_value code st :
  (add_missing_result_df code st).1 = Ret (repaired code).
Proof.
  unfold add_missing_result_df, repaired.
  destruct (Str.contains result_df code); [done|]. cbn [negb].
  unfold mbind, M_bind, bind, logger. cbn beta iota.
  by destruct (find_var_name _).
Qed.

(** X4: the binding repair is idempotent.  Applied to its own result it
    changes nothing: either it has appended an assignment to [result_df],
    and then the name occurs in the code; or it has found nothing to bind,
    and will find nothing again. *)
Theorem add_missing_result_df_idempotent code st1 st2 :
  ∃ code',
    (add_missing_result_df code st1).1 = Ret code' ∧
    (add_missing_result_df code' st2).1 = Ret code'.
Proof.
  exists (repaired code). rewrite !add_missing_result_df_value. split; [done|].
  f_equal. unfold repaired at 1.
  destruct (Str.contains result_df (repaired code)) eqn:Hc; [done|].
  unfold repaired in Hc |- *.
  destruct (Str.contains result_df code) eqn:Hcode; [congruence|].
  destruct (find_var_name (reverse (Str.split "010"%char code))) as [v|] eqn:Hv.
  - by rewrite contains_assign_result in Hc.
  - by rewrite Hv.
Qed.

Lemma isidcontinue_not_linebreak c :
  Char.isidcontinue c = true → Char.islinebreak c = false.
Proof. by_cases_on_char c. Qed.

Lemma assignment_target_isidentifier line var_name :
  assignment_target line = Some var_name → Str.isidentifier var_name = true.
Proof.
  unfold assignment_target. destruct (_ && negb _); [|done].
  destruct (negb _ && Str.isidentifier _) eqn:E; [|done].
  intros [= <-]. by apply andb_true_iff in E as [_ E].
Qed.

Lemma find_var_name_isidentifier lines var_name :
  find_var_name lines = Some var_name → Str.isidentifier var_name = true.
Proof.
  induction lines as [|line lines IH]; [done|]. simpl.
  destruct (assignment_target line) as [v|] eqn:E; [|done].
  intros [= <-]. by eapply assignment_target_isidentifier.
Qed.

Lemma isidentifier_break_free v : Str.isidentifier v = true → break_free v.
Proof.
  intros H. destruct (isidentifier_chars v H) as (c & v' & -> & _ & Hall).
  eapply Forall_impl; [exact Hall|]. intros d. apply isidcontinue_not_linebreak.
Qed.

(** Reading a text that continues after its joined lines. *)
Lemma splitlines_join_more (lines : list pystr) rest :
  lines ≠ [] → Forall break_free lines →
  Str.splitlines (Str.join newline lines ++ newline ++ rest)
  = lines ++ Str.splitlines rest.
Proof.
  induction lines as [|l lines IH]; [done|]. intros _ Hall.
  inversion Hall as [|? ? Hl Hrest]; subst.
  destruct lines as [|l' lines].
  - change (Str.join newline [l]) with l. by rewrite splitlines_line_newline.
  - change (Str.join newline (l :: l' :: lines))
      with (l ++ newline ++ Str.join newline (l' :: lines)).
    rewrite <- !app_assoc. rewrite splitlines_line_newline by done.
    by rewrite IH.
Qed.

Lemma is_fence_line_head c s :
  Char.isspace c = false → c ≠ "`"%char → is_fence_line (c :: s) = false.
Proof.
  intros Hspace Hc. unfold is_fence_line, Str.strip, Str.strip_chars, Str.lstrip.
  rewrite dropwhile_id by (by intros x [= <-]).
  change (c :: s) with ([c] ++ s).
  rewrite (rstrip_app_keep _ _ _ c) by done.
  unfold Str.eqb. by rewrite !bool_decide_eq_false_2 by (intros [= ?]; done).
Qed.

(** No line of the repaired code is a fence when none of the code is. *)
Lemma repaired_no_fence raw :
  Forall (λ line, is_fence_line line = false)
    (Str.splitlines (repaired (clean_code_fences raw))).
Proof.
  assert (Hclean : Forall (λ line, is_fence_line line = false)
                     (Str.splitlines (clean_code_fences raw))).
  { unfold clean_code_fences. fold (kept_lines raw).
    rewrite splitlines_join by apply kept_lines_break_free.
    apply drop_last_empty_Forall, kept_lines_not_fence. }
  unfold repaired. destruct (Str.contains result_df _); [done|].
  destruct (find_var_name _) as [v|] eqn:Hv; [|done].
  pose proof (find_var_name_isidentifier _ _ Hv) as Hid.
  unfold clean_code_fences in *. fold (kept_lines raw) in *.
  destruct (kept_lines raw) as [|l lines] eqn:Hkept; [done|].
  unfold assign_result.
  rewrite splitlines_join_more; [|done|rewrite <- Hkept; apply kept_lines_break_free].
  apply Forall_app. split.
  { rewrite <- Hkept. apply kept_lines_not_fence. }
  change (newline ++ py "# Assign result" ++ newline ++ py "result_df = " ++ v ++ newline)
    with ([] ++ newline ++ py "# Assign result" ++ newline ++ (py "result_df = " ++ v) ++ newline).
  rewrite splitlines_line_newline by constructor.
  rewrite splitlines_line_newline by (by vm_compute; repeat constructor).
  replace ((py "result_df = " ++ v) ++ newline)
    with ((py "result_df = " ++ v) ++ newline ++ []) by by rewrite app_nil_r.
  rewrite splitlines_line_newline.
  2:{ apply Forall_app. split; [by vm_compute; repeat constructor|].
      by apply isidentifier_break_free. }
  repeat constructor. by apply is_fence_line_head.
Qed.

Lemma generate_transformation_code_value user_query data_info st code :
  (generate_transformation_code user_query data_info st).1 = Ret code →
  ∃ raw, code = repaired (clean_code_fences raw).
Proof.
  unfold generate_transformation_code, try_except, mbind, M_bind, bind, record_call,
    on_world.
  cbn beta iota delta [fst snd world heap connected log calls called].
  destruct (generate_content _ (world st)) as [[raw|e] w]; [|done].
  cbn beta iota delta [called].
  match goal with
  | |- context [add_missing_result_df ?c ?s] =>
      pose proof (add_missing_result_df_value c s) as Hvalue;
      destruct (add_missing_result_df c s) as [[code'|e'] st1]
  end; [|done].
  cbn in Hvalue. injection Hvalue as ->. unfold logger. cbn.
  intros [= <-]. by exists raw.
Qed.

(** X5: the code that [generate_transformation_code] returns, and that is
    then executed, holds no line that [clean_code_fences] takes for a
    fence, that is, no line that is three backquotes, or three backquotes
    and the word python, once the white space around it is removed.
    Such lines of the reply are removed, and the lines that the binding
    repair may append are none.  A fence with another tag is no such
    line and stays in the code. *)
Theorem generate_transformation_code_no_fence user_query data_info st code :
  (generate_transformation_code user_query data_info st).1 = Ret code →
  Forall (λ line, is_fence_line line = false) (Str.splitlines code).
Proof.
  intros H. destruct (generate_transformation_code_value _ _ _ _ H) as [raw ->].
  apply repaired_no_fence.
Qed.

End GeneratedCode.

(** A reply fenced with another tag: the opening line stays. *)
Example clean_code_fences_keeps_py_tag :
  clean_code_fences (py "```py" ++ newline ++ py "df = dataframes['a']" ++ newline ++
                     py "```")
  = py "```py" ++ newline ++ py "df = dataframes['a']".
Proof. vm_compute. reflexivity. Qed.

Lemma generate_transformation_code_no_fence_witness :
  let E := stub_external
             (replies (py "```python" ++ newline ++ py "df = dataframes['a']" ++
                       newline ++ py "```") []) in
  let code := py "df = dataframes['a']" ++ newline ++ newline ++
              py "# Assign result" ++ newline ++ py "result_df = df" ++ newline in
  (generate_transformation_code (ext := E) (py "all rows") [] (initial_state 0)).1
  = Ret code ∧
  Forall (λ line, is_fence_line line = false) (Str.splitlines code).
Proof.
  intros E code.
  assert (H : (generate_transformation_code (ext := E) (py "all rows") []
                 (initial_state 0)).1 = Ret code) by (vm_compute; reflexivity).
  split; [exact H|].
  exact (generate_transformation_code_no_fence (ext := E) (py "all rows") []
           (initial_state 0) code H).
Defined.

(** ** More on [load] *)

Global Instance calls_kept_preorder {World} : PreOrder (@calls_kept World).
Proof.
  split; [by intros st|]. intros st1 st2 st3 H12 H23. unfold calls_kept in *. congruence.
Qed.

Global Instance session_kept_preorder {World} : PreOrder (@session_kept World).
Proof.
  split; [by intros st|]. intros st1 st2 st3 [H1 H2] [H3 H4].
  unfold session_kept in *. split; congruence.
Qed.

Section LoadFootprint.
Context {World : Type} {ext : External World}.
Implicit Types (st : state World) (df : loc) (kwargs : Dict.t json).

Lemma calls_kept_logger lv template args :
  preserves calls_kept (logger (World := World) lv template args).
Proof. by intros st. Qed.

Lemma calls_kept_on_world {A} (f : World → py_result A * World) :
  preserves calls_kept (on_world f).
Proof. intros st. unfold on_world. by destruct (f (world st)). Qed.

Lemma calls_kept_on_world_heap {A}
    (f : World → gmap loc DataFrame → py_result A * World * gmap loc DataFrame) :
  preserves calls_kept (on_world_heap f).
Proof. intros st. unfold on_world_heap. by destruct (f (world st) (heap st)) as [[? ?] ?]. Qed.

Lemma calls_kept_set_connected b :
  preserves calls_kept (set_connected (World := World) b).
Proof. by intros st. Qed.

Lemma calls_kept_set_columns df new_columns :
  preserves calls_kept (set_columns (World := World) df new_columns).
Proof. by intros st. Qed.

Lemma session_kept_logger lv template args :
  preserves session_kept (logger (World := World) lv template args).
Proof. by intros st. Qed.

Lemma session_kept_on_world {A} (f : World → py_result A * World) :
  preserves session_kept (on_world f).
Proof. intros st. unfold on_world. by destruct (f (world st)). Qed.

Hint Resolve calls_kept_logger calls_kept_on_world calls_kept_on_world_heap
  calls_kept_set_connected calls_kept_set_columns session_kept_logger
  session_kept_on_world : frame.

Lemma calls_kept_connect_duckdb db_path : preserves calls_kept (connect_duckdb db_path).
Proof. unfold connect_duckdb. preserves. Qed.

Lemma calls_kept_load_to_duckdb df table_name mode :
  preserves calls_kept (load_to_duckdb df table_name mode).
Proof. unfold load_to_duckdb, connect_duckdb. preserves. Qed.

Lemma calls_kept_load_to_file fmt df file_path :
  preserves calls_kept (load_to_file fmt df file_path).
Proof. unfold load_to_file. preserves. Qed.

Lemma session_kept_load_to_file fmt df file_path :
  preserves session_kept (load_to_file fmt df file_path).
Proof. unfold load_to_file. preserves. Qed.

Lemma calls_kept_close : preserves calls_kept (close (World := World)).
Proof. unfold close. preserves. Qed.

Hint Resolve calls_kept_load_to_duckdb calls_kept_load_to_file
  session_kept_load_to_file : frame.

Lemma calls_kept_load_given df user_query d kwargs :
  preserves calls_kept (load df user_query (Some d) kwargs).
Proof. unfold load. preserves. Qed.

Lemma session_kept_load_given df user_query d kwargs :
  json_is d "duckdb" = false →
  preserves session_kept (load df user_query (Some d) kwargs).
Proof.
  intros Hd st. unfold load.
  unfold mbind at 1, M_bind at 1, bind at 1, mret at 1, M_ret at 1, ret at 1.
  cbn beta iota delta [fst snd]. rewrite Hd.
  revert st.
  match goal with
  | |- ∀ st, session_kept st (?m st).2 => change (preserves session_kept m)
  end.
  preserves.
Qed.

(** X6: with a destination given by the caller, [load] asks nothing of the
    completion service and executes no code; and when that destination is
    not [duckdb], it leaves the tables in memory and the database
    connection as they were, whether it returns or raises. *)
Theorem load_given_footprint df user_query d kwargs st :
  let st' := (load df user_query (Some d) kwargs st).2 in
  calls st' = calls st ∧
  (json_is d "duckdb" = false → heap st' = heap st ∧ connected st' = connected st).
Proof.
  split.
  - apply calls_kept_load_given.
  - intros Hd. by apply session_kept_load_given.
Qed.

(** The Sink Router is asked exactly once, for the shape of the table. *)
Lemma ai_determine_destination_calls user_query df st :
  calls (ai_determine_destination user_query df st).2
  = calls st ++
    [CallGenerate (DestinationPrompt user_query (df_shape (heap st !!! df)))].
Proof.
  unfold ai_determine_destination. run_monad.
  destruct (generate_content _ (world st)) as [[text|e] w]; [|done].
  cbn beta iota delta [fst snd world heap connected log calls called].
  destruct (search_braces text) as [json_match|]; [|done].
  by destruct (json_loads json_match).
Qed.

(** X7: without a destination, [load] asks the completion service exactly
    once, for a destination for a table of the shape of [df], and executes
    no code; this is so whatever the service replies and whether the load
    then succeeds or raises. *)
Theorem load_routes_once df user_query kwargs st :
  calls (load df user_query None kwargs st).2
  = calls st ++
    [CallGenerate (DestinationPrompt user_query (df_shape (heap st !!! df)))].
Proof.
  destruct (ai_determine_destination user_query df st) as [r st1] eqn:Hd.
  pose proof (ai_determine_destination_calls user_query df st) as Hcalls.
  destruct (ai_determine_destination_returns user_query df st) as [dest_info Hret].
  rewrite Hd in Hcalls, Hret. cbn [fst snd] in *. subst r.
  rewrite (load_routed _ _ _ _ _ _ Hd), <- Hcalls.
  apply calls_kept_load_given.
Qed.

(** X8: when there is no connection and opening one fails, [load_to_duckdb]
    raises the exception of [duckdb.connect] itself.  The column labels of
    the table are not touched, no statement is sent, and the log gains the
    one record of [connect_duckdb]: the handler of [load_to_duckdb] is not
    reached. *)
Theorem load_to_duckdb_connect_fails df table_name mode st e w :
  connected st = false →
  duckdb_connect (py "warehouse.duckdb") (world st) = (Raise e, w) →
  load_to_duckdb df table_name mode st
  = (Raise e,
     mkState w (heap st) false
       (log st ++ [mkLog ERROR "Failed to connect to DuckDB: {}" [AExn e]])
       (calls st)).
Proof.
  intros Hconn Hfail. unfold load_to_duckdb, connect_duckdb, get_connected.
  run_monad. rewrite Hconn. cbn [negb]. rewrite Hfail.
  cbn [world heap connected log calls]. by rewrite Hconn.
Qed.

End LoadFootprint.

Lemma load_given_footprint_witness :
  let E := stub_external silent in
  let st := state_with [(1%positive, drivers)] in
  let st' := (load (ext := E) 1 (py "top drivers") (Some (JStr (py "csv"))) [] st).2 in
  json_is (JStr (py "csv")) "duckdb" = false ∧
  calls st' = calls st ∧ heap st' = heap st ∧ connected st' = connected st.
Proof.
  intros E st st'.
  assert (H : json_is (JStr (py "csv")) "duckdb" = false) by (vm_compute; reflexivity).
  split; [exact H|].
  pose proof (load_given_footprint (ext := E) 1 (py "top drivers") (JStr (py "csv"))
                [] st) as [H1 H2].
  split; [exact H1|]. exact (H2 H).
Defined.

Lemma load_to_duckdb_connect_fails_witness :
  let refused := mkExn (py "IOException") (py "Could not set lock on file") in
  let E := stub_external
             (mkStub (stub_reply silent) (stub_exec silent) (stub_json silent)
                (stub_extract silent) (Raise refused) (stub_sql silent)) in
  let st := state_with [(1%positive, drivers)] in
  connected st = false ∧
  duckdb_connect (External := E) (py "warehouse.duckdb") (world st) = (Raise refused, 0) ∧
  load_to_duckdb (ext := E) 1 (JStr (py "result")) (JStr (py "replace")) st
  = (Raise refused,
     mkState 0 (heap st) false
       (log st ++ [mkLog ERROR "Failed to connect to DuckDB: {}" [AExn refused]])
       (calls st)).
Proof.
  intros refused E st.
  assert (H1 : connected st = false) by reflexivity.
  assert (H2 : duckdb_connect (External := E) (py "warehouse.duckdb") (world st)
               = (Raise refused, 0)) by reflexivity.
  split; [exact H1|]. split; [exact H2|].
  exact (load_to_duckdb_connect_fails (ext := E) 1 (JStr (py "result"))
           (JStr (py "replace")) st refused 0 H1 H2).
Defined.

Section DictUpdate.
Context {V : Type}.
Implicit Types (d other : Dict.t V) (k : pystr) (v : V).

Lemma dict_get_None d k : Dict.get d k = None ↔ k ∉ d.*1.
Proof.
  induction d as [|[k' v'] d IH]; simpl.
  - split; [intros _; apply not_elem_of_nil|done].
  - rewrite not_elem_of_cons. case_bool_decide as E.
    + split; [done|]. intros [H _]. by destruct H.
    + rewrite IH. split; [by intros ?; split|by intros [_ ?]].
Qed.

(** A key that [other] does not hold keeps its value. *)
Lemma dict_get_update_miss d other k :
  Dict.get other k = None → Dict.get (Dict.update d other) k = Dict.get d k.
Proof.
  unfold Dict.update. revert d.
  induction other as [|[k' v'] other IH]; intros d; [done|].
  cbn [Dict.get foldl fst snd]. case_bool_decide as E; [done|].
  intros H. rewrite IH by done. by apply dict_get_set_ne.
Qed.

(** A key that [other] holds takes the value it has there. *)
Lemma dict_get_update_hit d other k v :
  NoDup other.*1 → Dict.get other k = Some v →
  Dict.get (Dict.update d other) k = Some v.
Proof.
  unfold Dict.update. revert d.
  induction other as [|[k' v'] other IH]; intros d Hnodup; [done|].
  rewrite fmap_cons in Hnodup. apply NoDup_cons in Hnodup as [Hk' Hnodup].
  cbn [Dict.get foldl fst snd]. case_bool_decide as E.
  - intros [= ->]. subst k'.
    fold (Dict.update (Dict.set d k v) other).
    rewrite dict_get_update_miss by by apply dict_get_None.
    apply dict_get_set_eq.
  - intros H. by apply IH.
Qed.

End DictUpdate.

Section RoutedTable.
Context {World : Type} {ext : External World}.
Implicit Types (st : state World) (df : loc) (kwargs : Dict.t json).

(** X9: on the routed path the choice of the Sink Router is written over
    the keyword arguments of the caller.  When the router chooses [duckdb]
    and names a table, the table of that name is loaded and reported, also
    when the caller passed a [table_name] of their own; a [mode] that the
    router does not mention stays the caller's. *)
Theorem load_routed_table_name df user_query kwargs st dest_info st1 table_name :
  ai_determine_destination user_query df st = (Ret dest_info, st1) →
  NoDup dest_info.*1 →
  json_is (Dict.get_default dest_info (py "destination") (JStr (py "duckdb"))) "duckdb"
  = true →
  Dict.get dest_info (py "table_name") = Some table_name →
  Dict.get dest_info (py "mode") = None →
  load df user_query None kwargs st
  = (load_to_duckdb df table_name
       (Dict.get_default kwargs (py "mode") (JStr (py "replace")));;
     mret (JStr (py "duckdb:" ++ json_str table_name))) st1.
Proof.
  intros Hd Hnodup Hduckdb Htable Hmode.
  rewrite (load_routed _ _ _ _ _ _ Hd). unfold load.
  unfold mbind at 1, M_bind at 1, bind at 1, mret at 1, M_ret at 1, ret at 1.
  cbn beta iota delta [fst snd]. rewrite Hduckdb.
  unfold Dict.get_default.
  rewrite (dict_get_update_hit _ _ _ _ Hnodup Htable).
  by rewrite (dict_get_update_miss _ _ _ Hmode).
Qed.

End RoutedTable.

Lemma load_routed_table_name_witness :
  let dest_info := [(py "destination", JStr (py "duckdb"));
                    (py "table_name", JStr (py "top"))] in
  let E := stub_external (replies named_reply [(named_reply, dest_info)]) in
  let st := state_with [(1%positive, drivers)] in
  let st1 := mkState 1 (heap st) false
               [mkLog INFO "AI determined destination: {}" [ADict dest_info]]
               [CallGenerate (DestinationPrompt (py "top drivers") (2, 2))] in
  let kwargs := [(py "table_name", JStr (py "mine")); (py "mode", JStr (py "append"))] in
  ai_determine_destination (ext := E) (py "top drivers") 1 st = (Ret dest_info, st1) ∧
  NoDup dest_info.*1 ∧
  load (ext := E) 1 (py "top drivers") None kwargs st
  = (load_to_duckdb (ext := E) 1 (JStr (py "top")) (JStr (py "append"));;
     mret (JStr (py "duckdb:" ++ py "top"))) st1.
Proof.
  intros dest_info E st st1 kwargs.
  assert (Hd : ai_determine_destination (ext := E) (py "top drivers") 1 st
               = (Ret dest_info, st1)) by (vm_compute; reflexivity).
  assert (Hnodup : NoDup dest_info.*1).
  { repeat constructor; rewrite ?elem_of_cons, ?elem_of_nil; intros H;
      repeat destruct H as [H|H]; done. }
  assert (H1 : json_is (Dict.get_default dest_info (py "destination")
                          (JStr (py "duckdb"))) "duckdb" = true)
    by (vm_compute; reflexivity).
  assert (H2 : Dict.get dest_info (py "table_name") = Some (JStr (py "top")))
    by (vm_compute; reflexivity).
  assert (H3 : Dict.get dest_info (py "mode") = None) by (vm_compute; reflexivity).
  split; [exact Hd|]. split; [exact Hnodup|].
  exact (load_routed_table_name (ext := E) 1 (py "top drivers") kwargs st dest_info
           st1 (JStr (py "top")) Hd Hnodup H1 H2 H3).
Defined.

(** ** The calls of a run *)

Section TransformCalls.
Context {World : Type} {ext : External World}.
Implicit Types (st : state World) (dataframes : Dict.t loc).

Lemma transform_calls user_query dataframes st :
  ∃ new, calls (transform user_query dataframes st).2 = calls st ++ new ∧
         attempt_calls new.
Proof.
  rewrite transform_unfold.
  set (p := TransformPrompt user_query (data_info_of (heap st) dataframes)).
  destruct (generate_transformation_code_footprint user_query
              (data_info_of (heap st) dataframes) st) as [Hext _].
  fold p in Hext. unfold after_generate in Hext.
  destruct (generate_content p (world st)) as [r w].
  destruct (generate_transformation_code user_query
              (data_info_of (heap st) dataframes) st) as [[code|e] st1].
  - pose proof (execute_transformation_footprint code dataframes st1) as Hexec.
    unfold after_exec in Hexec.
    destruct (py_exec code (exec_globals_of dataframes) (world st1) (heap st1))
      as [[r' w'] h'].
    cbn [fst snd] in *.
    destruct Hext as (r1 & _ & E1), Hexec as (r2 & _ & E2).
    rewrite E2, E1. cbn [calls]. rewrite <- app_assoc.
    eexists. split; [reflexivity|]. eexists _, _. right. by eexists.
  - cbn [fst snd] in *. destruct Hext as (r1 & _ & E1). rewrite E1. cbn [calls].
    eexists. split; [reflexivity|]. eexists _, _. by left.
Qed.

Lemma retry_loop_calls attempts max_iterations user_query dataframes last_error st :
  ∃ tried,
    calls (retry_loop attempts max_iterations user_query dataframes last_error st).2
    = calls st ++ concat tried ∧
    length tried ≤ length attempts ∧
    Forall attempt_calls tried.
Proof.
  revert user_query last_error st.
  induction attempts as [|attempt rest IH]; intros user_query last_error st.
  - exists []. simpl. by rewrite app_nil_r.
  - destruct (transform_calls user_query dataframes st) as (new & Hnew & Hshape).
    destruct (transform user_query dataframes st) as [[v|[e|e]] st1] eqn:Ht.
    + cbn [retry_loop]. rewrite Ht. cbn [fst snd] in *.
      exists [new]. simpl. rewrite app_nil_r. split; [done|]. split; [lia|].
      by constructor.
    + rewrite (retry_loop_step _ _ _ _ _ _ _ e st1 Ht).
      match goal with
      | |- context [retry_loop rest max_iterations ?q dataframes ?l ?s] =>
          destruct (IH q l s) as (tried & Hcalls & Hlen & Hall)
      end.
      cbn [fst snd calls] in *. exists (new :: tried).
      rewrite Hcalls, Hnew. simpl. rewrite <- app_assoc.
      split; [done|]. split; [lia|]. by constructor.
    + rewrite (retry_loop_exit _ _ _ _ _ _ _ e st1 Ht). cbn [fst snd] in *.
      exists [new]. simpl. rewrite app_nil_r. split; [done|]. split; [lia|].
      by constructor.
Qed.


End TransformCalls.

Section RunCalls.
Context {World : Type} {ext : External World}.
Implicit Types (st : state World) (results : run_record).

Lemma pm_kept_ret {A} (a : A) : pm_kept (mret a : PM World A).
Proof. by intros results st. Qed.

Lemma pm_kept_bind {A B} (m : PM World A) (k : A → PM World B) :
  pm_kept m → (∀ a, pm_kept (k a)) → pm_kept (m ≫= k).
Proof.
  intros Hm Hk results st. unfold mbind, PM_bind, pbind.
  specialize (Hm results st). destruct (m results st) as [[[a|e] results'] st']; [|done].
  cbn [snd] in Hm. by rewrite Hk.
Qed.

Lemma pm_kept_lift {A} (m : M World A) : preserves calls_kept m → pm_kept (lift m).
Proof.
  intros Hm results st. unfold lift. specialize (Hm st). by destruct (m st).
Qed.

Lemma pm_kept_set_stage name entry : pm_kept (set_stage (World := World) name entry).
Proof. by intros results st. Qed.

Lemma pm_kept_set_completion t : pm_kept (set_completion (World := World) t).
Proof. by intros results st. Qed.

Lemma pm_kept_get_results : pm_kept (get_results (World := World)).
Proof. by intros results st. Qed.

Lemma calls_kept_banner : preserves calls_kept (banner (World := World)).
Proof. by intros st. Qed.

Lemma calls_kept_clock : preserves calls_kept (clock (World := World)).
Proof. apply calls_kept_on_world. Qed.

Lemma calls_kept_as_dataframe v : preserves calls_kept (as_dataframe (World := World) v).
Proof. destruct v; by intros st. Qed.

Hint Resolve calls_kept_logger calls_kept_on_world calls_kept_on_world_heap
  calls_kept_banner calls_kept_clock calls_kept_as_dataframe : frame.

Lemma pm_kept_run_complete : pm_kept (run_complete (World := World)).
Proof.
  unfold run_complete.
  repeat first
    [ apply pm_kept_ret | apply pm_kept_set_completion | apply pm_kept_get_results
    | apply pm_kept_lift; preserves | apply pm_kept_bind; [|intros ?] ].
Qed.

(** One step through a part of [run] that makes no call. *)
Ltac pm_kept_step :=
  first
    [ apply pm_kept_ret
    | apply pm_kept_set_stage
    | apply pm_kept_set_completion
    | apply pm_kept_get_results
    | apply pm_kept_run_complete
    | apply pm_kept_lift; preserves
    | apply pm_kept_bind; [|intros ?]
    | match goal with
      | |- pm_kept (if ?b then _ else _) => destruct b
      | |- pm_kept (match ?x with _ => _ end) => destruct x
      end ].

Ltac pm_kept := repeat pm_kept_step.

Lemma pm_calls_kept {A} (m : PM World A) P : pm_kept m → pm_calls P m P.
Proof. intros Hm results st HP. by rewrite Hm. Qed.

Lemma pm_calls_bind {A B} (m : PM World A) (k : A → PM World B) P Q R :
  pm_calls P m Q → (∀ a, pm_calls Q (k a) R) → (∀ cs, Q cs → R cs) →
  pm_calls P (m ≫= k) R.
Proof.
  intros Hm Hk HQR results st HP. unfold mbind, PM_bind, pbind.
  specialize (Hm results st HP).
  destruct (m results st) as [[[a|e] results'] st']; cbn [snd] in *.
  - by apply Hk.
  - by apply HQR.
Qed.

Lemma pm_calls_weaken {A} (m : PM World A) P Q R :
  pm_calls P m Q → (∀ cs, Q cs → R cs) → pm_calls P m R.
Proof. intros Hm HQR results st HP. by apply HQR, Hm. Qed.

Section Phases.
Variables (c0 : list call) (limit : nat) (routed : bool) (user_query : pystr).

(** The calls before the transformation stage, after it, and after the
    loading stage. *)
Let before (cs : list call) : Prop := cs = c0.
Let transformed (cs : list call) : Prop :=
  ∃ new, cs = c0 ++ new ∧ run_calls limit false user_query new.
Let loaded (cs : list call) : Prop :=
  ∃ new, cs = c0 ++ new ∧ run_calls limit routed user_query new.

Lemma before_transformed cs : before cs → transformed cs.
Proof.
  intros ->. exists []. rewrite app_nil_r. split; [done|].
  exists [], []. split; [done|]. split; [simpl; lia|]. split; [done|by left].
Qed.

Lemma transformed_loaded cs : transformed cs → loaded cs.
Proof.
  intros (new & -> & attempts & routing & -> & Hlen & Hall & [->|[? _]]); [|done].
  exists (concat attempts ++ []). split; [done|].
  exists attempts, []. split; [done|]. split; [done|]. split; [done|by left].
Qed.

Lemma pm_calls_transform dataframes :
  3 ≤ limit →
  pm_calls before (lift (iterative_transform user_query dataframes 3)) transformed.
Proof.
  intros Hlimit results st Hst. unfold before in Hst.
  unfold lift, iterative_transform.
  destruct (retry_loop_calls (range 3) 3 user_query dataframes None st)
    as (tried & Hcalls & Hlen & Hall).
  destruct (retry_loop _ _ _ _ _ st) as [r st1]. cbn [snd] in *.
  rewrite Hst in Hcalls.
  exists (concat tried). split; [done|]. exists tried, [].
  rewrite app_nil_r. split; [done|]. split; [simpl in Hlen; lia|].
  split; [done|by left].
Qed.

Lemma pm_calls_load df kwargs :
  routed = true →
  pm_calls transformed (lift (load df user_query None kwargs)) loaded.
Proof.
  intros Hrouted results st
    (new & Hnew & attempts & routing & -> & Hlen & Hall & [->|[? _]]); [|done].
  unfold lift.
  assert (Hcalls : calls (load df user_query None kwargs st).2
                   = calls st ++
                     [CallGenerate (DestinationPrompt user_query
                                      (df_shape (heap st !!! df)))]).
  { destruct (ai_determine_destination user_query df st) as [d st1] eqn:Hd.
    pose proof (ai_determine_destination_calls user_query df st) as Hasked.
    destruct (ai_determine_destination_returns user_query df st) as [dest_info Hret].
    rewrite Hd in Hasked, Hret. cbn [fst snd] in *. subst d.
    rewrite (load_routed _ _ _ _ _ _ Hd), <- Hasked.
    apply calls_kept_load_given. }
  destruct (load df user_query None kwargs st) as [r st1]. cbn [snd] in *.
  rewrite Hcalls, Hnew, app_nil_r. eexists. rewrite <- app_assoc. split; [done|].
  eexists attempts, _. split; [done|]. split; [done|]. split; [done|].
  right. split; [done|]. by eexists.
Qed.

Lemma pm_calls_bind_kept {A B} (m : PM World A) (k : A → PM World B) P R :
  pm_kept m → (∀ a, pm_calls P (k a) R) → (∀ cs, P cs → R cs) →
  pm_calls P (m ≫= k) R.
Proof. intros Hm. apply pm_calls_bind. by apply pm_calls_kept. Qed.

Lemma before_loaded cs : before cs → loaded cs.
Proof. intros H. by apply transformed_loaded, before_transformed. Qed.

Lemma pm_calls_run_try data_directory (skip_transform skip_load analyze : bool) :
  limit = (if skip_transform then 0 else 3) → routed = negb skip_load →
  pm_calls before
    (run_try user_query data_directory skip_transform skip_load analyze) loaded.
Proof.
  intros Hlimit Hrouted. unfold run_try.
  do 6 (apply pm_calls_bind_kept; [pm_kept|intros ?|apply before_loaded]).
  apply (pm_calls_bind _ _ before transformed loaded);
    [|intros transformed_df|apply transformed_loaded].
  - destruct skip_transform; cbn [negb].
    + apply (pm_calls_weaken _ before before); [|apply before_transformed].
      apply pm_calls_kept. pm_kept.
    + apply pm_calls_bind_kept; [pm_kept|intros ?|apply before_transformed].
      apply (pm_calls_bind _ _ before transformed transformed);
        [apply pm_calls_transform; lia|intros ?|done].
      apply pm_calls_kept. pm_kept.
  - apply (pm_calls_bind _ _ transformed loaded loaded); [|intros ?|done].
    + destruct skip_load; cbn [negb].
      * apply (pm_calls_weaken _ transformed transformed); [|apply transformed_loaded].
        apply pm_calls_kept. pm_kept.
      * apply pm_calls_bind_kept; [pm_kept|intros ?|apply transformed_loaded].
        apply (pm_calls_bind _ _ transformed loaded loaded);
          [by apply pm_calls_load|intros ?|done].
        apply pm_calls_kept. pm_kept.
    + apply pm_calls_kept. pm_kept.
Qed.

End Phases.

(** The calls of [run] are those of the [try] block. *)
Lemma run_calls_of_try user_query data_directory skip_transform skip_load analyze st :
  ∃ results st0,
    calls st0 = calls st ∧
    calls (run user_query data_directory skip_transform skip_load analyze st).2
    = calls (run_try user_query data_directory skip_transform skip_load analyze
               results st0).2.
Proof.
  unfold run.
  unfold mbind at 1, M_bind at 1, bind at 1, logger at 1. cbn beta iota.
  unfold mbind, M_bind, bind.
  match goal with
  | |- context [clock ?s] =>
      pose proof (calls_kept_clock s) as Hclock;
      destruct (clock_returns s) as (t0 & st0 & Ht0); rewrite Ht0 in Hclock |- *
  end.
  cbn zeta. cbn [snd] in Hclock. unfold calls_kept in Hclock. cbn [calls] in Hclock.
  exists (mkRun user_query t0 ∅ None None None None), st0. split; [exact Hclock|].
  unfold try_finally, run_protected.
  match goal with
  | |- context [run_try ?a ?b ?c ?d ?e ?r st0] =>
      destruct (run_try a b c d e r st0) as [[[r'|[e'|e']] results'] st1]
  end; cbn [snd].
  3:{ pose proof (calls_kept_close st1) as Hclose.
      destruct (close st1) as [[[]|?] st2]; exact Hclose. }
  - pose proof (calls_kept_close st1) as Hclose.
    destruct (close st1) as [[[]|?] st2]; exact Hclose.
  - assert (Hexcept : preserves calls_kept (run_except e' results')).
    { unfold run_except. preserves. }
    specialize (Hexcept st1).
    destruct (run_except e' results' st1) as [[r2|e2] st2]; cbn [snd] in *.
    + pose proof (calls_kept_close st2) as Hclose.
      destruct (close st2) as [[[]|?] st3]; cbn [snd] in *;
        unfold calls_kept in *; congruence.
    + pose proof (calls_kept_close st2) as Hclose.
      destruct (close st2) as [[[]|?] st3]; cbn [snd] in *;
        unfold calls_kept in *; congruence.
Qed.

(** X11: the calls of a run of the pipeline.  A run makes at most three
    attempts at the transformation, each one request for code followed by
    at most one execution, and after them at most one request for a
    destination, for the query of the run.  With [skip_transform] no code
    is asked for or executed; with [skip_load] no destination is asked
    for.  This bounds the code requests, the executions and the
    destination requests of a run, whatever the service replies and
    wherever the run fails; what the extraction stage asks of the service
    is not counted. *)
Theorem run_makes_calls user_query data_directory
    (skip_transform skip_load analyze : bool) st :
  ∃ new,
    calls (run user_query data_directory skip_transform skip_load analyze st).2
    = calls st ++ new ∧
    run_calls (if skip_transform then 0 else 3) (negb skip_load) user_query new.
Proof.
  destruct (run_calls_of_try user_query data_directory skip_transform skip_load
              analyze st) as (results & st0 & Hst0 & ->).
  apply (pm_calls_run_try (calls st) _ _ user_query data_directory skip_transform
           skip_load analyze eq_refl eq_refl results st0 Hst0).
Qed.

End RunCalls.

(** ** The stages of a run *)

Section RunStages.
Context {World : Type} {ext : External World}.
Variables (skip_transform skip_load analyze : bool).
Implicit Types (st : state World) (results : run_record).

(** The first [k] stages are done. *)
Let phase (k : nat) (results : run_record) : Prop :=
  stages_entered k results ∧ statuses_follow skip_transform skip_load analyze results.

(** The run has failed before its last stage was done. *)
Let failed (results : run_record) : Prop := ∃ k, k < 4 ∧ phase k results.

Lemma pm_stages_bind {A B} (m : PM World A) (k : A → PM World B) P Q R E :
  pm_stages P m Q E → (∀ a, pm_stages (Q a) (k a) R E) → pm_stages P (m ≫= k) R E.
Proof.
  intros Hm Hk results st HP. unfold mbind, PM_bind, pbind.
  specialize (Hm results st HP).
  destruct (m results st) as [[[a|e] results'] st']; [|done]. by apply Hk.
Qed.

Lemma pm_stages_ret {A} (a : A) P E : pm_stages P (mret a : PM World A) (λ _, P) E.
Proof. by intros results st HP. Qed.

Lemma pm_stages_lift {A} (m : M World A) P (E : run_record → Prop) :
  (∀ results, P results → E results) → pm_stages P (lift m) (λ _, P) E.
Proof.
  intros HPE results st HP. unfold lift. destruct (m st) as [[a|e] st']; auto.
Qed.

Lemma pm_stages_returns {A} (m : M World A) P (E : run_record → Prop) :
  (∀ st, ∃ a st', m st = (Ret a, st')) → pm_stages P (lift m) (λ _, P) E.
Proof.
  intros Hm results st HP. unfold lift. by destruct (Hm st) as (a & st' & ->).
Qed.

Lemma pm_stages_raise {A} e P (Q : A → run_record → Prop) (E : run_record → Prop) :
  (∀ results, P results → E results) → pm_stages P (lift (raise e : M World A)) Q E.
Proof. intros HPE results st HP. by apply HPE. Qed.

Lemma pm_stages_if {A} (b : bool) (m1 m2 : PM World A) P Q E :
  (b = true → pm_stages P m1 Q E) → (b = false → pm_stages P m2 Q E) →
  pm_stages P (if b then m1 else m2) Q E.
Proof. destruct b; auto. Qed.

Lemma phase_set_stage k name entry results :
  stage_names !! k = Some (py name) →
  status_of <$> Dict.get (stage_flags skip_transform skip_load analyze) (py name)
  = Some (stage_status entry) →
  phase k results →
  phase (S k)
    (mkRun (run_query results) (run_start_time results)
       (<[py name := entry]> (run_stages results))
       (run_end_time results) (run_duration_seconds results)
       (run_status results) (run_error results)).
Proof.
  intros Hname Hstatus [Hdom Hfollow]. split.
  - unfold stages_entered in *. cbn [run_stages].
    rewrite dom_insert_L, Hdom, (take_S_r _ _ _ Hname), list_to_set_app_L.
    simpl. rewrite (right_id_L ∅ (∪)). apply (comm_L (∪)).
  - intros name' entry'. cbn [run_stages].
    destruct (decide (py name = name')) as [<-|Hne].
    + rewrite lookup_insert_eq. by intros [= <-].
    + rewrite lookup_insert_ne by done. apply Hfollow.
Qed.

Lemma pm_stages_set_stage k name entry E :
  stage_names !! k = Some (py name) →
  status_of <$> Dict.get (stage_flags skip_transform skip_load analyze) (py name)
  = Some (stage_status entry) →
  pm_stages (phase k) (set_stage (World := World) name entry) (λ _, phase (S k)) E.
Proof. intros Hname Hstatus results st HP. by apply phase_set_stage. Qed.

Lemma phase_failed k results : k < 4 → phase k results → failed results.
Proof. intros Hk HP. by exists k. Qed.

(** The completion block does not raise, and does not touch the stages. *)
Lemma pm_stages_run_complete :
  pm_stages (phase 4) (run_complete (World := World))
    (λ returned _, phase 4 returned ∧ run_status returned = Some (py "success"))
    failed.
Proof.
  intros results st HP.
  unfold run_complete, mbind, PM_bind, pbind, lift, clock, on_world, set_completion,
    get_results, banner.
  cbn beta iota. destruct (now (world st)) as [t w].
  unfold mbind, M_bind, bind, logger, mret, PM_ret, pret.
  cbn beta iota. done.
Qed.

Ltac stage_step k :=
  first
    [ apply pm_stages_raise; intros ?; apply (phase_failed k); lia
    | apply pm_stages_lift; intros ?; apply (phase_failed k); lia
    | apply pm_stages_ret
    | apply pm_stages_bind with (Q := λ _, phase k); [|intros ?] ].

Lemma pm_stages_run_try user_query data_directory :
  pm_stages (phase 0)
    (run_try user_query data_directory skip_transform skip_load analyze)
    (λ returned _, phase 4 returned ∧ run_status returned = Some (py "success"))
    failed.
Proof.
  unfold run_try, skipped.
  apply pm_stages_bind with (Q := λ _, phase 0); [stage_step 0|intros _].
  apply pm_stages_bind with (Q := λ _, phase 0); [stage_step 0|intros extracted_data].
  apply pm_stages_bind with (Q := λ _, phase 0);
    [destruct (bool_decide _); stage_step 0|intros _].
  apply pm_stages_bind with (Q := λ _, phase 0); [stage_step 0|intros h].
  apply pm_stages_bind with (Q := λ _, phase 1);
    [by apply pm_stages_set_stage|intros _].
  apply pm_stages_bind with (Q := λ _, phase 1); [stage_step 1|intros _].
  apply pm_stages_bind with (Q := λ _, phase 2); [|intros transformed_df].
  { apply pm_stages_if; intros Hskip.
    - do 4 (apply pm_stages_bind with (Q := λ _, phase 1); [stage_step 1|intros ?]).
      apply pm_stages_bind with (Q := λ _, phase 2).
      + apply pm_stages_set_stage; [done|].
        apply negb_true_iff in Hskip. by rewrite Hskip.
      + intros _. repeat stage_step 2.
    - destruct (extracted_data.*2) as [|first rest]; [stage_step 1|].
      apply pm_stages_bind with (Q := λ _, phase 2); [|intros _; apply pm_stages_ret].
      apply pm_stages_set_stage; [done|].
      apply negb_false_iff in Hskip. by rewrite Hskip. }
  apply pm_stages_bind with (Q := λ _, phase 3); [|intros _].
  { apply pm_stages_if; intros Hskip.
    - do 2 (apply pm_stages_bind with (Q := λ _, phase 2); [stage_step 2|intros ?]).
      apply pm_stages_bind with (Q := λ _, phase 3); [|intros _; stage_step 3].
      apply pm_stages_set_stage; [done|].
      apply negb_true_iff in Hskip. by rewrite Hskip.
    - apply pm_stages_set_stage; [done|].
      apply negb_false_iff in Hskip. by rewrite Hskip. }
  apply pm_stages_bind with (Q := λ _, phase 4); [|intros _].
  { apply pm_stages_if; intros Hflag.
    - do 3 (apply pm_stages_bind with (Q := λ _, phase 3); [stage_step 3|intros ?]).
      apply pm_stages_bind with (Q := λ _, phase 4); [|intros _].
      + apply pm_stages_set_stage; [done|]. by rewrite Hflag.
      + apply pm_stages_returns. intros st. unfold mbind, M_bind, bind, logger.
        by eexists _, _.
    - apply pm_stages_set_stage; [done|]. by rewrite Hflag. }
  apply pm_stages_run_complete.
Qed.

(** X12: the record that [run] returns holds the stages in the order in
    which the pipeline goes through them: for some [k], exactly the first
    [k] of extract, transform, load and analyze have an entry.  The run
    reports [success] exactly when all four are there, and [failed] when
    it stopped before.  Each entry has the status its flag asks for:
    [skipped] for a stage that was switched off, [success] otherwise. *)
Theorem run_stages_in_order user_query data_directory st r :
  (run user_query data_directory skip_transform skip_load analyze st).1 = Ret r →
  ∃ k,
    stages_entered k r ∧
    statuses_follow skip_transform skip_load analyze r ∧
    (k = 4 ∧ run_status r = Some (py "success") ∨
     k < 4 ∧ run_status r = Some (py "failed")).
Proof.
  unfold run.
  unfold mbind at 1, M_bind at 1, bind at 1, logger at 1. cbn beta iota.
  unfold mbind, M_bind, bind.
  match goal with
  | |- context [clock ?s] => destruct (clock_returns s) as (t0 & st0 & ->)
  end.
  cbn zeta. set (results := mkRun user_query t0 ∅ None None None None).
  assert (Hstart : phase 0 results).
  { split; [apply dom_empty_L|]. intros name entry.
    change (run_stages results) with (∅ : gmap pystr stage_record).
    by rewrite lookup_empty. }
  pose proof (pm_stages_run_try user_query data_directory results st0 Hstart) as Htry.
  unfold try_finally, run_protected.
  destruct (run_try user_query data_directory skip_transform skip_load analyze
              results st0) as [[[returned|[e|e]] results'] st1].
  3:{ by destruct (close st1) as [[[]|e'] st2]. }
  - destruct (close st1) as [[[]|e] st2]; [|done]. cbn [fst]. intros [= <-].
    destruct Htry as [[Hdom Hfollow] Hstatus]. exists 4. eauto.
  - unfold run_except, mbind, M_bind, bind, logger.
    match goal with
    | |- context [clock ?s] => destruct (clock_returns s) as (t1 & st2 & ->)
    end.
    unfold mret, M_ret, ret. cbn beta iota.
    destruct (close st2) as [[[]|e'] st3]; [|done].
    cbn [fst]. intros [= <-].
    destruct Htry as (k & Hk & Hdom & Hfollow). exists k. eauto.
Qed.

End RunStages.

Lemma run_stages_in_order_witness :
  let E := stub_external extracts_one in
  let st := state_with [(1%positive, drivers)] in
  ∃ r,
    (run (ext := E) (py "all drivers") (py "processed") true false true st).1 = Ret r ∧
    ∃ k, stages_entered k r ∧ statuses_follow true false true r ∧
         (k = 4 ∧ run_status r = Some (py "success") ∨
          k < 4 ∧ run_status r = Some (py "failed")).
Proof.
  intros E st.
  assert (Hrun : ∃ r, (run (ext := E) (py "all drivers") (py "processed") true false
                         true st).1 = Ret r)
    by (vm_compute; eexists; reflexivity).
  destruct Hrun as [r H]. exists r. split; [exact H|].
  exact (run_stages_in_order (ext := E) true false true (py "all drivers")
           (py "processed") st r H).
Defined.

Section NothingExtracted.
Context {World : Type} {ext : External World}.
Implicit Types (st : state World).

(** X13: when the extraction finds nothing, the run stops there.  The
    record that [run] returns has no stage entry at all, the status
    [failed] and the error text of the [ValueError] that [run] raises
    itself.  The transformation and the loading agent are not reached:
    no code is asked for, none is executed, and no destination is asked
    for.  What the extraction agent itself asks of the completion service
    is not among the [calls]. *)
Theorem run_nothing_extracted user_query data_directory
    (skip_transform skip_load analyze : bool) st :
  connected st = false →
  (ai_assisted_extract user_query data_directory (now (world st)).2 (heap st)).1.1
  = Ret [] →
  ∃ r,
    (run user_query data_directory skip_transform skip_load analyze st).1 = Ret r ∧
    run_stages r = ∅ ∧
    run_status r = Some (py "failed") ∧
    run_error r
    = Some (py "No data extracted. Check data directory and file formats.") ∧
    calls (run user_query data_directory skip_transform skip_load analyze st).2
    = calls st.
Proof.
  intros Hconn Hnone.
  unfold run, run_protected, run_try, run_except, try_finally, close, clock, banner,
    get_connected, lift.
  unfold mbind, M_bind, PM_bind, pbind, bind, logger, on_world, on_world_heap, lift.
  cbn beta iota delta [fst snd world heap connected log calls called].
  destruct (now (world st)) as [t0 w0]. cbn [snd] in Hnone.
  cbn beta iota delta [fst snd world heap connected log calls called].
  destruct (ai_assisted_extract user_query data_directory w0 (heap st))
    as [[found w1] h1].
  cbn [fst] in Hnone. subst found.
  cbn beta iota delta [fst snd world heap connected log calls called].
  rewrite bool_decide_eq_true_2 by done.
  unfold raise. cbn beta iota delta [fst snd world heap connected log calls called].
  destruct (now w1) as [t1 w2].
  cbn beta iota delta [fst snd world heap connected log calls called].
  rewrite Hconn. eexists. split; [reflexivity|]. done.
Qed.

End NothingExtracted.

Lemma run_nothing_extracted_witness :
  let E := stub_external silent in
  let st := initial_state 0 in
  ∃ r,
    (run (ext := E) (py "top drivers") (py "processed") false false true st).1 = Ret r ∧
    run_stages r = ∅ ∧
    run_status r = Some (py "failed") ∧
    run_error r
    = Some (py "No data extracted. Check data directory and file formats.") ∧
    calls (run (ext := E) (py "top drivers") (py "processed") false false true st).2
    = calls st.
Proof.
  intros E st.
  exact (run_nothing_extracted (ext := E) (py "top drivers") (py "processed")
           false false true st eq_refl eq_refl).
Defined.

(** ** The letters and digits of a column name *)





Section Alnum.
Implicit Types (s : pystr).









End Alnum.

(** ** Code without fences *)

(** X15: [clean_code_fences] leaves clean code alone.  A text made of
    lines joined by LF, none of them a fence line, with no other line
    break and a last line that is not empty, comes back unchanged. *)
Theorem clean_code_fences_keeps_clean (lines : list pystr) :
  Forall break_free lines →
  Forall (λ line, is_fence_line line = false) lines →
  last lines ≠ Some [] →
  clean_code_fences (Str.join newline lines) = Str.join newline lines.
Proof.
  intros Hfree Hclean Hlast. unfold clean_code_fences.
  rewrite splitlines_join by done. rewrite drop_last_empty_id by done.
  rewrite filter_all_true; [done|].
  eapply Forall_impl; [exact Hclean|]. intros line H. simpl. by rewrite H.
Qed.

Lemma clean_code_fences_keeps_clean_witness :
  let lines := [py "df = dataframes['a']"; py ""; py "result_df = df.head(3)"] in
  Forall break_free lines ∧
  Forall (λ line, is_fence_line line = false) lines ∧
  last lines ≠ Some [] ∧
  clean_code_fences (Str.join newline lines) = Str.join newline lines.
Proof.
  intros lines.
  assert (H1 : Forall break_free lines) by (repeat constructor).
  assert (H2 : Forall (λ line, is_fence_line line = false) lines)
    by (repeat constructor).
  assert (H3 : last lines ≠ Some []) by discriminate.
  split; [exact H1|]. split; [exact H2|]. split; [exact H3|].
  exact (clean_code_fences_keeps_clean lines H1 H2 H3).
Defined.

(** ** The analysis stage as the pipeline is wired *)

Section AnalysisUnavailable.
Context {World : Type} {ext : External World}.
Implicit Types (st : state World) (results : run_record).

(** [ETLPipeline.__init__] makes a [VisualizeAgent] the analysis agent,
    and that class has no method [iterative_analyze]: the attribute
    lookup raises. *)
Hypothesis analysis_unavailable :
  ∀ user_query df w h,
    (iterative_analyze user_query df w h).1.1 = Raise (no_attribute "iterative_analyze").

Let anything (results : run_record) : Prop := True.

Lemma pm_stages_any {A} (m : PM World A) :
  pm_stages anything m (λ _, anything) anything.
Proof. intros results st _. by destruct (m results st) as [[[a|e] results'] st']. Qed.

Lemma pm_stages_absurd {A} (m : PM World A) (Q : A → run_record → Prop) :
  pm_stages (λ _, False) m Q anything.
Proof. by intros results st []. Qed.

Lemma pm_stages_analysis user_query df :
  pm_stages anything
    (lift (on_world_heap (iterative_analyze user_query df)))
    (λ _ _, False) anything.
Proof.
  intros results st _. unfold lift, on_world_heap.
  pose proof (analysis_unavailable user_query df (world st) (heap st)) as H.
  destruct (iterative_analyze user_query df (world st) (heap st)) as [[r w] h].
  cbn [fst] in H. by rewrite H.
Qed.

Lemma run_try_analysis_raises user_query data_directory skip_transform skip_load :
  pm_stages anything
    (run_try user_query data_directory skip_transform skip_load true)
    (λ _ _, False) anything.
Proof.
  unfold run_try.
  do 8 (apply pm_stages_bind with (Q := λ _, anything);
        [apply pm_stages_any|intros ?]).
  apply pm_stages_bind with (Q := λ _ _, False); [|intros ?; apply pm_stages_absurd].
  apply pm_stages_bind with (Q := λ _, anything); [apply pm_stages_any|intros _].
  apply pm_stages_bind with (Q := λ _ _, False); [|intros ?; apply pm_stages_absurd].
  apply pm_stages_analysis.
Qed.

(** X16: as the pipeline is wired, a run with the analysis stage switched
    on never succeeds.  The analysis agent is a [VisualizeAgent], which has
    no [iterative_analyze]; so a run that gets through its first three
    stages fails at the fourth, and every record that [run] returns with
    [analyze] set has the status [failed] and no entry for the stage
    [analyze]. *)
Theorem run_analysis_unavailable user_query data_directory skip_transform skip_load
    st r :
  (run user_query data_directory skip_transform skip_load true st).1 = Ret r →
  run_status r = Some (py "failed") ∧ run_stages r !! py "analyze" = None.
Proof.
  unfold run.
  unfold mbind at 1, M_bind at 1, bind at 1, logger at 1. cbn beta iota.
  unfold mbind, M_bind, bind.
  match goal with
  | |- context [clock ?s] => destruct (clock_returns s) as (t0 & st0 & ->)
  end.
  cbn zeta. set (results := mkRun user_query t0 ∅ None None None None).
  assert (Hstart : stages_entered 0 results ∧
                   statuses_follow skip_transform skip_load true results).
  { split; [apply dom_empty_L|]. intros name entry.
    change (run_stages results) with (∅ : gmap pystr stage_record).
    by rewrite lookup_empty. }
  pose proof (pm_stages_run_try skip_transform skip_load true user_query
                data_directory results st0 Hstart) as Hstages.
  pose proof (run_try_analysis_raises user_query data_directory skip_transform
                skip_load results st0 I) as Hraises.
  unfold try_finally, run_protected.
  destruct (run_try user_query data_directory skip_transform skip_load true
              results st0) as [[[returned|[e|e]] results'] st1]; [done| |].
  2:{ by destruct (close st1) as [[[]|e'] st2]. }
  unfold run_except, mbind, M_bind, bind, logger.
  match goal with
  | |- context [clock ?s] => destruct (clock_returns s) as (t1 & st2 & ->)
  end.
  unfold mret, M_ret, ret. cbn beta iota.
  destruct (close st2) as [[[]|e'] st3]; [|done].
  cbn [fst]. intros [= <-]. cbn [run_status run_stages]. split; [done|].
  destruct Hstages as (k & Hk & Hdom & _).
  apply not_elem_of_dom. rewrite Hdom.
  destruct k as [|[|[|[|k]]]]; [| | | |lia]; by vm_compute.
Qed.

End AnalysisUnavailable.

Lemma run_analysis_unavailable_witness :
  let E := stub_external extracts_one in
  let st := state_with [(1%positive, drivers)] in
  (∀ user_query df w h,
     (iterative_analyze (External := E) user_query df w h).1.1
     = Raise (no_attribute "iterative_analyze")) ∧
  ∃ r,
    (run (ext := E) (py "all drivers") (py "processed") true false true st).1 = Ret r ∧
    run_status r = Some (py "failed") ∧ run_stages r !! py "analyze" = None.
Proof.
  intros E st.
  assert (H : ∀ user_query df w h,
            (iterative_analyze (External := E) user_query df w h).1.1
            = Raise (no_attribute "iterative_analyze")) by reflexivity.
  split; [exact H|].
  assert (Hrun : ∃ r, (run (ext := E) (py "all drivers") (py "processed") true false
                         true st).1 = Ret r)
    by (vm_compute; eexists; reflexivity).
  destruct Hrun as [r Hr]. exists r. split; [exact Hr|].
  exact (run_analysis_unavailable (ext := E) H (py "all drivers") (py "processed")
           true false st r Hr).
Defined.

(** ** [VisualizeAgent] *)

Section ReturnsOnly.
Context {World : Type}.

Lemma returns_only_ret {A} (Q : A → Prop) a : Q a → returns_only Q (mret a : M World A).
Proof. intros H st a'. by intros [= <-]. Qed.

Lemma returns_only_raise {A} (Q : A → Prop) e : returns_only Q (raise e : M World A).
Proof. by intros st a. Qed.

Lemma returns_only_bind {A B} (Q : B → Prop) (m : M World A) (k : A → M World B) :
  (∀ a, returns_only Q (k a)) → returns_only Q (m ≫= k).
Proof.
  intros Hk st b. unfold mbind, M_bind, bind.
  destruct (m st) as [[a|e] st1]; [apply Hk|done].
Qed.

Lemma returns_only_try_except {A} (Q : A → Prop) (m : M World A) handler :
  returns_only Q m → (∀ e, returns_only Q (handler e)) →
  returns_only Q (try_except m handler).
Proof.
  intros Hm Hh st a. unfold try_except. specialize (Hm st).
  destruct (m st) as [[a'|[e|e]] st1]; [apply Hm|apply Hh|done].
Qed.

End ReturnsOnly.

Section VisualizeFacts.
Context {World : Type} {studio : Studio World}.
Implicit Types (st : state World) (df : loc).

Ltac returns_only :=
  repeat first
    [ apply returns_only_raise
    | apply returns_only_ret; done
    | apply returns_only_try_except; [|intros ?]
    | apply returns_only_bind; intros ? ].





(** X18: an empty list of suggestions gives no visualization at all.
    When the reply of the completion service holds a bracketed piece that
    decodes to the empty list, [create_multiple_visualizations] returns
    the empty list: nothing is drawn, nothing is logged, and the fallback
    to a single visualization is not taken. *)
Theorem create_multiple_visualizations_none user_query df output_dir st text w
    json_match :
  suggestions_reply user_query (heap st !!! df) (world st) = (Ret text, w) →
  search_brackets text = Some json_match →
  json_loads_list json_match = Ret [] →
  create_multiple_visualizations user_query df output_dir st
  = (Ret [], mkState w (heap st) (connected st) (log st) (calls st)).
Proof.
  intros Hreply Hmatch Hjson. unfold create_multiple_visualizations.
  run_monad. rewrite Hreply. cbn beta iota delta [called]. rewrite Hmatch.
  cbn beta iota delta [fst snd world heap connected log calls called].
  rewrite Hjson. done.
Qed.

End VisualizeFacts.


Lemma create_multiple_visualizations_none_witness :
  let S := studio_external
             (mkStudioStub (Ret (py "plt.savefig('output/visualization.png')"))
                (Ret (py "No chart fits: []")) (λ _, Ret [])) in
  let st := state_with [(1%positive, drivers)] in
  create_multiple_visualizations (studio := S) (py "wins by driver") 1 (py "plots") st
  = (Ret [], mkState 1 (heap st) (connected st) (log st) (calls st)).
Proof.
  intros S st.
  assert (H1 : suggestions_reply (Studio := S) (py "wins by driver")
                 (heap st !!! 1%positive) (world st)
               = (Ret (py "No chart fits: []"), 1)) by reflexivity.
  assert (H2 : search_brackets (py "No chart fits: []") = Some (py "[]"))
    by (vm_compute; reflexivity).
  assert (H3 : json_loads_list (Studio := S) (py "[]") = Ret []) by reflexivity.
  exact (create_multiple_visualizations_none (studio := S) (py "wins by driver") 1
           (py "plots") st (py "No chart fits: []") 1 (py "[]") H1 H2 H3).
Defined.

(** *** The path replacement of [execute_visualization] *)

Lemma startswith_split (old s : pystr) :
  Str.startswith old s = true → s = old ++ drop (length old) s.
Proof.
  revert s. induction old as [|a old IH]; intros s; [done|].
  destruct s as [|b s]; [done|]. simpl.
  intros [Hab Hrest]%andb_true_iff. apply bool_decide_eq_true_1 in Hab as ->.
  f_equal. by apply IH.
Qed.

Lemma replace_from_skip old new k s :
  replace_from old new k s = replace_from old new 0 (drop k s).
Proof.
  revert s. induction k as [|k IH]; intros s; [done|].
  destruct s as [|c s]; [done|]. simpl. apply IH.
Qed.

(** Replacing a text by itself changes nothing. *)
Lemma str_replace_same old s : str_replace old old s = s.
Proof.
  unfold str_replace. destruct old as [|a old].
  { simpl. induction s as [|c s IH]; [done|]. rewrite fmap_cons. simpl. by f_equal. }
  remember (length s) as n eqn:Hn.
  revert s Hn. induction n as [n IH] using lt_wf_ind. intros s Hn.
  destruct s as [|c s]; [done|]. cbn [replace_from].
  destruct (Str.startswith (a :: old) (c :: s)) eqn:Hstart.
  - rewrite replace_from_skip.
    rewrite (IH (length (drop (length (a :: old) - 1) s))); [|rewrite length_drop;
      simpl in Hn; lia|done].
    rewrite (startswith_split _ _ Hstart) at 1. simpl. by rewrite Nat.sub_0_r.
  - f_equal. apply (IH (length s)); [simpl in Hn; lia|done].
Qed.

(** A text without an occurrence is left as it is. *)
Lemma str_replace_absent old new s :
  Str.contains old s = false → str_replace old new s = s.
Proof.
  unfold str_replace. destruct old as [|a old]; [by destruct s|].
  induction s as [|c s IH]; [done|].
  cbn [Str.contains replace_from]. intros [Hstart Hrest]%orb_false_iff.
  rewrite Hstart. f_equal. by apply IH.
Qed.

(** X19: when the path replacement of [execute_visualization] leaves the
    generated code as it is.  The code that is executed is the code that
    was generated when the requested path is the default one, and also
    when the code mentions the default path in neither kind of quotes; in
    the second case the figure is saved wherever the code says, not at
    the requested path. *)
Theorem path_replacement_keeps code output_path :
  output_path = default_output_path ∨
  (Str.contains (single_quoted default_output_path) code = false ∧
   Str.contains (double_quoted default_output_path) code = false) →
  str_replace (double_quoted default_output_path) (double_quoted output_path)
    (str_replace (single_quoted default_output_path) (single_quoted output_path) code)
  = code.
Proof.
  intros [->|[Hsingle Hdouble]].
  - by rewrite !str_replace_same.
  - rewrite (str_replace_absent _ _ code) by done. by apply str_replace_absent.
Qed.

Lemma path_replacement_keeps_witness :
  let code := py "plt.plot(df['points'])" ++ newline ++ py "plt.savefig('chart.png')" in
  str_replace (double_quoted default_output_path) (double_quoted (py "plots/a.png"))
    (str_replace (single_quoted default_output_path) (single_quoted (py "plots/a.png"))
       code)
  = code.
Proof.
  intros code.
  assert (H : Str.contains (single_quoted default_output_path) code = false ∧
              Str.contains (double_quoted default_output_path) code = false)
    by (split; vm_compute; reflexivity).
  exact (path_replacement_keeps code (py "plots/a.png") (or_intror H)).
Defined.

(** ** [ExtractAgent] *)

Global Instance keys_kept_preorder {V} : PreOrder (@keys_kept V).
Proof. split; [by intros d k|]. intros d1 d2 d3 H12 H23 k Hk. by apply H23, H12. Qed.

Global Instance extracted_kept_preorder {World} : PreOrder (@extracted_kept World).
Proof.
  split; [intros st; unfold extracted_kept; reflexivity|].
  intros st1 st2 st3 H12 H23. unfold extracted_kept in *. by etransitivity.
Qed.

Lemma keys_kept_set {V} (d : Dict.t V) k v : keys_kept d (Dict.set d k v).
Proof.
  intros k' Hk'. destruct (decide (k = k')) as [<-|Hne].
  - by rewrite dict_get_set_eq.
  - by rewrite dict_get_set_ne.
Qed.

Section Returns.
Context {World : Type}.

Lemma returns_ret {A} (a : A) : returns (mret a : M World A).
Proof. intros st. by eexists _, _. Qed.

Lemma returns_bind {A B} (m : M World A) (k : A → M World B) :
  returns m → (∀ a, returns (k a)) → returns (m ≫= k).
Proof.
  intros Hm Hk st. unfold mbind, M_bind, bind.
  destruct (Hm st) as (a & st1 & ->). apply Hk.
Qed.

Lemma returns_handled {A} (m : M World A) handler :
  no_exit m → (∀ e, returns (handler e)) → returns (try_except m handler).
Proof.
  intros Hm Hh st. unfold try_except.
  destruct (m st) as [[a|[e|e]] st1] eqn:E; [by eexists _, _|apply Hh|].
  by apply Hm in E.
Qed.

Lemma returns_logger lv template args : returns (logger (World := World) lv template args).
Proof. intros st. by eexists _, _. Qed.

Lemma returns_for_each {A} (items : list A) (body : A → M World ()) :
  (∀ x, returns (body x)) → returns (for_each items body).
Proof.
  intros Hbody. induction items as [|x items IH]; [apply returns_ret|].
  simpl. by apply (returns_bind (body x) (λ _, for_each items body)).
Qed.

Lemma ends_with_ret {A} (Q : A → state World → Prop) a :
  (∀ st, Q a st) → ends_with Q (mret a : M World A).
Proof. intros H st. apply H. Qed.

Lemma ends_with_bind {A B} (Q : B → state World → Prop) (m : M World A)
    (k : A → M World B) :
  (∀ a, ends_with Q (k a)) → ends_with Q (m ≫= k).
Proof.
  intros Hk st. unfold mbind, M_bind, bind.
  destruct (m st) as [[a|e] st1]; [apply Hk|done].
Qed.

Lemma ends_with_try_except {A} (Q : A → state World → Prop) (m : M World A) handler :
  ends_with Q m → (∀ e, ends_with Q (handler e)) → ends_with Q (try_except m handler).
Proof.
  intros Hm Hh st. unfold try_except. specialize (Hm st).
  destruct (m st) as [[a|[e|e]] st1]; [done|apply Hh|done].
Qed.

End Returns.

Section ExtractFacts.
Context {World : Type} {files : Files World}.
Implicit Types (st : state (agent_world World)) (s : source).
Import ExtractAgent.

Lemma extracted_kept_logger lv template args :
  preserves extracted_kept
    (logger (World := agent_world World) lv template args).
Proof. intros st. unfold extracted_kept. reflexivity. Qed.

Lemma extracted_kept_on_files {A} (f : World → py_result A * World) :
  preserves extracted_kept (on_files f).
Proof.
  intros st. unfold on_files, on_world, extracted_kept.
  destruct (f (outside (world st))). reflexivity.
Qed.

Lemma extracted_kept_on_files_heap {A}
    (f : World → gmap loc DataFrame → py_result A * World * gmap loc DataFrame) :
  preserves extracted_kept (on_files_heap f).
Proof.
  intros st. unfold on_files_heap, on_world_heap, extracted_kept.
  destruct (f (outside (world st)) (heap st)) as [[? ?] ?]. reflexivity.
Qed.

Lemma extracted_kept_get_extracted :
  preserves extracted_kept (get_extracted (World := World)).
Proof. intros st. unfold extracted_kept. reflexivity. Qed.

Lemma extracted_kept_set_extracted name df :
  preserves extracted_kept (set_extracted (World := World) name df).
Proof. intros st. apply keys_kept_set. Qed.

Hint Resolve extracted_kept_logger extracted_kept_on_files extracted_kept_on_files_heap
  extracted_kept_get_extracted extracted_kept_set_extracted : frame.

Lemma extracted_kept_glob_each directory extensions :
  preserves extracted_kept (glob_each directory extensions).
Proof. induction extensions as [|ext rest IH]; simpl; preserves. Qed.

Lemma extracted_kept_get_file_list directory extensions :
  preserves extracted_kept (get_file_list directory extensions).
Proof.
  assert (Hmissing : preserves extracted_kept
            (logger (World := agent_world World) WARNING
               "Directory does not exist: {}" [AStr directory];;
             mret ([] : list pystr))) by preserves.
  intros st. unfold get_file_list. destruct (negb _); [apply Hmissing|].
  destruct extensions as [[|ext rest]|].
  - apply extracted_kept_on_files.
  - apply extracted_kept_glob_each.
  - apply extracted_kept_on_files.
Qed.

Lemma extracted_kept_describe_each found :
  preserves extracted_kept (describe_each found).
Proof. induction found as [|file rest IH]; simpl; preserves. Qed.

Hint Resolve extracted_kept_get_file_list extracted_kept_describe_each : frame.

Lemma extracted_kept_detect_sources directory :
  preserves extracted_kept (detect_sources directory).
Proof. unfold detect_sources. preserves. Qed.

Lemma extracted_kept_extract_file file_path :
  preserves extracted_kept (extract_file file_path).
Proof. unfold extract_file. preserves. Qed.

Hint Resolve extracted_kept_detect_sources extracted_kept_extract_file : frame.

Lemma extracted_kept_extract_all directory :
  preserves extracted_kept (extract_all directory).
Proof. unfold extract_all, extract_one. preserves. Qed.

Hint Resolve extracted_kept_extract_all : frame.

Lemma extracted_kept_ai_assisted_extract user_query directory :
  preserves extracted_kept (ai_assisted_extract user_query directory).
Proof. unfold ai_assisted_extract, extract_selected. preserves. Qed.

Lemma ends_with_get_extracted :
  ends_with (λ d st', d = extracted_data (world st')) (get_extracted (World := World)).
Proof. by intros st. Qed.

Lemma ends_with_extract_all directory :
  ends_with (λ d st', d = extracted_data (world st')) (extract_all directory).
Proof.
  unfold extract_all. do 2 (apply ends_with_bind; intros ?).
  apply ends_with_get_extracted.
Qed.

(** X20: an [ExtractAgent] never forgets.  What [ai_assisted_extract]
    returns is the attribute [self.extracted_data] as the call leaves it,
    and every dataset that the agent held before the call is still in it:
    on the selected path and on the fallback to [extract_all] alike, the
    tables of an earlier query come back with those of the present one. *)
Theorem ai_assisted_extract_accumulates user_query directory st d :
  (ai_assisted_extract user_query directory st).1 = Ret d →
  d = extracted_data (world (ai_assisted_extract user_query directory st).2) ∧
  keys_kept (extracted_data (world st)) d.
Proof.
  intros Hret.
  assert (Hends : ends_with (λ d st', d = extracted_data (world st'))
                    (ai_assisted_extract user_query directory)).
  { unfold ai_assisted_extract. apply ends_with_bind; intros sources.
    apply ends_with_try_except; [|intros e].
    - do 3 (apply ends_with_bind; intros ?). apply ends_with_get_extracted.
    - apply ends_with_bind; intros _. apply ends_with_extract_all. }
  pose proof (extracted_kept_ai_assisted_extract user_query directory st) as Hkept.
  specialize (Hends st).
  destruct (ai_assisted_extract user_query directory st) as [[d'|e] st']; [|done].
  cbn [fst snd] in *. injection Hret as ->. split; [done|].
  unfold extracted_kept in Hkept. by rewrite Hends.
Qed.

Lemma returns_on_files {A} (f : World → py_result A * World) :
  (∀ w, is_raise (f w).1 = false) → returns (on_files f).
Proof.
  intros Hf st. unfold on_files, on_world. specialize (Hf (outside (world st))).
  destruct (f (outside (world st))) as [[a|e] w]; [by eexists _, _|done].
Qed.

Section Listing.
Hypothesis glob_returns : ∀ directory pattern w, is_raise (glob directory pattern w).1 = false.
Hypothesis file_size_returns : ∀ file w, is_raise (file_size file w).1 = false.

Lemma returns_glob_each directory extensions : returns (glob_each directory extensions).
Proof.
  induction extensions as [|ext rest IH]; [apply returns_ret|]. simpl.
  apply returns_bind; [by apply returns_on_files|intros found].
  apply returns_bind; [done|intros more]. apply returns_ret.
Qed.

Lemma returns_get_file_list directory extensions :
  returns (get_file_list directory extensions).
Proof.
  intros st. unfold get_file_list. destruct (negb _).
  - by eexists _, _.
  - destruct extensions as [[|ext rest]|].
    + by apply returns_on_files.
    + apply returns_glob_each.
    + by apply returns_on_files.
Qed.

Lemma returns_describe_each found : returns (describe_each found).
Proof.
  induction found as [|file rest IH]; [apply returns_ret|]. simpl.
  apply returns_bind; [by apply returns_on_files|intros size].
  apply returns_bind; [done|intros sources]. apply returns_ret.
Qed.

Lemma returns_detect_sources directory : returns (detect_sources directory).
Proof.
  unfold detect_sources.
  apply returns_bind; [apply returns_get_file_list|intros found].
  apply returns_bind; [apply returns_describe_each|intros sources].
  apply returns_bind; [apply returns_logger|intros _]. apply returns_ret.
Qed.

(** Reading the files runs no generated code: nothing exits. *)
Lemma no_exit_get_extracted : no_exit (get_extracted (World := World)).
Proof. by intros st e st'. Qed.

Lemma no_exit_extract_file file_path : no_exit (extract_file file_path).
Proof. unfold extract_file, on_files_heap. exits_only. Qed.

Lemma no_exit_extract_selected files_to_extract s :
  no_exit (extract_selected files_to_extract s).
Proof.
  pose proof no_exit_extract_file.
  unfold extract_selected, set_extracted. exits_only.
Qed.

Lemma returns_extract_all directory : returns (extract_all directory).
Proof.
  unfold extract_all.
  apply returns_bind; [apply returns_detect_sources|intros sources].
  apply returns_bind; [|intros _; by intros st; eexists _, _].
  apply returns_for_each. intros s. unfold extract_one.
  apply returns_handled; [|intros e; apply returns_logger].
  pose proof no_exit_extract_file.
  unfold set_extracted, on_files_heap. exits_only.
Qed.

(** X21: the only exceptions that leave [ai_assisted_extract] are those
    of listing the directory.  When globbing and [stat] do not raise, the
    call returns, whatever the completion service replies and whichever
    files fail to load: a failure on the selected path is answered by
    [extract_all], which logs the files it cannot read and goes on. *)
Theorem ai_assisted_extract_returns user_query directory st :
  ∃ d st', ai_assisted_extract user_query directory st = (Ret d, st').
Proof.
  revert st. change (returns (ai_assisted_extract user_query directory)).
  unfold ai_assisted_extract.
  apply returns_bind; [apply returns_detect_sources|intros sources].
  apply returns_handled.
  { pose proof no_exit_get_extracted. pose proof no_exit_extract_selected.
    unfold on_files. exits_only. }
  intros e.
  apply returns_bind; [apply returns_logger|intros _]. apply returns_extract_all.
Qed.

End Listing.

End ExtractFacts.

Lemma ai_assisted_extract_accumulates_witness :
  let F := files_stub [py "laps.csv"] (Ret [JStr (py "laps.csv")]) in
  let d := [(py "old", 1%positive); (py "laps", 2%positive)] in
  (ExtractAgent.ai_assisted_extract (files := F) (py "fastest laps") (py "processed")
     agent_with_old).1 = Ret d ∧
  d = extracted_data
        (world (ExtractAgent.ai_assisted_extract (files := F) (py "fastest laps")
                  (py "processed") agent_with_old).2) ∧
  keys_kept (extracted_data (world agent_with_old)) d.
Proof.
  intros F d.
  assert (H : (ExtractAgent.ai_assisted_extract (files := F) (py "fastest laps")
                 (py "processed") agent_with_old).1 = Ret d)
    by (vm_compute; reflexivity).
  split; [exact H|].
  exact (ai_assisted_extract_accumulates (files := F) (py "fastest laps")
           (py "processed") agent_with_old d H).
Defined.

Lemma ai_assisted_extract_returns_witness :
  let F := files_stub [py "laps.csv"]
             (Raise (mkExn (py "JSONDecodeError") (py "Expecting value"))) in
  (∀ directory pattern w, is_raise (glob (Files := F) directory pattern w).1 = false) ∧
  (∀ file w, is_raise (file_size (Files := F) file w).1 = false) ∧
  ∃ d st',
    ExtractAgent.ai_assisted_extract (files := F) (py "fastest laps") (py "processed")
      agent_with_old = (Ret d, st').
Proof.
  intros F.
  assert (H1 : ∀ directory pattern w,
            is_raise (glob (Files := F) directory pattern w).1 = false)
    by reflexivity.
  assert (H2 : ∀ file w, is_raise (file_size (Files := F) file w).1 = false)
    by reflexivity.
  split; [exact H1|]. split; [exact H2|].
  exact (ai_assisted_extract_returns (files := F) H1 H2 (py "fastest laps")
           (py "processed") agent_with_old).
Defined.

(** ** The metadata file *)

Section MetadataFacts.
Context {World : Type} {store : MetadataFiles World}.
Implicit Types (st : state World).
Import Helpers.

(** What [load_metadata] makes of the file: its content, or the empty
    dictionary when the file is missing or is no JSON. *)
Lemma load_metadata_reads metadata_path st d :
  (open_and_load metadata_path (world st)).1 = Ret (LoadedDict d) ∨
  (∃ e, (open_and_load metadata_path (world st)).1 = Raise e ∧
        unreadable e = true ∧ d = []) →
  (load_metadata metadata_path st).1 = Ret (LoadedDict d).
Proof.
  unfold load_metadata, try_except, on_world.
  destruct (open_and_load metadata_path (world st)) as [[content|e] w];
    cbn [fst called].
  - intros [[= ->]|(e & [=] & _)]. done.
  - intros [[=]|(e' & [= <-] & Hclass & ->)]. unfold unreadable in Hclass.
    destruct (Str.eqb (exn_class e) (py "FileNotFoundError")); [done|].
    cbn [orb] in Hclass. rewrite Hclass. done.
Qed.

(** X22: [update_metadata] reads, modifies and writes.  When the file
    holds a JSON object, or is missing or is no JSON (and then counts as
    empty: what a corrupt file held is lost), the writer is called once,
    after the clock is read, with the dictionary that was read, changed in
    two places: the caller's key has the caller's value, and
    [last_updated] has the reading of the clock, also when the caller's
    own key is [last_updated].  Every other entry is as it was read.  The
    call returns even if the writing fails. *)
Theorem update_metadata_saves key value metadata_path st d :
  (open_and_load metadata_path (world st)).1 = Ret (LoadedDict d) ∨
  (∃ e, (open_and_load metadata_path (world st)).1 = Raise e ∧
        unreadable e = true ∧ d = []) →
  ∃ st0,
    load_metadata metadata_path st = (Ret (LoadedDict d), st0) ∧
    let t := (now_isoformat (world st0)).1 in
    let st1 := mkState (now_isoformat (world st0)).2 (heap st0) (connected st0)
                 (log st0) (calls st0) in
    let saved := Dict.set (Dict.set d key value) (py "last_updated") (JStr t) in
    update_metadata key value metadata_path st = save_metadata saved metadata_path st1 ∧
    world (update_metadata key value metadata_path st).2
    = (open_and_dump saved metadata_path (now_isoformat (world st0)).2).2 ∧
    (update_metadata key value metadata_path st).1 = Ret () ∧
    Dict.get saved (py "last_updated") = Some (JStr t) ∧
    (key ≠ py "last_updated" → Dict.get saved key = Some value) ∧
    (∀ k, k ≠ key → k ≠ py "last_updated" → Dict.get saved k = Dict.get d k).
Proof.
  intros Hread. pose proof (load_metadata_reads metadata_path st d Hread) as Hload.
  destruct (load_metadata metadata_path st) as [r st0] eqn:Hst0.
  cbn [fst] in Hload. subst r. exists st0. split; [done|]. cbv zeta.
  assert (Heq : update_metadata key value metadata_path st
                = save_metadata
                    (Dict.set (Dict.set d key value) (py "last_updated")
                       (JStr (now_isoformat (world st0)).1))
                    metadata_path
                    (mkState (now_isoformat (world st0)).2 (heap st0) (connected st0)
                       (log st0) (calls st0))).
  { unfold update_metadata. unfold mbind at 1, M_bind at 1, bind at 1.
    rewrite Hst0.
    unfold mbind, M_bind, bind, mret, M_ret, ret, on_world. cbn beta iota.
    by destruct (now_isoformat (world st0)) as [t w]. }
  split; [exact Heq|]. rewrite Heq.
  split.
  { unfold save_metadata, try_except, on_world, logger. cbn [world].
    by destruct (open_and_dump _ metadata_path _) as [[[]|e] w']. }
  split.
  { unfold save_metadata, try_except, on_world, logger. cbn [world].
    by destruct (open_and_dump _ metadata_path _) as [[[]|e] w']. }
  split; [apply dict_get_set_eq|]. split.
  - intros Hkey. rewrite dict_get_set_ne by done. apply dict_get_set_eq.
  - intros k Hk Hlast. by rewrite !dict_get_set_ne.
Qed.

End MetadataFacts.

Lemma update_metadata_saves_witness :
  let d : Dict.t json := [(py "runs", JStr (py "12")); (py "owner", JStr (py "etl"))] in
  let S := metadata_stub (Ret (LoadedDict d)) in
  let st := initial_state 0 in
  ∃ st0,
    Helpers.load_metadata (store := S) (py "metadata.json") st
    = (Ret (LoadedDict d), st0) ∧
    let t := (now_isoformat (MetadataFiles := S) (world st0)).1 in
    let st1 := mkState (now_isoformat (MetadataFiles := S) (world st0)).2 (heap st0)
                 (connected st0) (log st0) (calls st0) in
    let saved := Dict.set (Dict.set d (py "runs") (JStr (py "13"))) (py "last_updated")
                   (JStr t) in
    Helpers.update_metadata (store := S) (py "runs") (JStr (py "13"))
      (py "metadata.json") st
    = Helpers.save_metadata (store := S) saved (py "metadata.json") st1 ∧
    world (Helpers.update_metadata (store := S) (py "runs") (JStr (py "13"))
             (py "metadata.json") st).2
    = (open_and_dump (MetadataFiles := S) saved (py "metadata.json")
         (now_isoformat (MetadataFiles := S) (world st0)).2).2 ∧
    (Helpers.update_metadata (store := S) (py "runs") (JStr (py "13"))
       (py "metadata.json") st).1 = Ret () ∧
    Dict.get saved (py "last_updated") = Some (JStr t) ∧
    (py "runs" ≠ py "last_updated" → Dict.get saved (py "runs") = Some (JStr (py "13"))) ∧
    (∀ k, k ≠ py "runs" → k ≠ py "last_updated" → Dict.get saved k = Dict.get d k).
Proof.
  intros d S st.
  assert (H : (open_and_load (MetadataFiles := S) (py "metadata.json") (world st)).1
              = Ret (LoadedDict d) ∨
              (∃ e, (open_and_load (MetadataFiles := S) (py "metadata.json")
                       (world st)).1 = Raise e ∧
                    unreadable e = true ∧ d = [])) by (left; reflexivity).
  exact (update_metadata_saves (store := S) (py "runs") (JStr (py "13"))
           (py "metadata.json") st d H).
Defined.

(** The update of a file that holds two entries: the writer gets three,
    with the reading of the clock under [last_updated]. *)
Example update_metadata_adds_time :
  let d : Dict.t json := [(py "runs", JStr (py "12")); (py "owner", JStr (py "etl"))] in
  let S := metadata_stub (Ret (LoadedDict d)) in
  Helpers.update_metadata (store := S) (py "runs") (JStr (py "13")) (py "metadata.json")
    (initial_state 0)
  = Helpers.save_metadata (store := S)
      [(py "runs", JStr (py "13")); (py "owner", JStr (py "etl"));
       (py "last_updated", JStr (py "2024-05-01T12:00:00"))]
      (py "metadata.json") (initial_state 0).
Proof. vm_compute. reflexivity. Qed.

(** ** [clean_columns] and [sanitize_column_name] *)

Lemma word_of_cleaned c :
  (let d := if bool_decide (Char.lower c = " "%char) then "_"%char else Char.lower c in
   if Char.isword (Char.lower d) then Char.lower d else Char.underscore)
  = (if Char.isword (Char.lower c) then Char.lower c else Char.underscore).
Proof. by_cases_on_char c. Qed.

Lemma space_to_underscore c :
  Char.isspace c = true →
  (if Char.isword (Char.lower c) then Char.lower c else Char.underscore) = Char.underscore.
Proof. by_cases_on_char c. Qed.

Section CleanThenSanitize.
Implicit Types (s t : pystr).

(** Replacing one character by another goes character by character. *)
Lemma str_replace_char (a b : ascii) s :
  str_replace [a] [b] s = (λ c, if bool_decide (c = a) then b else c) <$> s.
Proof.
  unfold str_replace. induction s as [|c s IH]; [done|].
  cbn [replace_from Str.startswith length]. rewrite fmap_cons, <- IH.
  rewrite andb_true_r. destruct (decide (a = c)) as [->|Hne].
  - by rewrite !bool_decide_eq_true_2.
  - rewrite !bool_decide_eq_false_2 by congruence. done.
Qed.

Lemma dropwhile_all cls s t :
  Forall (λ c, cls c = true) s → Str.dropwhile cls (s ++ t) = Str.dropwhile cls t.
Proof. induction 1 as [|c s Hc _ IH]; [done|]. simpl. by rewrite Hc. Qed.

Lemma dropwhile_app cls s t :
  Forall (λ c, cls c = true) t →
  ∃ t', Str.dropwhile cls (s ++ t) = Str.dropwhile cls s ++ t' ∧
        Forall (λ c, cls c = true) t'.
Proof.
  intros Ht. induction s as [|c s IH].
  - exists []. simpl. rewrite <- (app_nil_r t) at 1. by rewrite dropwhile_all.
  - simpl. destruct (cls c); [exact IH|]. by exists t.
Qed.

Lemma rstrip_all cls s t :
  Forall (λ c, cls c = true) t → Str.rstrip cls (s ++ t) = Str.rstrip cls s.
Proof.
  intros Ht. unfold Str.rstrip. rewrite reverse_app, dropwhile_all; [done|].
  by apply Forall_reverse.
Qed.

Lemma strip_chars_ends cls s :
  ∃ pre post, s = pre ++ Str.strip_chars cls s ++ post ∧
              Forall (λ c, cls c = true) pre ∧ Forall (λ c, cls c = true) post.
Proof.
  unfold Str.strip_chars, Str.lstrip, Str.rstrip.
  destruct (dropwhile_split cls s) as (pre & Hpre & Hall).
  destruct (dropwhile_split cls (reverse (Str.dropwhile cls s))) as (post & Hpost & Hall').
  exists pre, (reverse post). split; [|split; [done|by apply Forall_reverse]].
  rewrite Hpre at 1. f_equal.
  rewrite <- reverse_app, <- Hpost. by rewrite reverse_involutive.
Qed.

(** Underscores at either end do not survive collapsing and trimming. *)
Lemma collapse_lead in_run s t :
  Forall (λ c, Char.is_underscore c = true) s →
  Str.dropwhile Char.is_underscore
    (Str.sub_runs_from Char.is_underscore Char.underscore in_run (s ++ t))
  = Str.dropwhile Char.is_underscore
      (Str.sub_runs_from Char.is_underscore Char.underscore false t).
Proof.
  intros Hs. revert in_run. induction Hs as [|c s Hc _ IH]; intros in_run.
  - simpl. destruct t as [|c t]; [done|]. simpl.
    destruct (Char.is_underscore c) eqn:Hc; [|done]. by destruct in_run.
  - simpl. rewrite Hc. destruct in_run; simpl; apply IH.
Qed.

Lemma collapse_trail in_run s t :
  Forall (λ c, Char.is_underscore c = true) t →
  ∃ t', Str.sub_runs_from Char.is_underscore Char.underscore in_run (s ++ t)
        = Str.sub_runs_from Char.is_underscore Char.underscore in_run s ++ t' ∧
        Forall (λ c, Char.is_underscore c = true) t'.
Proof.
  intros Ht. revert in_run. induction s as [|c s IH]; intros in_run.
  - simpl. eexists. split; [reflexivity|].
    apply sub_runs_from_Forall; [done|].
    eapply Forall_impl; [exact Ht|]. by right.
  - simpl. destruct (Char.is_underscore c).
    + destruct (IH true) as (t' & -> & Ht'). destruct in_run; by exists t'.
    + destruct (IH false) as (t' & -> & Ht'). by exists t'.
Qed.

Lemma trimmed_collapse pre s post :
  Forall (λ c, Char.is_underscore c = true) pre →
  Forall (λ c, Char.is_underscore c = true) post →
  Str.strip_chars Char.is_underscore
    (Str.sub_runs Char.is_underscore Char.underscore (pre ++ s ++ post))
  = Str.strip_chars Char.is_underscore
      (Str.sub_runs Char.is_underscore Char.underscore s).
Proof.
  intros Hpre Hpost. unfold Str.strip_chars, Str.lstrip, Str.sub_runs.
  rewrite collapse_lead by done.
  destruct (collapse_trail false s post Hpost) as (t' & -> & Ht').
  destruct (dropwhile_app Char.is_underscore
              (Str.sub_runs_from Char.is_underscore Char.underscore false s) t' Ht')
    as (t'' & -> & Ht'').
  by apply rstrip_all.
Qed.

(** X23: the column cleaning of the inspection script and the sanitizing
    of the loader agree.  Sanitizing a label that [clean_columns] has
    cleaned gives what sanitizing the raw label gives, so a table loads
    under the same column names whether or not it was cleaned first. *)
Theorem sanitize_after_clean label :
  sanitize_column_name (clean_column label) = sanitize_column_name label.
Proof.
  rewrite !sanitize_column_name_refines. unfold sanitize_column_name_spec.
  destruct (strip_chars_ends Char.isspace label) as (pre & post & Hlabel & Hpre & Hpost).
  fold (Str.strip label) in Hlabel.
  assert (Hword : ∀ s, Str.sub_each Char.isword Char.underscore (Str.lower s)
                       = (λ c, if Char.isword (Char.lower c) then Char.lower c
                               else Char.underscore) <$> s).
  { intros s. unfold Str.sub_each, Str.lower. by rewrite <- list_fmap_compose. }
  assert (Hclean : Str.sub_each Char.isword Char.underscore
                     (Str.lower (clean_column label))
                   = Str.sub_each Char.isword Char.underscore
                       (Str.lower (Str.strip label))).
  { rewrite !Hword. unfold clean_column.
    change (py " ") with [" "%char]. change (py "_") with ["_"%char].
    rewrite str_replace_char. unfold Str.lower. rewrite <- !list_fmap_compose.
    apply list_fmap_ext. intros i c _. apply (word_of_cleaned c). }
  rewrite Hclean. rewrite Hlabel at 2. rewrite !Hword, !fmap_app.
  symmetry. apply trimmed_collapse.
  - clear -Hpre. induction Hpre as [|c s Hc _ IH]; [done|].
    rewrite fmap_cons. constructor; [by rewrite space_to_underscore|done].
  - clear -Hpost. induction Hpost as [|c s Hc _ IH]; [done|].
    rewrite fmap_cons. constructor; [by rewrite space_to_underscore|done].
Qed.

End CleanThenSanitize.
